(** * ICD diagnosis-code API: query, pagination, validation and import

    A shallow embedding of the Django application [diagnosis]:
    [models.py], [serializers.py], [views.py] and the management command
    [import_icd.py].  The database tables are lists of rows in insertion
    order, the query-string of a request is a finite map from parameter
    names to values, and a view returns either a response or an exception
    that nobody caught.  What the application inherits from Django and
    from the REST framework (query sets, [Paginator],
    [PageNumberPagination], the fields and validators of a
    [ModelSerializer], [api_view]) is written out under the names it has
    there.

    Text is modelled as [string] with ASCII semantics for case folding and
    white space; integers are unbounded ([Z]), so the interpreter's limit on
    the number of digits [int] accepts is not modelled.  The two timestamp
    columns of each table are filled from the wall clock and take part in
    none of the operations below; they are left out of the rows. *)

From Stdlib Require Import ZArith Ascii String List Lia.
From Stdlib Require Import DecimalString DecimalNat DecimalFacts.
From stdpp Require Import base option strings list gmap sorting.

Local Open Scope string_scope.
Local Open Scope Z_scope.

(** ** Python values the views rely on *)

Module Py.

(** [str.lower] on ASCII text. *)
Definition lower_char (c : ascii) : ascii :=
  let n := N_of_ascii c in
  if ((65 <=? n) && (n <=? 90))%N then ascii_of_N (n + 32) else c.

Fixpoint lower (s : string) : string :=
  match s with
  | EmptyString => EmptyString
  | String c s' => String (lower_char c) (lower s')
  end.

(** Truth value of a string: only the empty string is false. *)
Definition truthy (s : string) : bool :=
  match s with EmptyString => false | String _ _ => true end.

(** The value tested by [if x:] when [x] is a string or [None]: the
    string itself when the test passes. *)
Definition if_truthy (x : option string) : option string :=
  match x with
  | Some s => if truthy s then Some s else None
  | None => None
  end.

(** [str.isspace] for one character. *)
Definition isspace (c : ascii) : bool :=
  let n := N_of_ascii c in
  (((9 <=? n) && (n <=? 13)) || ((28 <=? n) && (n <=? 32)))%N.

Fixpoint lstrip (s : string) : string :=
  match s with
  | EmptyString => EmptyString
  | String c s' => if isspace c then lstrip s' else s
  end.

Fixpoint rstrip (s : string) : string :=
  match s with
  | EmptyString => EmptyString
  | String c s' =>
      match rstrip s' with
      | EmptyString => if isspace c then EmptyString else String c EmptyString
      | r => String c r
      end
  end.

Definition strip (s : string) : string := rstrip (lstrip s).

Definition digit (c : ascii) : option Z :=
  let n := N_of_ascii c in
  if ((48 <=? n) && (n <=? 57))%N then Some (Z.of_N n - 48) else None.

(** The digit part of an integer literal: decimal digits, with single
    underscores allowed between two digits.  [sep] tells that a digit
    must come next (at the start, and after an underscore). *)
Fixpoint digits (sep : bool) (acc : Z) (s : string) : option Z :=
  match s with
  | EmptyString => if sep then None else Some acc
  | String c s' =>
      if Ascii.eqb c "_"
      then (if sep then None else digits true acc s')
      else match digit c with
           | Some d => digits false (10 * acc + d) s'
           | None => None
           end
  end.

(** [int(s)] for a string [s]; [None] stands for [ValueError]. *)
Definition int (s : string) : option Z :=
  match strip s with
  | String "+" r => digits true 0 r
  | String "-" r => Z.opp <$> digits true 0 r
  | t => digits true 0 t
  end.

(** [str(n)] for a natural number, and for an integer. *)
Definition str (n : nat) : string := NilEmpty.string_of_uint (Nat.to_uint n).

Definition str_int (z : Z) : string :=
  if z <? 0 then String "-" (str (Z.to_nat (- z))) else str (Z.to_nat z).

(** [len(s)] *)
Definition len (s : string) : Z := Z.of_nat (String.length s).

(** [needle in hay]: literal substring search. *)
Fixpoint contains (needle hay : string) : bool :=
  String.prefix needle hay ||
  match hay with
  | EmptyString => false
  | String _ hay' => contains needle hay'
  end.

End Py.

(** ** Exceptions and results *)

(** Field-keyed messages of a validation failure, in the order the
    serializer reports them. *)
Abbreviation ErrorDict := (list (string * list string)).

Inductive Exception : Type :=
| ValueError
| KeyError (key : string)
| OverflowError
| NotFound (detail : string)
| Http404
| DoesNotExist
| MultipleObjectsReturned
| IntegrityError
| ProtectedError
| TypeError
| AssertionError
| PageNotAnInteger
| EmptyPage
| ValidationError (detail : ErrorDict).

Inductive result (A : Type) : Type :=
| Ok (a : A)
| Raise (e : Exception).
Arguments Ok {A} a.
Arguments Raise {A} e.

Global Instance result_ret : MRet result := fun A a => Ok a.
Global Instance result_bind : MBind result := fun A B f m =>
  match m with
  | Ok a => f a
  | Raise e => Raise e
  end.

(** ** models.py *)

(** Calendar dates, as day numbers. *)
Definition Date : Type := Z.

Global Instance Date_eq_dec : EqDecision Date.
Proof. unfold Date. apply _. Defined.

(** The rows hold every column of the two models but [created_at] and
    [updated_at]: the clock is no part of this model, so that a [save()]
    that changes no other column, which rewrites [updated_at], leaves a
    row of the model as it is. *)
Module DiagnosisCategory.
Record t : Type := {
  id : Z;
  code : string;
  title : string;
  icd_version : string
}.
Global Instance category_eq_dec : EqDecision t.
Proof. solve_decision. Defined.
End DiagnosisCategory.

Module DiagnosisCode.
Record t : Type := {
  id : Z;
  category_id : option Z;
  diagnosis_code : string;
  full_code : string;
  abbreviated_description : string;
  full_description : string;
  icd_version : string;
  is_active : bool;
  valid_from : option Date;
  valid_to : option Date
}.
Global Instance code_eq_dec : EqDecision t.
Proof. solve_decision. Defined.
End DiagnosisCode.

(** The database: both tables in insertion order and the two primary-key
    sequences. *)
Record DB : Type := {
  categories : list DiagnosisCategory.t;
  codes : list DiagnosisCode.t;
  category_seq : Z;
  code_seq : Z
}.

Global Instance DB_eq_dec : EqDecision DB.
Proof. solve_decision. Defined.

(** *** Ordering: [ordering = ['icd_version', 'full_code']] *)

(** Lexicographic order on pairs of strings, each compared character by
    character. *)
Definition pair_le (k1 k2 : string * string) : Prop :=
  (String.le k1.1 k2.1 /\ k1.1 <> k2.1) \/ (k1.1 = k2.1 /\ String.le k1.2 k2.2).

Definition sort_key (c : DiagnosisCode.t) : string * string :=
  (DiagnosisCode.icd_version c, DiagnosisCode.full_code c).

Definition code_le (c1 c2 : DiagnosisCode.t) : Prop :=
  pair_le (sort_key c1) (sort_key c2).

Global Instance pair_le_dec : RelDecision pair_le.
Proof. intros k1 k2. unfold pair_le. apply _. Defined.

Global Instance code_le_dec : RelDecision code_le.
Proof. intros c1 c2. unfold code_le. apply _. Defined.

(** [queryset.order_by('icd_version', 'full_code')] *)
Definition order_by (queryset : list DiagnosisCode.t) : list DiagnosisCode.t :=
  merge_sort code_le queryset.

(** *** Lookups *)

(** [field__icontains=term]: the term, taken literally, occurs in the
    field when both are folded to one case. *)
Definition icontains (field term : string) : bool :=
  Py.contains (Py.lower term) (Py.lower field).

(** [Q(full_code__icontains=s) | Q(abbreviated_description__icontains=s) |
    Q(full_description__icontains=s)] *)
Definition search_Q (search : string) (c : DiagnosisCode.t) : bool :=
  icontains (DiagnosisCode.full_code c) search
  || icontains (DiagnosisCode.abbreviated_description c) search
  || icontains (DiagnosisCode.full_description c) search.

(** The integers the database takes as a parameter of a query: 64 bits,
    signed.  A query with another one fails with [OverflowError] when it
    is run. *)
Definition fits_database (z : Z) : bool := (- 2 ^ 63 <=? z) && (z <? 2 ^ 63).

(** The related category of a code ([select_related('category')]). *)
Definition category_of (db : DB) (c : DiagnosisCode.t) : option DiagnosisCategory.t :=
  pk ← DiagnosisCode.category_id c;
  head (filter (fun k => DiagnosisCategory.id k = pk) (categories db)).

(** [Model.objects.get(...)] over the rows that match. *)
Definition get {A : Type} (matching : list A) : result A :=
  match matching with
  | [] => Raise DoesNotExist
  | [x] => Ok x
  | _ => Raise MultipleObjectsReturned
  end.

(** ** Pagination *)

(** A page number as the paginator receives it: the text of the query
    parameter, or an integer the framework put in its place. *)
Inductive PageNumber : Type :=
| PageStr (s : string)
| PageInt (n : Z).

(** The exact ceiling of [a / b], for positive [b]. *)
Definition ceil_div (a b : Z) : Z := - ((- a) / b).

(** [object_list[bottom:top]] for indices that are not negative. *)
Definition slice {A : Type} (bottom top : Z) (object_list : list A) : list A :=
  take (Z.to_nat top - Z.to_nat bottom)%nat (drop (Z.to_nat bottom) object_list).

(** [django.core.paginator.Page], with the two attributes of its paginator
    the response reads. *)
Module Page.
Record t (A : Type) : Type := {
  object_list : list A;
  number : Z;
  paginator_count : Z;
  paginator_num_pages : Z
}.
Arguments object_list {A} _.
Arguments number {A} _.
Arguments paginator_count {A} _.
Arguments paginator_num_pages {A} _.

Definition has_next {A} (p : t A) : bool := number p <? paginator_num_pages p.
Definition has_previous {A} (p : t A) : bool := number p >? 1.
End Page.

(** [django.core.paginator.Paginator(object_list, per_page)] with its
    defaults [orphans = 0] and [allow_empty_first_page = True]. *)
Module Paginator.
Section paginator.
Context {A : Type}.
Variable object_list : list A.
Variable per_page : Z.

Definition orphans : Z := 0.
Definition allow_empty_first_page : bool := true.

Definition count : Z := Z.of_nat (length object_list).

Definition num_pages : Z :=
  if (count =? 0) && negb allow_empty_first_page then 0
  else let hits := Z.max 1 (count - orphans) in ceil_div hits per_page.

Definition validate_number (number : PageNumber) : result Z :=
  match (match number with PageStr s => Py.int s | PageInt n => Some n end) with
  | None => Raise PageNotAnInteger
  | Some number =>
      if number <? 1 then Raise EmptyPage
      else if number >? num_pages then Raise EmptyPage
      else Ok number
  end.

Definition page (number : PageNumber) : result (Page.t A) :=
  number ← validate_number number;
  let bottom := (number - 1) * per_page in
  let top := bottom + per_page in
  let top := if top + orphans >=? count then count else top in
  Ok {| Page.object_list := slice bottom top object_list;
        Page.number := number;
        Page.paginator_count := count;
        Page.paginator_num_pages := num_pages |}.
End paginator.
End Paginator.

(** The envelope of a paginated response.  A link is represented by the
    number of the page it addresses. *)
Record Envelope (A : Type) : Type := {
  count : Z;
  next : option Z;
  previous : option Z;
  results : list A
}.
Arguments count {A} _.
Arguments next {A} _.
Arguments previous {A} _.
Arguments results {A} _.

(** [class DiagnosisCodePagination(PageNumberPagination)] *)
Module DiagnosisCodePagination.
Definition page_size : Z := 20.
Definition page_size_query_param : string := "page_size".
Definition max_page_size : Z := 100.
Definition page_query_param : string := "page".
Definition last_page_strings : list string := ["last"].
Definition invalid_page_message : string := "Invalid page.".

(** Cast a string to a strictly positive integer. *)
Definition _positive_int (integer_string : string) (strict : bool) (cutoff : Z)
  : option Z :=
  ret ← Py.int integer_string;
  if (ret <? 0) || ((ret =? 0) && strict) then None
  else if negb (cutoff =? 0) then Some (Z.min ret cutoff)
  else Some ret.

(** A missing parameter ([KeyError]) and a rejected one ([ValueError])
    both fall through to the default. *)
Definition get_page_size (query_params : gmap string string) : Z :=
  match query_params !! page_size_query_param with
  | Some s =>
      match _positive_int s true max_page_size with
      | Some n => n
      | None => page_size
      end
  | None => page_size
  end.

Definition get_page_number (query_params : gmap string string) (num_pages : Z)
  : PageNumber :=
  match query_params !! page_query_param with
  | Some s =>
      if Py.truthy s
      then (if bool_decide (s ∈ last_page_strings) then PageInt num_pages else PageStr s)
      else PageInt 1
  | None => PageInt 1
  end.

(** [None] when pagination is switched off; an invalid page is turned
    into [NotFound(msg)], where [msg] is [invalid_page_message]. *)
Definition paginate_queryset {A} (queryset : list A) (query_params : gmap string string)
  : result (option (Page.t A)) :=
  let page_size := get_page_size query_params in
  if page_size =? 0 then Ok None
  else
    let page_number :=
      get_page_number query_params (Paginator.num_pages queryset page_size) in
    match Paginator.page queryset page_size page_number with
    | Ok p => Ok (Some p)
    | Raise PageNotAnInteger | Raise EmptyPage => Raise (NotFound invalid_page_message)
    | Raise e => Raise e
    end.

Definition get_next_link {A} (p : Page.t A) : option Z :=
  if Page.has_next p then Some (Page.number p + 1) else None.

Definition get_previous_link {A} (p : Page.t A) : option Z :=
  if Page.has_previous p then Some (Page.number p - 1) else None.

Definition get_paginated_response {A B} (p : Page.t A) (data : list B) : Envelope B :=
  {| count := Page.paginator_count p;
     next := get_next_link p;
     previous := get_previous_link p;
     results := data |}.
End DiagnosisCodePagination.

(** ** serializers.py *)

(** The body of a write request on codes, as a sparse set of fields: each
    one is absent or supplied, and the three nullable ones may be supplied
    as null.  Values have the type of their field. *)
Module CodePayload.
Record t : Type := {
  category : option (option Z);
  diagnosis_code : option string;
  full_code : option string;
  abbreviated_description : option string;
  full_description : option string;
  icd_version : option string;
  is_active : option bool;
  valid_from : option (option Date);
  valid_to : option (option Date)
}.
End CodePayload.

(** The validated data handed to [validate] and [save]: the fields that
    were supplied, text trimmed, the category resolved to its row. *)
Module Attrs.
Record t : Type := {
  category : option (option DiagnosisCategory.t);
  diagnosis_code : option string;
  full_code : option string;
  abbreviated_description : option string;
  full_description : option string;
  icd_version : option string;
  is_active : option bool;
  valid_from : option (option Date);
  valid_to : option (option Date)
}.
End Attrs.

(** The outcome of one serializer field: not supplied (and not required),
    a validated value, or messages. *)
Inductive FieldResult (A : Type) : Type :=
| Skipped
| Valid (a : A)
| Invalid (messages : list string).
Arguments Skipped {A}.
Arguments Valid {A} a.
Arguments Invalid {A} messages.

Definition field_value {A} (r : FieldResult A) : option A :=
  match r with Valid a => Some a | _ => None end.

Definition field_errors {A} (name : string) (r : FieldResult A) : ErrorDict :=
  match r with Invalid messages => [(name, messages)] | _ => [] end.

Definition quote : string := String "034" EmptyString.

Module Fields.
Definition required : string := "This field is required.".
Definition blank : string := "This field may not be blank.".
Definition null_characters : string := "Null characters are not allowed.".
Definition max_length_message (max_length : Z) : string :=
  "Ensure this field has no more than " +:+ Py.str_int max_length +:+ " characters.".
Definition does_not_exist (pk : Z) : string :=
  "Invalid pk " +:+ quote +:+ Py.str_int pk +:+ quote +:+ " - object does not exist.".

(** An absent field is an error unless the update is partial or the
    field is optional. *)
Definition run {A B} (is_required partial : bool) (data : option A)
    (to_internal_value : A -> FieldResult B) : FieldResult B :=
  match data with
  | None => if is_required && negb partial then Invalid [required] else Skipped
  | Some a => to_internal_value a
  end.

(** [CharField(max_length=...)]: white space is trimmed, a blank value
    is refused, then the validators run. *)
Definition CharField (max_length : option Z) (data : string) : FieldResult string :=
  let value := Py.strip data in
  if negb (Py.truthy value) then Invalid [blank]
  else
    let too_long :=
      match max_length with
      | Some n => if Py.len value >? n then [max_length_message n] else []
      | None => []
      end in
    let null := if Py.contains (String "000" EmptyString) value
                then [null_characters] else [] in
    match (too_long ++ null)%list with
    | [] => Valid value
    | messages => Invalid messages
    end.

(** [PrimaryKeyRelatedField(queryset=DiagnosisCategory.objects.all(),
    allow_null=True)] *)
Definition PrimaryKeyRelatedField (db : DB) (data : option Z)
  : FieldResult (option DiagnosisCategory.t) :=
  match data with
  | None => Valid None
  | Some pk =>
      match get (filter (fun k => DiagnosisCategory.id k = pk) (categories db)) with
      | Ok k => Valid (Some k)
      | Raise _ => Invalid [does_not_exist pk]
      end
  end.
End Fields.

Module DiagnosisCodeSerializer.

Definition unique_message : string :=
  "The fields full_code, icd_version must make a unique set.".
Definition version_message : string :=
  "Category icd_version must match diagnosis code icd_version".

(** Field-level validation, in the order of [Meta.fields]; the messages
    of every failing field are collected. *)
Definition to_internal_value (db : DB) (partial : bool) (data : CodePayload.t)
  : result Attrs.t :=
  let category :=
    Fields.run false partial (CodePayload.category data) (Fields.PrimaryKeyRelatedField db) in
  let diagnosis_code :=
    Fields.run true partial (CodePayload.diagnosis_code data) (Fields.CharField (Some 20)) in
  let full_code :=
    Fields.run true partial (CodePayload.full_code data) (Fields.CharField (Some 20)) in
  let abbreviated_description :=
    Fields.run true partial (CodePayload.abbreviated_description data)
      (Fields.CharField (Some 255)) in
  let full_description :=
    Fields.run true partial (CodePayload.full_description data) (Fields.CharField None) in
  let icd_version :=
    Fields.run true partial (CodePayload.icd_version data) (Fields.CharField (Some 10)) in
  let errors :=
    (field_errors "category" category
     ++ field_errors "diagnosis_code" diagnosis_code
     ++ field_errors "full_code" full_code
     ++ field_errors "abbreviated_description" abbreviated_description
     ++ field_errors "full_description" full_description
     ++ field_errors "icd_version" icd_version)%list in
  match errors with
  | [] =>
      Ok {| Attrs.category := field_value category;
            Attrs.diagnosis_code := field_value diagnosis_code;
            Attrs.full_code := field_value full_code;
            Attrs.abbreviated_description := field_value abbreviated_description;
            Attrs.full_description := field_value full_description;
            Attrs.icd_version := field_value icd_version;
            Attrs.is_active := CodePayload.is_active data;
            Attrs.valid_from := CodePayload.valid_from data;
            Attrs.valid_to := CodePayload.valid_to data |}
  | _ => Raise (ValidationError errors)
  end.

(** The validator the serializer derives from
    [unique_together = ("full_code", "icd_version")]. *)
Definition UniqueTogetherValidator (db : DB) (instance : option DiagnosisCode.t)
    (attrs : Attrs.t) : result unit :=
  let missing :=
    match instance with
    | Some _ => []
    | None =>
        ((if Attrs.full_code attrs is None then [("full_code", [Fields.required])] else [])
         ++ (if Attrs.icd_version attrs is None
             then [("icd_version", [Fields.required])] else []))%list
    end in
  match missing with
  | _ :: _ => Raise (ValidationError missing)
  | [] =>
      let value (supplied : option string) (current : DiagnosisCode.t -> string) :=
        match supplied with
        | Some v => Some v
        | None => current <$> instance
        end in
      let full_code := value (Attrs.full_code attrs) DiagnosisCode.full_code in
      let icd_version := value (Attrs.icd_version attrs) DiagnosisCode.icd_version in
      let queryset :=
        filter (fun c => Some (DiagnosisCode.full_code c) = full_code
                         /\ Some (DiagnosisCode.icd_version c) = icd_version) (codes db) in
      let queryset :=
        match instance with
        | Some i => filter (fun c => DiagnosisCode.id c <> DiagnosisCode.id i) queryset
        | None => queryset
        end in
      match queryset with
      | [] => Ok ()
      | _ => Raise (ValidationError [("non_field_errors", [unique_message])])
      end
  end.

(** Ensure category.icd_version matches code.icd_version.
    Only validate if both are provided. *)
Definition validate (data : Attrs.t) : result Attrs.t :=
  let category := default None (Attrs.category data) in
  let icd_version := Attrs.icd_version data in
  match category, icd_version with
  | Some category, Some icd_version =>
      if Py.truthy icd_version then
        if bool_decide (DiagnosisCategory.icd_version category <> icd_version)
        then Raise (ValidationError [("icd_version", [version_message])])
        else Ok data
      else Ok data
  | _, _ => Ok data
  end.

(** [serializer.is_valid()]: fields, then validators, then [validate]. *)
Definition run_validation (db : DB) (instance : option DiagnosisCode.t)
    (partial : bool) (data : CodePayload.t) : result Attrs.t :=
  value ← to_internal_value db partial data;
  _ ← UniqueTogetherValidator db instance value;
  validate value.

End DiagnosisCodeSerializer.

Module DiagnosisCodeListSerializer.
(** Lightweight representation for list views.  [category_code] is left
    out for a code without category. *)
Record data : Type := {
  id : Z;
  full_code : string;
  abbreviated_description : string;
  icd_version : string;
  category_code : option string;
  is_active : bool
}.

Definition to_representation (db : DB) (c : DiagnosisCode.t) : data :=
  {| id := DiagnosisCode.id c;
     full_code := DiagnosisCode.full_code c;
     abbreviated_description := DiagnosisCode.abbreviated_description c;
     icd_version := DiagnosisCode.icd_version c;
     category_code := DiagnosisCategory.code <$> category_of db c;
     is_active := DiagnosisCode.is_active c |}.
End DiagnosisCodeListSerializer.

(** The full representation of a code: its columns and the nested
    [category_details]. *)
Record CodeData : Type := {
  instance : DiagnosisCode.t;
  category_details : option DiagnosisCategory.t
}.

Definition code_data (db : DB) (c : DiagnosisCode.t) : CodeData :=
  {| instance := c; category_details := category_of db c |}.

(** ** The storage layer *)

(** [unique_together = ("full_code", "icd_version")], checked by the
    database against every other row. *)
Definition code_conflicts (rows : list DiagnosisCode.t) (c : DiagnosisCode.t)
  : list DiagnosisCode.t :=
  filter (fun r => DiagnosisCode.id r <> DiagnosisCode.id c
                   /\ DiagnosisCode.full_code r = DiagnosisCode.full_code c
                   /\ DiagnosisCode.icd_version r = DiagnosisCode.icd_version c) rows.

(** The foreign key of a code names an existing category, or is null. *)
Definition foreign_key_ok (db : DB) (c : DiagnosisCode.t) : bool :=
  match DiagnosisCode.category_id c with
  | None => true
  | Some pk => bool_decide (Exists (fun k => DiagnosisCategory.id k = pk) (categories db))
  end.

(** INSERT of a code row; the primary key comes from the sequence. *)
Definition insert_code (db : DB) (row : Z -> DiagnosisCode.t)
  : result DiagnosisCode.t * DB :=
  let c := row (code_seq db) in
  match code_conflicts (codes db) c with
  | [] =>
      if foreign_key_ok db c
      then (Ok c, {| categories := categories db;
                     codes := (codes db ++ [c])%list;
                     category_seq := category_seq db;
                     code_seq := code_seq db + 1 |})
      else (Raise IntegrityError, db)
  | _ => (Raise IntegrityError, db)
  end.

(** UPDATE of the code row with the primary key of [c], in the columns the
    rows hold: [updated_at], which every save rewrites, is not one. *)
Definition update_code (db : DB) (c : DiagnosisCode.t) : result DiagnosisCode.t * DB :=
  match code_conflicts (codes db) c with
  | [] =>
      if foreign_key_ok db c
      then (Ok c, {| categories := categories db;
                     codes := (fun r => if bool_decide (DiagnosisCode.id r = DiagnosisCode.id c)
                                        then c else r) <$> codes db;
                     category_seq := category_seq db;
                     code_seq := code_seq db |})
      else (Raise IntegrityError, db)
  | _ => (Raise IntegrityError, db)
  end.

(** DELETE of a code row. *)
Definition delete_code (db : DB) (c : DiagnosisCode.t) : DB :=
  {| categories := categories db;
     codes := filter (fun r => DiagnosisCode.id r <> DiagnosisCode.id c) (codes db);
     category_seq := category_seq db;
     code_seq := code_seq db |}.

(** [category.delete()]: [on_delete=models.PROTECT] on the foreign key of
    [DiagnosisCode] refuses the deletion while a code refers to the
    category. *)
Definition delete_category (db : DB) (k : DiagnosisCategory.t) : result unit * DB :=
  match filter (fun c => DiagnosisCode.category_id c = Some (DiagnosisCategory.id k))
               (codes db) with
  | [] =>
      (Ok (), {| categories := filter (fun r => DiagnosisCategory.id r <> DiagnosisCategory.id k)
                                      (categories db);
                 codes := codes db;
                 category_seq := category_seq db;
                 code_seq := code_seq db |})
  | _ => (Raise ProtectedError, db)
  end.

(** [ModelSerializer.create]: [DiagnosisCode.objects.create] on the validated data;
    a column that was not supplied takes the default of its model field. *)
Definition create_code (db : DB) (validated_data : Attrs.t)
  : result DiagnosisCode.t * DB :=
  insert_code db (fun pk =>
    {| DiagnosisCode.id := pk;
       DiagnosisCode.category_id :=
         DiagnosisCategory.id <$> default None (Attrs.category validated_data);
       DiagnosisCode.diagnosis_code :=
         default EmptyString (Attrs.diagnosis_code validated_data);
       DiagnosisCode.full_code := default EmptyString (Attrs.full_code validated_data);
       DiagnosisCode.abbreviated_description :=
         default EmptyString (Attrs.abbreviated_description validated_data);
       DiagnosisCode.full_description :=
         default EmptyString (Attrs.full_description validated_data);
       DiagnosisCode.icd_version := default EmptyString (Attrs.icd_version validated_data);
       DiagnosisCode.is_active := default true (Attrs.is_active validated_data);
       DiagnosisCode.valid_from := default None (Attrs.valid_from validated_data);
       DiagnosisCode.valid_to := default None (Attrs.valid_to validated_data) |}).

(** [ModelSerializer.update]: every supplied attribute is set on the
    instance, which is then saved. *)
Definition update_instance (i : DiagnosisCode.t) (validated_data : Attrs.t)
  : DiagnosisCode.t :=
  {| DiagnosisCode.id := DiagnosisCode.id i;
     DiagnosisCode.category_id :=
       match Attrs.category validated_data with
       | Some k => DiagnosisCategory.id <$> k
       | None => DiagnosisCode.category_id i
       end;
     DiagnosisCode.diagnosis_code :=
       default (DiagnosisCode.diagnosis_code i) (Attrs.diagnosis_code validated_data);
     DiagnosisCode.full_code :=
       default (DiagnosisCode.full_code i) (Attrs.full_code validated_data);
     DiagnosisCode.abbreviated_description :=
       default (DiagnosisCode.abbreviated_description i)
               (Attrs.abbreviated_description validated_data);
     DiagnosisCode.full_description :=
       default (DiagnosisCode.full_description i) (Attrs.full_description validated_data);
     DiagnosisCode.icd_version :=
       default (DiagnosisCode.icd_version i) (Attrs.icd_version validated_data);
     DiagnosisCode.is_active :=
       default (DiagnosisCode.is_active i) (Attrs.is_active validated_data);
     DiagnosisCode.valid_from :=
       default (DiagnosisCode.valid_from i) (Attrs.valid_from validated_data);
     DiagnosisCode.valid_to :=
       default (DiagnosisCode.valid_to i) (Attrs.valid_to validated_data) |}.

(** *** Categories: serializer and storage *)

Module CategoryPayload.
Record t : Type := {
  code : option string;
  title : option string;
  icd_version : option string
}.
End CategoryPayload.

(** UPDATE of a category row; [unique_together = ("code", "icd_version")]. *)
Definition update_category (db : DB) (k : DiagnosisCategory.t)
  : result DiagnosisCategory.t * DB :=
  match filter (fun r => DiagnosisCategory.id r <> DiagnosisCategory.id k
                         /\ DiagnosisCategory.code r = DiagnosisCategory.code k
                         /\ DiagnosisCategory.icd_version r = DiagnosisCategory.icd_version k)
               (categories db) with
  | [] =>
      (Ok k, {| categories :=
                  (fun r => if bool_decide (DiagnosisCategory.id r = DiagnosisCategory.id k)
                            then k else r) <$> categories db;
                codes := codes db;
                category_seq := category_seq db;
                code_seq := code_seq db |})
  | _ => (Raise IntegrityError, db)
  end.

Module DiagnosisCategorySerializer.

Definition unique_message : string :=
  "The fields code, icd_version must make a unique set.".

Definition to_internal_value (partial : bool) (data : CategoryPayload.t)
  : result CategoryPayload.t :=
  let code :=
    Fields.run true partial (CategoryPayload.code data) (Fields.CharField (Some 20)) in
  let title :=
    Fields.run true partial (CategoryPayload.title data) (Fields.CharField (Some 255)) in
  let icd_version :=
    Fields.run true partial (CategoryPayload.icd_version data)
      (Fields.CharField (Some 10)) in
  let errors :=
    (field_errors "code" code ++ field_errors "title" title
     ++ field_errors "icd_version" icd_version)%list in
  match errors with
  | [] => Ok {| CategoryPayload.code := field_value code;
                CategoryPayload.title := field_value title;
                CategoryPayload.icd_version := field_value icd_version |}
  | _ => Raise (ValidationError errors)
  end.

Definition UniqueTogetherValidator (db : DB) (instance : DiagnosisCategory.t)
    (attrs : CategoryPayload.t) : result unit :=
  let code := default (DiagnosisCategory.code instance) (CategoryPayload.code attrs) in
  let icd_version :=
    default (DiagnosisCategory.icd_version instance) (CategoryPayload.icd_version attrs) in
  match filter (fun r => DiagnosisCategory.id r <> DiagnosisCategory.id instance)
          (filter (fun r => DiagnosisCategory.code r = code
                            /\ DiagnosisCategory.icd_version r = icd_version)
                  (categories db)) with
  | [] => Ok ()
  | _ => Raise (ValidationError [("non_field_errors", [unique_message])])
  end.

Definition run_validation (db : DB) (instance : DiagnosisCategory.t)
    (partial : bool) (data : CategoryPayload.t) : result CategoryPayload.t :=
  value ← to_internal_value partial data;
  _ ← UniqueTogetherValidator db instance value;
  Ok value.

Definition update (i : DiagnosisCategory.t) (validated_data : CategoryPayload.t)
  : DiagnosisCategory.t :=
  {| DiagnosisCategory.id := DiagnosisCategory.id i;
     DiagnosisCategory.code :=
       default (DiagnosisCategory.code i) (CategoryPayload.code validated_data);
     DiagnosisCategory.title :=
       default (DiagnosisCategory.title i) (CategoryPayload.title validated_data);
     DiagnosisCategory.icd_version :=
       default (DiagnosisCategory.icd_version i)
               (CategoryPayload.icd_version validated_data) |}.

End DiagnosisCategorySerializer.

(** ** views.py *)

Inductive Method : Type := GET | POST | PUT | PATCH | DELETE.

Global Instance Method_eq_dec : EqDecision Method.
Proof. solve_decision. Defined.

Definition method_name (method : Method) : string :=
  match method with
  | GET => "GET" | POST => "POST" | PUT => "PUT" | PATCH => "PATCH" | DELETE => "DELETE"
  end.

Module Request.
Record t (P : Type) : Type := {
  method : Method;
  query_params : gmap string string;
  data : P
}.
Arguments method {P} _.
Arguments query_params {P} _.
Arguments data {P} _.
End Request.

Module status.
Definition HTTP_200_OK : Z := 200.
Definition HTTP_201_CREATED : Z := 201.
Definition HTTP_204_NO_CONTENT : Z := 204.
Definition HTTP_400_BAD_REQUEST : Z := 400.
Definition HTTP_404_NOT_FOUND : Z := 404.
Definition HTTP_405_METHOD_NOT_ALLOWED : Z := 405.
End status.

(** What a response carries: a page of list items, one code, one category,
    the field-keyed errors of a serializer, a one-entry object such as
    [{"error": ...}], or the [{"detail": ...}] of an object that
    [get_object_or_404] did not find, whose text is the framework's
    ["Not found."] or the message of [Http404], by its version. *)
Inductive Body : Type :=
| PageBody (envelope : Envelope DiagnosisCodeListSerializer.data)
| CodeBody (code : CodeData)
| CategoryBody (category : DiagnosisCategory.t)
| ErrorsBody (errors : ErrorDict)
| ObjectBody (key value : string)
| NotFoundBody.

Module Response.
Record t : Type := {
  data : Body;
  status_code : Z
}.
End Response.

Definition Response (data : Body) (status : Z) : Response.t :=
  {| Response.data := data; Response.status_code := status |}.

(** [@api_view([...])]: a method that is not listed is answered with 405
    and the detail of [MethodNotAllowed]; [NotFound] becomes a 404
    response with its detail, [Http404] a 404 response, a validation
    error a 400 response; any other exception is not caught. *)
Definition api_view {P} (http_method_names : list Method)
    (view : Request.t P -> DB -> result Response.t * DB)
    (request : Request.t P) (db : DB) : result Response.t * DB :=
  if bool_decide (Request.method request ∈ http_method_names) then
    match view request db with
    | (Raise (NotFound detail), db') =>
        (Ok (Response (ObjectBody "detail" detail) status.HTTP_404_NOT_FOUND), db')
    | (Raise Http404, db') =>
        (Ok (Response NotFoundBody status.HTTP_404_NOT_FOUND), db')
    | (Raise (ValidationError detail), db') =>
        (Ok (Response (ErrorsBody detail) status.HTTP_400_BAD_REQUEST), db')
    | r => r
    end
  else
    (Ok (Response
           (ObjectBody "detail"
              ("Method " +:+ quote +:+ method_name (Request.method request) +:+ quote
               +:+ " not allowed."))
           status.HTTP_405_METHOD_NOT_ALLOWED), db).

(** [get_object_or_404(Model, pk=pk)] *)
Definition get_object_or_404 {A} (matching : list A) : result A :=
  match matching with
  | x :: _ => Ok x
  | [] => Raise Http404
  end.

(** The rows of the queryset of the list view: the filters of the query
    string, then the ordering.  A category id that is not an integer
    makes the filter raise; one that is an integer the database does not
    take makes the query raise when it is run. *)
Definition code_list_queryset (db : DB) (query_params : gmap string string)
  : result (list DiagnosisCode.t) :=
  let queryset := codes db in
  let icd_version := query_params !! "icd_version" in
  let queryset :=
    match Py.if_truthy icd_version with
    | Some icd_version =>
        filter (fun c => DiagnosisCode.icd_version c = icd_version) queryset
    | None => queryset
    end in
  let include_inactive := default "false" (query_params !! "include_inactive") in
  let queryset :=
    if bool_decide (Py.lower include_inactive <> "true")
    then filter (fun c => DiagnosisCode.is_active c = true) queryset
    else queryset in
  let category_id := query_params !! "category" in
  queryset ←
    match Py.if_truthy category_id with
    | Some category_id =>
        match Py.int category_id with
        | Some pk =>
            if fits_database pk
            then Ok (filter (fun c => DiagnosisCode.category_id c = Some pk) queryset)
            else Raise OverflowError
        | None => Raise ValueError
        end
    | None => Ok queryset
    end;
  let search := query_params !! "search" in
  let queryset :=
    match Py.if_truthy search with
    | Some search => filter (fun c => search_Q search c = true) queryset
    | None => queryset
    end in
  Ok (order_by queryset).

(** The page numbers [Paginator.validate_number] refuses before it asks
    for the number of pages: those that are not integers or are below 1.
    [last] and an absent or empty parameter are not among them. *)
Definition page_number_refused (query_params : gmap string string) : bool :=
  match query_params !! DiagnosisCodePagination.page_query_param with
  | Some s =>
      Py.truthy s
      && negb (bool_decide (s ∈ DiagnosisCodePagination.last_page_strings))
      && match Py.int s with Some n => n <? 1 | None => true end
  | None => false
  end.

(** The rows of the requested page of the list view.  The queryset is
    lazy: the paginator is the first to run the query, for the number of
    pages, so that a page number it refuses before that is answered with
    [NotFound] even when the query would fail. *)
Definition code_list_page (db : DB) (query_params : gmap string string)
  : result (Page.t DiagnosisCode.t) :=
  match code_list_queryset db query_params with
  | Raise OverflowError =>
      if page_number_refused query_params
      then Raise (NotFound DiagnosisCodePagination.invalid_page_message)
      else Raise OverflowError
  | queryset =>
      queryset ← queryset;
      paginated ← DiagnosisCodePagination.paginate_queryset queryset query_params;
      match paginated with
      | Some p => Ok p
      | None => Raise TypeError
      end
  end.

Definition diagnosis_code_list_create_view (request : Request.t CodePayload.t) (db : DB)
  : result Response.t * DB :=
  match Request.method request with
  | GET =>
      (p ← code_list_page db (Request.query_params request);
       let data := DiagnosisCodeListSerializer.to_representation db <$> Page.object_list p in
       Ok (Response (PageBody (DiagnosisCodePagination.get_paginated_response p data))
             status.HTTP_200_OK),
       db)
  | POST =>
      match DiagnosisCodeSerializer.run_validation db None false (Request.data request) with
      | Ok validated_data =>
          match create_code db validated_data with
          | (Ok c, db') => (Ok (Response (CodeBody (code_data db' c)) status.HTTP_201_CREATED), db')
          | (Raise e, db') => (Raise e, db')
          end
      | Raise (ValidationError errors) =>
          (Ok (Response (ErrorsBody errors) status.HTTP_400_BAD_REQUEST), db)
      | Raise e => (Raise e, db)
      end
  | _ => (Raise AssertionError, db)
  end.

Definition diagnosis_code_list_create := api_view [GET; POST] diagnosis_code_list_create_view.

Definition diagnosis_code_detail_view (pk : Z) (request : Request.t CodePayload.t) (db : DB)
  : result Response.t * DB :=
  match get_object_or_404 (filter (fun c => DiagnosisCode.id c = pk) (codes db)) with
  | Raise e => (Raise e, db)
  | Ok diagnosis_code =>
      let write (partial : bool) :=
        match DiagnosisCodeSerializer.run_validation db (Some diagnosis_code) partial
                (Request.data request) with
        | Ok validated_data =>
            match update_code db (update_instance diagnosis_code validated_data) with
            | (Ok c, db') => (Ok (Response (CodeBody (code_data db' c)) status.HTTP_200_OK), db')
            | (Raise e, db') => (Raise e, db')
            end
        | Raise (ValidationError errors) =>
            (Ok (Response (ErrorsBody errors) status.HTTP_400_BAD_REQUEST), db)
        | Raise e => (Raise e, db)
        end in
      match Request.method request with
      | GET => (Ok (Response (CodeBody (code_data db diagnosis_code)) status.HTTP_200_OK), db)
      | PUT => write false
      | PATCH => write true
      | DELETE =>
          (Ok (Response (ObjectBody "message" "Diagnosis code deleted successfully")
                 status.HTTP_204_NO_CONTENT),
           delete_code db diagnosis_code)
      | _ => (Raise AssertionError, db)
      end
  end.

Definition diagnosis_code_detail (pk : Z) :=
  api_view [GET; PUT; PATCH; DELETE] (diagnosis_code_detail_view pk).

Definition diagnosis_category_detail_view (pk : Z) (request : Request.t CategoryPayload.t)
    (db : DB) : result Response.t * DB :=
  match get_object_or_404 (filter (fun k => DiagnosisCategory.id k = pk) (categories db)) with
  | Raise e => (Raise e, db)
  | Ok category =>
      match Request.method request with
      | GET => (Ok (Response (CategoryBody category) status.HTTP_200_OK), db)
      | PUT =>
          match DiagnosisCategorySerializer.run_validation db category false
                  (Request.data request) with
          | Ok validated_data =>
              match update_category db
                      (DiagnosisCategorySerializer.update category validated_data) with
              | (Ok k, db') => (Ok (Response (CategoryBody k) status.HTTP_200_OK), db')
              | (Raise e, db') => (Raise e, db')
              end
          | Raise (ValidationError errors) =>
              (Ok (Response (ErrorsBody errors) status.HTTP_400_BAD_REQUEST), db)
          | Raise e => (Raise e, db)
          end
      | DELETE =>
          match delete_category db category with
          | (Ok _, db') =>
              (Ok (Response (ObjectBody "message" "Category deleted successfully")
                     status.HTTP_204_NO_CONTENT), db')
          | (Raise _, db') =>
              (Ok (Response (ObjectBody "error"
                               "Cannot delete category with associated diagnosis codes")
                     status.HTTP_400_BAD_REQUEST), db')
          end
      | _ => (Raise AssertionError, db)
      end
  end.

Definition diagnosis_category_detail (pk : Z) :=
  api_view [GET; PUT; DELETE] (diagnosis_category_detail_view pk).

(** ** management/commands/import_icd.py *)

(** INSERT of a category row. *)
Definition insert_category (db : DB) (row : Z -> DiagnosisCategory.t)
  : result DiagnosisCategory.t * DB :=
  let k := row (category_seq db) in
  match filter (fun r => DiagnosisCategory.code r = DiagnosisCategory.code k
                         /\ DiagnosisCategory.icd_version r = DiagnosisCategory.icd_version k)
               (categories db) with
  | [] => (Ok k, {| categories := (categories db ++ [k])%list;
                    codes := codes db;
                    category_seq := category_seq db + 1;
                    code_seq := code_seq db |})
  | _ => (Raise IntegrityError, db)
  end.

Module import_icd.

Inductive Style : Type := ERROR | WARNING | SUCCESS | MIGRATE_HEADING | PLAIN.

Global Instance Style_eq_dec : EqDecision Style.
Proof. solve_decision. Defined.

(** The state of a run of the command: the database, what was written
    to standard output, and the four counters of [handle]. *)
Record Run : Type := {
  db : DB;
  stdout : list (Style * string);
  categories_count : nat;
  codes_count : nat;
  categories_updated : nat;
  codes_updated : nat
}.

(** Computations of the command: they update the run and may raise. *)
Definition M (A : Type) : Type := Run -> result A * Run.

Definition ret {A} (a : A) : M A := fun s => (Ok a, s).
Definition bind {A B} (m : M A) (f : A -> M B) : M B := fun s =>
  match m s with
  | (Ok a, s') => f a s'
  | (Raise e, s') => (Raise e, s')
  end.
Definition raise {A} (e : Exception) : M A := fun s => (Raise e, s).

Notation "x <~ m ;; k" := (bind m (fun x => k))
  (at level 100, m at next level, right associativity).
Notation "m ;;; k" := (bind m (fun _ => k))
  (at level 100, right associativity).

(** [try: body except KeyError as e: handler e], and the same for
    [DiagnosisCategory.DoesNotExist]; any other exception passes. *)
Definition try_except {A} (body : M A) (on_does_not_exist : M A)
    (on_key_error : string -> M A) : M A := fun s =>
  match body s with
  | (Raise DoesNotExist, s') => on_does_not_exist s'
  | (Raise (KeyError key), s') => on_key_error key s'
  | r => r
  end.

Definition write (style : Style) (text : string) : M unit := fun s =>
  (Ok (), {| db := db s; stdout := (stdout s ++ [(style, text)])%list;
             categories_count := categories_count s; codes_count := codes_count s;
             categories_updated := categories_updated s;
             codes_updated := codes_updated s |}).

Definition with_db {A} (op : DB -> result A * DB) : M A := fun s =>
  let '(r, db') := op (db s) in
  (r, {| db := db'; stdout := stdout s;
         categories_count := categories_count s; codes_count := codes_count s;
         categories_updated := categories_updated s;
         codes_updated := codes_updated s |}).

Definition count_category (created : bool) : M unit := fun s =>
  (Ok (), {| db := db s; stdout := stdout s;
             categories_count := (if created then S else id) (categories_count s);
             codes_count := codes_count s;
             categories_updated := (if created then id else S) (categories_updated s);
             codes_updated := codes_updated s |}).

Definition count_code (created : bool) : M unit := fun s =>
  (Ok (), {| db := db s; stdout := stdout s;
             categories_count := categories_count s;
             codes_count := (if created then S else id) (codes_count s);
             categories_updated := categories_updated s;
             codes_updated := (if created then id else S) (codes_updated s) |}).

(** [row[key]] on a row of [csv.DictReader]. *)
Definition item (row : gmap string string) (key : string) : M string :=
  match row !! key with
  | Some v => ret v
  | None => raise (KeyError key)
  end.

Fixpoint for_each {A} (rows : list A) (body : A -> M unit) : M unit :=
  match rows with
  | [] => ret ()
  | row :: rows' => body row ;;; for_each rows' body
  end.

(** [DiagnosisCategory.objects.get(code=..., icd_version=...)] *)
Definition get_category (code icd_version : string) : M DiagnosisCategory.t :=
  with_db (fun db =>
    (get (filter (fun k => DiagnosisCategory.code k = code
                           /\ DiagnosisCategory.icd_version k = icd_version)
                 (categories db)), db)).

(** [DiagnosisCategory.objects.update_or_create(code=..., icd_version=...,
    defaults={"title": ...})] *)
Definition update_or_create_category (code icd_version title : string)
  : M (DiagnosisCategory.t * bool) :=
  try_except
    (obj <~ get_category code icd_version ;;
     obj <~ with_db (fun db => update_category db
              {| DiagnosisCategory.id := DiagnosisCategory.id obj;
                 DiagnosisCategory.code := DiagnosisCategory.code obj;
                 DiagnosisCategory.title := title;
                 DiagnosisCategory.icd_version := DiagnosisCategory.icd_version obj |}) ;;
     ret (obj, false))
    (obj <~ with_db (fun db => insert_category db (fun pk =>
              {| DiagnosisCategory.id := pk;
                 DiagnosisCategory.code := code;
                 DiagnosisCategory.title := title;
                 DiagnosisCategory.icd_version := icd_version |})) ;;
     ret (obj, true))
    (fun key => raise (KeyError key)).

(** [DiagnosisCode.objects.update_or_create(full_code=..., icd_version=...,
    defaults={...})] *)
Definition update_or_create_code (full_code icd_version : string)
    (category : DiagnosisCategory.t)
    (diagnosis_code abbreviated_description full_description : string)
  : M (DiagnosisCode.t * bool) :=
  try_except
    (obj <~ with_db (fun db =>
              (get (filter (fun c => DiagnosisCode.full_code c = full_code
                                     /\ DiagnosisCode.icd_version c = icd_version)
                           (codes db)), db)) ;;
     obj <~ with_db (fun db => update_code db
              {| DiagnosisCode.id := DiagnosisCode.id obj;
                 DiagnosisCode.category_id := Some (DiagnosisCategory.id category);
                 DiagnosisCode.diagnosis_code := diagnosis_code;
                 DiagnosisCode.full_code := DiagnosisCode.full_code obj;
                 DiagnosisCode.abbreviated_description := abbreviated_description;
                 DiagnosisCode.full_description := full_description;
                 DiagnosisCode.icd_version := DiagnosisCode.icd_version obj;
                 DiagnosisCode.is_active := true;
                 DiagnosisCode.valid_from := DiagnosisCode.valid_from obj;
                 DiagnosisCode.valid_to := DiagnosisCode.valid_to obj |}) ;;
     ret (obj, false))
    (obj <~ with_db (fun db => insert_code db (fun pk =>
              {| DiagnosisCode.id := pk;
                 DiagnosisCode.category_id := Some (DiagnosisCategory.id category);
                 DiagnosisCode.diagnosis_code := diagnosis_code;
                 DiagnosisCode.full_code := full_code;
                 DiagnosisCode.abbreviated_description := abbreviated_description;
                 DiagnosisCode.full_description := full_description;
                 DiagnosisCode.icd_version := icd_version;
                 DiagnosisCode.is_active := true;
                 DiagnosisCode.valid_from := None;
                 DiagnosisCode.valid_to := None |})) ;;
     ret (obj, true))
    (fun key => raise (KeyError key)).

(** The body of the loop over [categories.csv]. *)
Definition import_category (icd_version : string) (row : gmap string string) : M unit :=
  code <~ item row "Category Code" ;;
  title <~ item row "Category Title" ;;
  r <~ update_or_create_category code icd_version title ;;
  count_category r.2.

Definition apostrophe : string := String "039" EmptyString.

(** The body of the loop over [codes.csv], for row number [i]. *)
Definition import_code (icd_version : string) (i : nat) (row : gmap string string)
  : M unit :=
  try_except
    (category_code <~ item row "Category Code" ;;
     category <~ get_category category_code icd_version ;;
     full_code <~ item row "Full Code" ;;
     diagnosis_code <~ item row "Diagnosis Code" ;;
     abbreviated_description <~ item row "Abbreviated Description" ;;
     full_description <~ item row "Full Description" ;;
     r <~ update_or_create_code full_code icd_version category
            diagnosis_code abbreviated_description full_description ;;
     count_code r.2 ;;;
     if (i mod 100 =? 0)%nat
     then write PLAIN ("  Processed " +:+ Py.str i +:+ " codes...")
     else ret ())
    (full_code <~ item row "Full Code" ;;
     category_code <~ item row "Category Code" ;;
     write WARNING ("Category not found for code " +:+ full_code +:+ ": "
                    +:+ category_code))
    (fun key =>
       write ERROR ("CSV format error at row " +:+ Py.str i +:+ ": Missing column "
                    +:+ apostrophe +:+ key +:+ apostrophe) ;;;
       raise (KeyError key)).

Definition newline : string := String "010" EmptyString.
Definition rule : string :=
  "============================================================".

Definition categories_line (s : Run) : string :=
  "Categories: " +:+ Py.str (categories_count s) +:+ " new, "
  +:+ Py.str (categories_updated s) +:+ " updated".

Definition summary (icd_version : string) (s : Run) : string :=
  newline +:+ rule +:+ newline
  +:+ "Import completed for " +:+ icd_version +:+ newline
  +:+ rule +:+ newline
  +:+ categories_line s +:+ newline
  +:+ "Codes: " +:+ Py.str (codes_count s) +:+ " new, "
  +:+ Py.str (codes_updated s) +:+ " updated" +:+ newline
  +:+ rule +:+ newline.

Definition get_state : M Run := fun s => (Ok s, s).

(** The body of [handle]; a file that does not exist is [None].  The two
    messages about a missing file give its path, written here from the
    [data] directory on. *)
Definition handle_body (icd_version : string)
    (categories_file codes_file : option (list (gmap string string))) : M unit :=
  match categories_file with
  | None =>
      write ERROR "Categories file not found: data/categories.csv" ;;;
      write WARNING "Tip: Place CSV files in the 'data/' directory"
  | Some category_rows =>
      match codes_file with
      | None => write ERROR "Codes file not found: data/codes.csv"
      | Some code_rows =>
          write MIGRATE_HEADING
            (newline +:+ " Importing categories for " +:+ icd_version +:+ "...") ;;;
          for_each category_rows (import_category icd_version) ;;;
          s <~ get_state ;;
          write SUCCESS (categories_line s) ;;;
          write MIGRATE_HEADING
            (newline +:+ " Importing diagnosis codes for " +:+ icd_version +:+ "...") ;;;
          for_each (zip (seq 1 (length code_rows)) code_rows)
                   (fun ir => import_code icd_version ir.1 ir.2) ;;;
          s <~ get_state ;;
          write SUCCESS (summary icd_version s)
      end
  end.

(** [@transaction.atomic]: when the body raises, the database is left as
    it was found; what was written to the output stays. *)
Definition atomic {A} (body : M A) : M A := fun s =>
  match body s with
  | (Raise e, s') =>
      (Raise e, {| db := db s; stdout := stdout s';
                   categories_count := categories_count s';
                   codes_count := codes_count s';
                   categories_updated := categories_updated s';
                   codes_updated := codes_updated s' |})
  | r => r
  end.

Definition start (db : DB) : Run :=
  {| db := db; stdout := []; categories_count := 0; codes_count := 0;
     categories_updated := 0; codes_updated := 0 |}.

Definition handle (icd_version : string)
    (categories_file codes_file : option (list (gmap string string))) (db : DB)
  : result unit * Run :=
  atomic (handle_body icd_version categories_file codes_file) (start db).

End import_icd.

(** * Specification vocabulary *)

(** [term] occurs in [text] as a literal substring. *)
Definition occurs (term text : string) : Prop :=
  exists pre post, text = pre +:+ term +:+ post.

(** [term] occurs in [text] when case is ignored. *)
Definition occurs_ci (term text : string) : Prop :=
  occurs (Py.lower term) (Py.lower text).

(** What the list view makes of a query string: each filter that comes
    with a value holds of the code; [include_inactive] is compared in
    lower case. *)
Definition satisfies_filters (q : gmap string string) (c : DiagnosisCode.t) : Prop :=
  (forall v, q !! "icd_version" = Some v -> v <> EmptyString ->
             DiagnosisCode.icd_version c = v)
  /\ (Py.lower (default "false" (q !! "include_inactive")) <> "true" ->
      DiagnosisCode.is_active c = true)
  /\ (forall s, q !! "category" = Some s -> s <> EmptyString ->
                exists pk, Py.int s = Some pk /\ DiagnosisCode.category_id c = Some pk)
  /\ (forall s, q !! "search" = Some s ->
                occurs_ci s (DiagnosisCode.full_code c)
                \/ occurs_ci s (DiagnosisCode.abbreviated_description c)
                \/ occurs_ci s (DiagnosisCode.full_description c)).

(** The same with every supplied filter taken at its word, and
    [include_inactive] compared with ["true"] as it is. *)
Definition satisfies_filters_verbatim (q : gmap string string) (c : DiagnosisCode.t)
  : Prop :=
  (forall v, q !! "icd_version" = Some v -> DiagnosisCode.icd_version c = v)
  /\ (q !! "include_inactive" <> Some "true" -> DiagnosisCode.is_active c = true)
  /\ (forall s, q !! "category" = Some s ->
                exists pk, Py.int s = Some pk /\ DiagnosisCode.category_id c = Some pk)
  /\ (forall s, q !! "search" = Some s ->
                occurs_ci s (DiagnosisCode.full_code c)
                \/ occurs_ci s (DiagnosisCode.abbreviated_description c)
                \/ occurs_ci s (DiagnosisCode.full_description c)).

(** The parameters of the query string the list view reads. *)
Definition list_parameters : list string :=
  ["icd_version"; "include_inactive"; "category"; "search"; "page"; "page_size"].


(** The same request with another query string. *)
Definition with_query {P} (request : Request.t P) (q : gmap string string) : Request.t P :=
  {| Request.method := Request.method request;
     Request.query_params := q;
     Request.data := Request.data request |}.

(** The rows of page [n] of the list view, for the query string [q]
    without its [page] parameter. *)
Definition page_of (db : DB) (q : gmap string string) (n : nat)
  : result (Page.t DiagnosisCode.t) :=
  code_list_page db (<["page" := Py.str n]> q).

Definition page_items (db : DB) (q : gmap string string) (n : nat) : list DiagnosisCode.t :=
  match page_of db q n with
  | Ok p => Page.object_list p
  | Raise _ => []
  end.

(** The order of two list items. *)
Definition item_key (item : DiagnosisCodeListSerializer.data) : string * string :=
  (DiagnosisCodeListSerializer.icd_version item, DiagnosisCodeListSerializer.full_code item).

(** The writes on codes: create (POST on the list), full update (PUT) and
    partial update (PATCH) of the code with a primary key. *)
Inductive WriteOp : Type :=
| Create
| Update (pk : Z)
| PartialUpdate (pk : Z).

Definition write_request (method : Method) (data : CodePayload.t)
  : Request.t CodePayload.t :=
  {| Request.method := method; Request.query_params := ∅; Request.data := data |}.

Definition run_write (op : WriteOp) (data : CodePayload.t) (db : DB)
  : result Response.t * DB :=
  match op with
  | Create => diagnosis_code_list_create (write_request POST data) db
  | Update pk => diagnosis_code_detail pk (write_request PUT data) db
  | PartialUpdate pk => diagnosis_code_detail pk (write_request PATCH data) db
  end.

Definition write_partial (op : WriteOp) : bool :=
  match op with PartialUpdate _ => true | _ => false end.

(** The instance the serializer of a write is built on: none for a
    create, the stored code for an update. *)
Definition write_instance (db : DB) (op : WriteOp) : option (option DiagnosisCode.t) :=
  match op with
  | Create => Some None
  | Update pk | PartialUpdate pk =>
      Some <$> head (filter (fun c => DiagnosisCode.id c = pk) (codes db))
  end.

(** The database after the insertion of the code [c]. *)
Definition with_new_code (db : DB) (c : DiagnosisCode.t) : DB :=
  {| categories := categories db;
     codes := (codes db ++ [c])%list;
     category_seq := category_seq db;
     code_seq := code_seq db + 1 |}.

(** A row of the code file whose category is not in the table. *)
Definition unresolved (db : DB) (icd_version : string) (row : gmap string string) : Prop :=
  exists category_code,
    row !! "Category Code" = Some category_code
    /\ Forall (fun k => ~ (DiagnosisCategory.code k = category_code
                           /\ DiagnosisCategory.icd_version k = icd_version))
              (categories db).

Global Instance unresolved_dec db icd_version row : Decision (unresolved db icd_version row).
Proof.
  unfold unresolved. destruct (row !! "Category Code") as [category_code|].
  - destruct (decide (Forall (fun k => ~ (DiagnosisCategory.code k = category_code
                                          /\ DiagnosisCategory.icd_version k = icd_version))
                             (categories db))) as [H|H].
    + left. eauto.
    + right. intros (c & [= <-] & ?). done.
  - right. intros (c & ? & _). done.
Defined.

(** The number of rows of the code file a run skips: those whose category
    is not in the table once the category file is in. *)
Definition skipped (r : import_icd.Run) (icd_version : string)
    (codes_file : list (gmap string string)) : nat :=
  length (filter (unresolved (import_icd.db r) icd_version) codes_file).

(** The last thing a completed run writes tells the number of skipped
    rows: some reading of the text gives it, for every run. *)
Definition summary_reports_skipped : Prop :=
  exists report : string -> nat,
    forall (icd_version : string) (categories_file codes_file : list (gmap string string))
           (db : DB) (r : import_icd.Run),
      import_icd.handle icd_version (Some categories_file) (Some codes_file) db = (Ok (), r) ->
      exists text,
        last (import_icd.stdout r) = Some (import_icd.SUCCESS, text)
        /\ report text = skipped r icd_version codes_file.

(** ** Sample data *)

Module Sample.

Definition category_10 : DiagnosisCategory.t :=
  {| DiagnosisCategory.id := 1; DiagnosisCategory.code := "A0";
     DiagnosisCategory.title := "Test Category";
     DiagnosisCategory.icd_version := "ICD-10" |}.

Definition category_9 : DiagnosisCategory.t :=
  {| DiagnosisCategory.id := 2; DiagnosisCategory.code := "A0";
     DiagnosisCategory.title := "Unused Category";
     DiagnosisCategory.icd_version := "ICD-9" |}.

Definition code (pk : Z) (category : option Z) (full_code icd_version : string)
    (is_active : bool) : DiagnosisCode.t :=
  {| DiagnosisCode.id := pk;
     DiagnosisCode.category_id := category;
     DiagnosisCode.diagnosis_code := "1234";
     DiagnosisCode.full_code := full_code;
     DiagnosisCode.abbreviated_description := "Test abbrev";
     DiagnosisCode.full_description := "Test full description";
     DiagnosisCode.icd_version := icd_version;
     DiagnosisCode.is_active := is_active;
     DiagnosisCode.valid_from := None;
     DiagnosisCode.valid_to := None |}.

Definition code_1 : DiagnosisCode.t := code 1 (Some 1) "A01234" "ICD-10" true.
Definition code_2 : DiagnosisCode.t := code 2 (Some 1) "A01235" "ICD-10" false.
Definition code_3 : DiagnosisCode.t := code 3 None "0010" "ICD-9" true.

Definition db : DB :=
  {| categories := [category_10; category_9];
     codes := [code_1; code_2; code_3];
     category_seq := 3;
     code_seq := 4 |}.

Definition no_payload : CodePayload.t :=
  {| CodePayload.category := None; CodePayload.diagnosis_code := None;
     CodePayload.full_code := None; CodePayload.abbreviated_description := None;
     CodePayload.full_description := None; CodePayload.icd_version := None;
     CodePayload.is_active := None; CodePayload.valid_from := None;
     CodePayload.valid_to := None |}.

Definition GET_codes (q : gmap string string) : Request.t CodePayload.t :=
  {| Request.method := GET; Request.query_params := q; Request.data := no_payload |}.

Definition item (c : DiagnosisCode.t) : DiagnosisCodeListSerializer.data :=
  DiagnosisCodeListSerializer.to_representation db c.

Definition page_200 (count : Z) (next previous : option Z)
    (rows : list DiagnosisCode.t) : Response.t :=
  Response (PageBody {| count := count; next := next; previous := previous;
                        results := item <$> rows |}) status.HTTP_200_OK.

Definition DELETE_category : Request.t CategoryPayload.t :=
  {| Request.method := DELETE; Request.query_params := ∅;
     Request.data := {| CategoryPayload.code := None; CategoryPayload.title := None;
                        CategoryPayload.icd_version := None |} |}.

(** A complete payload for a code. *)
Definition payload (category : option Z) (full_code icd_version : string)
  : CodePayload.t :=
  {| CodePayload.category := Some category;
     CodePayload.diagnosis_code := Some "1234";
     CodePayload.full_code := Some full_code;
     CodePayload.abbreviated_description := Some "Duplicate";
     CodePayload.full_description := Some "Duplicate";
     CodePayload.icd_version := Some icd_version;
     CodePayload.is_active := Some true;
     CodePayload.valid_from := None;
     CodePayload.valid_to := None |}.

Definition empty_db : DB :=
  {| categories := []; codes := []; category_seq := 1; code_seq := 1 |}.

Definition category_row (code title : string) : gmap string string :=
  {[ "Category Code" := code; "Category Title" := title ]}.

Definition code_row (category_code diagnosis_code full_code : string)
  : gmap string string :=
  {[ "Category Code" := category_code; "Diagnosis Code" := diagnosis_code;
     "Full Code" := full_code; "Abbreviated Description" := "Cholera";
     "Full Description" := "Cholera, unspecified" ]}.

Definition categories_file : list (gmap string string) := [category_row "A00" "Cholera"].
Definition codes_file : list (gmap string string) := [code_row "A00" "9" "A009"].
Definition codes_file_orphan : list (gmap string string) :=
  [code_row "A00" "9" "A009"; code_row "B99" "9" "B999"].

(** The two runs of the import on the empty database, evaluated. *)
Definition run_1 : result unit * import_icd.Run :=
  Eval vm_compute in
    import_icd.handle "ICD-10" (Some categories_file) (Some codes_file) empty_db.

Definition run_2 : result unit * import_icd.Run :=
  Eval vm_compute in
    import_icd.handle "ICD-10" (Some categories_file) (Some codes_file_orphan) empty_db.

End Sample.

(** * Further definitions *)

(** ** Integrity of the database *)

(** The pairs that [unique_together] names in [models.py]. *)
Definition category_key (k : DiagnosisCategory.t) : string * string :=
  (DiagnosisCategory.code k, DiagnosisCategory.icd_version k).

Definition code_key (c : DiagnosisCode.t) : string * string :=
  (DiagnosisCode.full_code c, DiagnosisCode.icd_version c).

(** What the tables of [models.py] promise: primary keys are unique and
    were issued by the sequence of their table, the pairs of
    [unique_together] are unique, and the foreign key of every code names
    a stored category or is null. *)
Record db_ok (db : DB) : Prop := {
  category_ids_unique : NoDup (DiagnosisCategory.id <$> categories db);
  category_ids_issued :
    Forall (fun k => DiagnosisCategory.id k < category_seq db) (categories db);
  category_keys_unique : NoDup (category_key <$> categories db);
  code_ids_unique : NoDup (DiagnosisCode.id <$> codes db);
  code_ids_issued : Forall (fun c => DiagnosisCode.id c < code_seq db) (codes db);
  code_keys_unique : NoDup (code_key <$> codes db);
  code_categories_exist : Forall (fun c => foreign_key_ok db c = true) (codes db)
}.

(** The text fields a code cannot do without, with their names. *)
Definition required_text_fields : list (string * (CodePayload.t -> option string)) :=
  [("diagnosis_code", CodePayload.diagnosis_code);
   ("full_code", CodePayload.full_code);
   ("abbreviated_description", CodePayload.abbreviated_description);
   ("full_description", CodePayload.full_description);
   ("icd_version", CodePayload.icd_version)].

(** A request with a method and a payload, without query string. *)
Definition category_request (method : Method) (data : CategoryPayload.t)
  : Request.t CategoryPayload.t :=
  {| Request.method := method; Request.query_params := ∅; Request.data := data |}.

(** ** Further sample data *)

Module Sample2.

(** The second page of two items of all three codes. *)
Definition page_2_request : Request.t CodePayload.t :=
  Sample.GET_codes {["include_inactive" := "true"; "page_size" := "2"; "page" := "2"]}.

Definition page_2_envelope : Envelope DiagnosisCodeListSerializer.data :=
  {| count := 3; next := None; previous := Some 1;
     results := [Sample.item Sample.code_3] |}.

Definition DELETE_code : Request.t CodePayload.t := write_request DELETE Sample.no_payload.

Definition GET_code : Request.t CodePayload.t := write_request GET Sample.no_payload.


(** A payload without [full_code]. *)
Definition without_full_code : CodePayload.t :=
  {| CodePayload.category := Some (Some 1); CodePayload.diagnosis_code := Some "1234";
     CodePayload.full_code := None; CodePayload.abbreviated_description := Some "Test";
     CodePayload.full_description := Some "Test"; CodePayload.icd_version := Some "ICD-10";
     CodePayload.is_active := None; CodePayload.valid_from := None;
     CodePayload.valid_to := None |}.

(** The code a create of [Sample.payload (Some 2) "A01234" "ICD-9"] on
    [Sample.db] stores. *)
Definition code_4 : DiagnosisCode.t :=
  {| DiagnosisCode.id := 4; DiagnosisCode.category_id := Some 2;
     DiagnosisCode.diagnosis_code := "1234";
     DiagnosisCode.full_code := "A01234";
     DiagnosisCode.abbreviated_description := "Duplicate";
     DiagnosisCode.full_description := "Duplicate";
     DiagnosisCode.icd_version := "ICD-9";
     DiagnosisCode.is_active := true;
     DiagnosisCode.valid_from := None;
     DiagnosisCode.valid_to := None |}.

(** A PUT that moves the first category of [Sample.db], to which two
    codes of ICD-10 refer, to ICD-11, with the response and the database
    it leaves. *)
Definition PUT_category : Request.t CategoryPayload.t :=
  category_request PUT
    {| CategoryPayload.code := Some "A0"; CategoryPayload.title := Some " Moved ";
       CategoryPayload.icd_version := Some "ICD-11" |}.

Definition category_11 : DiagnosisCategory.t :=
  {| DiagnosisCategory.id := 1; DiagnosisCategory.code := "A0";
     DiagnosisCategory.title := "Moved";
     DiagnosisCategory.icd_version := "ICD-11" |}.

Definition PUT_category_response : Response.t :=
  Response (CategoryBody category_11) status.HTTP_200_OK.

Definition db_after_PUT_category : DB :=
  {| categories := [category_11; Sample.category_9];
     codes := codes Sample.db;
     category_seq := 3;
     code_seq := 4 |}.

End Sample2.

(** ** The files of the import *)

(** The columns [handle] reads from a row of [categories.csv] and from a
    row of [codes.csv]. *)
Definition category_columns : list string := ["Category Code"; "Category Title"].

Definition code_columns : list string :=
  ["Category Code"; "Full Code"; "Diagnosis Code"; "Abbreviated Description";
   "Full Description"].

Definition has_columns (columns : list string) (row : gmap string string) : Prop :=
  Forall (fun column => is_Some (row !! column)) columns.

Global Instance has_columns_dec columns row : Decision (has_columns columns row).
Proof. unfold has_columns. apply _. Defined.

(** The number of warnings a run has written. *)
Definition warnings (r : import_icd.Run) : nat :=
  length (filter (fun line => line.1 = import_icd.WARNING) (import_icd.stdout r)).

(** The key under which [handle] looks a row of either file up. *)
Definition row_category_key (icd_version : string) (row : gmap string string)
  : string * string :=
  (default EmptyString (row !! "Category Code"), icd_version).

Definition row_code_key (icd_version : string) (row : gmap string string)
  : string * string :=
  (default EmptyString (row !! "Full Code"), icd_version).

(** ** views.py: the list view of categories *)

(** [ordering = ['icd_version', 'code']] *)
Definition category_sort_key (k : DiagnosisCategory.t) : string * string :=
  (DiagnosisCategory.icd_version k, DiagnosisCategory.code k).

Definition category_le (k1 k2 : DiagnosisCategory.t) : Prop :=
  pair_le (category_sort_key k1) (category_sort_key k2).

Global Instance category_le_dec : RelDecision category_le.
Proof. intros k1 k2. unfold category_le. apply _. Defined.

(** [queryset.order_by('icd_version', 'code')] *)
Definition order_by_category (queryset : list DiagnosisCategory.t)
  : list DiagnosisCategory.t :=
  merge_sort category_le queryset.

(** The queryset of the GET branch. *)
Definition category_list_queryset (db : DB) (query_params : gmap string string)
  : list DiagnosisCategory.t :=
  let queryset := categories db in
  let icd_version := query_params !! "icd_version" in
  let queryset :=
    match Py.if_truthy icd_version with
    | Some icd_version =>
        filter (fun k => DiagnosisCategory.icd_version k = icd_version) queryset
    | None => queryset
    end in
  order_by_category queryset.

(** [DiagnosisCategorySerializer(data=...).is_valid()]: there is no
    instance, so the validator of [unique_together] looks at every
    row. *)
Definition category_create_validation (db : DB) (data : CategoryPayload.t)
  : result CategoryPayload.t :=
  value ← DiagnosisCategorySerializer.to_internal_value false data;
  match filter (fun r => DiagnosisCategory.code r
                         = default EmptyString (CategoryPayload.code value)
                         /\ DiagnosisCategory.icd_version r
                            = default EmptyString (CategoryPayload.icd_version value))
               (categories db) with
  | [] => Ok value
  | _ => Raise (ValidationError
                  [("non_field_errors", [DiagnosisCategorySerializer.unique_message])])
  end.

(** [ModelSerializer.create]: [DiagnosisCategory.objects.create] on the
    validated data. *)
Definition create_category (db : DB) (validated_data : CategoryPayload.t)
  : result DiagnosisCategory.t * DB :=
  insert_category db (fun pk =>
    {| DiagnosisCategory.id := pk;
       DiagnosisCategory.code :=
         default EmptyString (CategoryPayload.code validated_data);
       DiagnosisCategory.title :=
         default EmptyString (CategoryPayload.title validated_data);
       DiagnosisCategory.icd_version :=
         default EmptyString (CategoryPayload.icd_version validated_data) |}).

(** What a response of this view carries: a page of categories, the
    category that was created, the errors of the serializer, or the
    [{"detail": ...}] the framework writes for the status. *)
Inductive CategoryListBody : Type :=
| CategoryPageBody (envelope : Envelope DiagnosisCategory.t)
| CreatedBody (category : DiagnosisCategory.t)
| InvalidBody (errors : ErrorDict)
| DetailBody.

Module CategoryListResponse.
Record t : Type := {
  data : CategoryListBody;
  status_code : Z
}.
End CategoryListResponse.

Definition diagnosis_category_list_create_view (request : Request.t CategoryPayload.t)
    (db : DB) : result CategoryListResponse.t * DB :=
  match Request.method request with
  | GET =>
      let queryset := category_list_queryset db (Request.query_params request) in
      (paginated ← DiagnosisCodePagination.paginate_queryset queryset
                     (Request.query_params request);
       match paginated with
       | Some p =>
           Ok {| CategoryListResponse.data :=
                   CategoryPageBody
                     (DiagnosisCodePagination.get_paginated_response p (Page.object_list p));
                 CategoryListResponse.status_code := status.HTTP_200_OK |}
       | None => Raise TypeError
       end,
       db)
  | POST =>
      match category_create_validation db (Request.data request) with
      | Ok validated_data =>
          match create_category db validated_data with
          | (Ok k, db') =>
              (Ok {| CategoryListResponse.data := CreatedBody k;
                     CategoryListResponse.status_code := status.HTTP_201_CREATED |}, db')
          | (Raise e, db') => (Raise e, db')
          end
      | Raise (ValidationError errors) =>
          (Ok {| CategoryListResponse.data := InvalidBody errors;
                 CategoryListResponse.status_code := status.HTTP_400_BAD_REQUEST |}, db)
      | Raise e => (Raise e, db)
      end
  | _ => (Raise AssertionError, db)
  end.

(** [@api_view(['GET', 'POST'])] on this view: as [api_view] does, with
    the responses of this view. *)
Definition diagnosis_category_list_create (request : Request.t CategoryPayload.t)
    (db : DB) : result CategoryListResponse.t * DB :=
  if bool_decide (Request.method request ∈ [GET; POST]) then
    match diagnosis_category_list_create_view request db with
    | (Raise (NotFound _), db') | (Raise Http404, db') =>
        (Ok {| CategoryListResponse.data := DetailBody;
               CategoryListResponse.status_code := status.HTTP_404_NOT_FOUND |}, db')
    | (Raise (ValidationError detail), db') =>
        (Ok {| CategoryListResponse.data := InvalidBody detail;
               CategoryListResponse.status_code := status.HTTP_400_BAD_REQUEST |}, db')
    | r => r
    end
  else
    (Ok {| CategoryListResponse.data := DetailBody;
           CategoryListResponse.status_code := status.HTTP_405_METHOD_NOT_ALLOWED |}, db).

(** The filter of the GET branch, as a property of a category. *)
Definition category_listed (query_params : gmap string string) (k : DiagnosisCategory.t)
  : Prop :=
  match query_params !! "icd_version" with
  | Some icd_version =>
      icd_version <> EmptyString -> DiagnosisCategory.icd_version k = icd_version
  | None => True
  end.

Global Instance category_listed_dec query_params k : Decision (category_listed query_params k).
Proof. unfold category_listed. destruct (query_params !! "icd_version"); apply _. Defined.

(** Requests to the views of categories. *)
Definition GET_categories (query_params : gmap string string)
  : Request.t CategoryPayload.t :=
  {| Request.method := GET; Request.query_params := query_params;
     Request.data := {| CategoryPayload.code := None; CategoryPayload.title := None;
                        CategoryPayload.icd_version := None |} |}.

Definition POST_category (code title icd_version : string) : Request.t CategoryPayload.t :=
  category_request POST
    {| CategoryPayload.code := Some code; CategoryPayload.title := Some title;
       CategoryPayload.icd_version := Some icd_version |}.

(** * Properties *)

(** ** Python values *)

Example int_plain : Py.int "42" = Some 42.
Proof. reflexivity. Qed.
Example int_spaces_sign : Py.int "  -007 " = Some (-7).
Proof. reflexivity. Qed.
Example int_underscore : Py.int "1_000" = Some 1000.
Proof. reflexivity. Qed.
Example int_bad : Py.int "1__0" = None /\ Py.int "_1" = None /\ Py.int EmptyString = None
                  /\ Py.int "abc" = None /\ Py.int "1.5" = None /\ Py.int "- 5" = None.
Proof. repeat split; reflexivity. Qed.
Example str_25 : Py.str 25 = "25".
Proof. reflexivity. Qed.
Example lower_true : Py.lower "TrUe" = "true".
Proof. reflexivity. Qed.
Example contains_mid : Py.contains "21" "C210000" = true /\ Py.contains "x" "C21" = false.
Proof. split; reflexivity. Qed.

(** ** Text *)

Lemma prefix_occurs (s1 s2 : string) :
  String.prefix s1 s2 = true <-> exists post, s2 = s1 +:+ post.
Proof.
  revert s2. induction s1 as [|a s1 IH]; intros s2.
  - destruct s2; (split; [intros _; by eexists|done]).
  - destruct s2 as [|b s2]; cbn.
    + split; [done|intros [post H]; discriminate].
    + destruct (ascii_dec a b) as [->|Hab].
      * rewrite IH. split; intros [post H]; exists post.
        -- by rewrite H.
        -- by injection H.
      * split; [done|]. intros [post H]. injection H as ??. congruence.
Qed.

Lemma contains_occurs (needle hay : string) :
  Py.contains needle hay = true <-> occurs needle hay.
Proof.
  unfold occurs. induction hay as [|c hay IH]; cbn [Py.contains].
  - rewrite orb_false_r, prefix_occurs. split.
    + intros [post H]. by exists EmptyString, post.
    + intros [[|a pre] [post H]]; [by exists post|discriminate].
  - rewrite orb_true_iff, prefix_occurs, IH. split.
    + intros [[post H]|(pre & post & H)].
      * by exists EmptyString, post.
      * exists (String c pre), post. cbn. by rewrite H.
    + intros [[|a pre] [post H]].
      * left. by exists post.
      * right. exists pre, post. cbn in H. by injection H.
Qed.

Lemma icontains_occurs_ci (field term : string) :
  icontains field term = true <-> occurs_ci term field.
Proof. apply contains_occurs. Qed.

Lemma truthy_nonempty (s : string) : Py.truthy s = true <-> s <> EmptyString.
Proof. by destruct s. Qed.

Lemma if_truthy_Some (x : option string) (s : string) :
  Py.if_truthy x = Some s <-> x = Some s /\ s <> EmptyString.
Proof.
  destruct x as [[|a t]|]; simpl; split; try done; try (by intros [? ?]).
  - intros [[= <-] ?]. done.
  - intros [= <-]. done.
Qed.

Lemma if_truthy_None (x : option string) :
  Py.if_truthy x = None <-> x = None \/ x = Some EmptyString.
Proof.
  destruct x as [[|a t]|]; simpl; split; try done; auto.
  - intros [?|?]; done.
Qed.

(** ** The ordering *)

Global Instance pair_le_trans : Transitive pair_le.
Proof.
  intros [a1 b1] [a2 b2] [a3 b3]. unfold pair_le; simpl.
  intros [[H1 N1]|[-> H1]] [[H2 N2]|[-> H2]].
  - left. split; [by etrans|]. intros ->. apply N1. by apply (anti_symm String.le).
  - by left.
  - by left.
  - right. split; [done|by etrans].
Qed.

Global Instance pair_le_total : Total pair_le.
Proof.
  intros [a1 b1] [a2 b2]. unfold pair_le; simpl.
  destruct (decide (a1 = a2)) as [->|Hne].
  - destruct (total String.le b1 b2); [left|right]; by right.
  - destruct (total String.le a1 a2); [left|right]; left; split; congruence.
Qed.

Global Instance pair_le_refl : Reflexive pair_le.
Proof. intros [a b]. right. done. Qed.

Lemma pair_le_antisymm (k1 k2 : string * string) :
  pair_le k1 k2 -> pair_le k2 k1 -> k1 = k2.
Proof.
  destruct k1 as [a1 b1], k2 as [a2 b2]. unfold pair_le; cbn.
  intros [[H1 N1]|[-> H1]] [[H2 N2]|[E2 H2]]; try congruence.
  - destruct N1. by apply (anti_symm String.le).
  - f_equal. by apply (anti_symm String.le).
Qed.

Global Instance code_le_trans : Transitive code_le.
Proof. intros x y z. unfold code_le. apply pair_le_trans. Qed.

Global Instance code_le_total : Total code_le.
Proof. intros x y. unfold code_le. apply pair_le_total. Qed.

Lemma order_by_sorted (queryset : list DiagnosisCode.t) :
  StronglySorted code_le (order_by queryset).
Proof. apply StronglySorted_merge_sort; apply _. Qed.

Lemma order_by_perm (queryset : list DiagnosisCode.t) : order_by queryset ≡ₚ queryset.
Proof. apply merge_sort_Permutation. Qed.

Lemma elem_of_order_by (c : DiagnosisCode.t) (queryset : list DiagnosisCode.t) :
  c ∈ order_by queryset <-> c ∈ queryset.
Proof. by rewrite order_by_perm. Qed.

(** ** Decimal numerals *)

Lemma digits_string_of_uint (d : Decimal.uint) :
  forall (sep : bool) (acc : nat),
    (d = Decimal.Nil -> sep = false) ->
    Py.digits sep (Z.of_nat acc) (NilEmpty.string_of_uint d)
    = Some (Z.of_nat (Nat.of_uint_acc d acc)).
Proof.
  induction d as [|d IH|d IH|d IH|d IH|d IH|d IH|d IH|d IH|d IH|d IH];
    intros sep acc Hsep;
    cbn [NilEmpty.string_of_uint Nat.of_uint_acc Py.digits].
  1: { by rewrite Hsep. }
  all: match goal with
       | |- context [Py.digit ?c] =>
           let v := eval vm_compute in (Py.digit c) in
           change (Py.digit c) with v
       end;
       match goal with
       | |- context [Ascii.eqb ?c ?u] => change (Ascii.eqb c u) with false
       end;
       cbv iota;
       match goal with
       | |- Py.digits false ?z _ = Some (Z.of_nat (Nat.of_uint_acc _ ?n)) =>
           replace z with (Z.of_nat n) by (rewrite Nat.tail_mul_spec; lia)
       end;
       apply IH; by destruct d.
Qed.

Lemma rstrip_string_of_uint (d : Decimal.uint) :
  Py.rstrip (NilEmpty.string_of_uint d) = NilEmpty.string_of_uint d.
Proof.
  induction d as [|d IH|d IH|d IH|d IH|d IH|d IH|d IH|d IH|d IH|d IH];
    cbn [NilEmpty.string_of_uint Py.rstrip]; [done|..];
    rewrite IH; by destruct (NilEmpty.string_of_uint d).
Qed.

Lemma int_string_of_uint (d : Decimal.uint) :
  d <> Decimal.Nil ->
  Py.int (NilEmpty.string_of_uint d) = Some (Z.of_nat (Nat.of_uint d)).
Proof.
  intros Hd. unfold Py.int, Py.strip.
  assert (Py.lstrip (NilEmpty.string_of_uint d) = NilEmpty.string_of_uint d) as ->.
  { by destruct d. }
  rewrite rstrip_string_of_uint.
  pose proof (digits_string_of_uint d true 0%nat) as H.
  change (Z.of_nat 0) with 0 in H.
  destruct d; try done; cbn [NilEmpty.string_of_uint] in *; by apply H.
Qed.

Lemma to_uint_nonnil (n : nat) : Nat.to_uint n <> Decimal.Nil.
Proof.
  rewrite <- (Unsigned.of_to n) at 1. rewrite Unsigned.to_of. apply unorm_nonnil.
Qed.

(** [int(str(n)) == n] *)
Lemma int_str (n : nat) : Py.int (Py.str n) = Some (Z.of_nat n).
Proof.
  unfold Py.str. rewrite int_string_of_uint by apply to_uint_nonnil.
  by rewrite Unsigned.of_to.
Qed.

Lemma str_truthy (n : nat) : Py.truthy (Py.str n) = true.
Proof.
  pose proof (int_str n) as H. by destruct (Py.str n).
Qed.

Lemma str_not_last (n : nat) : Py.str n ∉ DiagnosisCodePagination.last_page_strings.
Proof.
  intros H. apply list_elem_of_singleton in H.
  pose proof (int_str n) as Hn. rewrite H in Hn. discriminate.
Qed.

(** ** The paginator *)

Lemma ceil_div_le (a b n : Z) : 0 < b -> ceil_div a b <= n <-> a <= n * b.
Proof.
  intros Hb. unfold ceil_div.
  pose proof (Z.div_mod (- a) b ltac:(lia)) as Hdm.
  pose proof (Z.mod_pos_bound (- a) b Hb) as Hm.
  split; intros H; nia.
Qed.

Lemma ceil_div_lt (a b n : Z) : 0 < b -> n < ceil_div a b <-> n * b < a.
Proof. intros Hb. pose proof (ceil_div_le a b n Hb). lia. Qed.

Lemma positive_int_range (s : string) (n : Z) :
  DiagnosisCodePagination._positive_int s true DiagnosisCodePagination.max_page_size = Some n ->
  1 <= n <= 100.
Proof.
  unfold DiagnosisCodePagination._positive_int, DiagnosisCodePagination.max_page_size.
  destruct (Py.int s) as [ret|]; simpl; [|done].
  destruct (ret <? 0) eqn:E1; simpl; [done|].
  destruct (ret =? 0) eqn:E2; simpl; [done|].
  intros [= <-]. lia.
Qed.

Lemma get_page_size_range (q : gmap string string) :
  1 <= DiagnosisCodePagination.get_page_size q <= 100.
Proof.
  unfold DiagnosisCodePagination.get_page_size, DiagnosisCodePagination.page_size.
  destruct (q !! _) as [s|]; [|lia].
  destruct (DiagnosisCodePagination._positive_int _ _ _) as [n|] eqn:E; [|lia].
  by apply positive_int_range in E.
Qed.

Section paginator_facts.
Context {A : Type}.
Variable object_list : list A.
Variable per_page : Z.
Hypothesis per_page_pos : 0 < per_page.

Let count : Z := Paginator.count object_list.
Let num_pages : Z := Paginator.num_pages object_list per_page.

Lemma num_pages_eq : num_pages = ceil_div (Z.max 1 count) per_page.
Proof.
  subst num_pages count. unfold Paginator.num_pages, Paginator.allow_empty_first_page,
    Paginator.orphans.
  rewrite andb_false_r. by rewrite Z.sub_0_r.
Qed.

Lemma num_pages_pos : 1 <= num_pages.
Proof.
  rewrite num_pages_eq.
  assert (0 < ceil_div (Z.max 1 count) per_page); [|lia].
  apply ceil_div_lt; lia.
Qed.


(** No page is empty, unless it is the only one. *)
Lemma num_pages_tight (n : Z) : 1 <= n < num_pages -> n * per_page < count.
Proof.
  intros [H1 H2]. rewrite num_pages_eq in H2.
  apply ceil_div_lt in H2; [|done]. nia.
Qed.

Lemma slice_window (number : Z) :
  1 <= number ->
  let bottom := (number - 1) * per_page in
  let top := bottom + per_page in
  slice bottom (if top + Paginator.orphans >=? count then count else top) object_list
  = take (Z.to_nat per_page) (drop (Z.to_nat ((number - 1) * per_page)) object_list).
Proof.
  intros Hn bottom top. unfold slice, Paginator.orphans.
  subst count. unfold Paginator.count.
  destruct (top + 0 >=? Z.of_nat (length object_list)) eqn:E.
  - rewrite !take_ge; [done|rewrite length_drop; nia..].
  - f_equal. nia.
Qed.

Lemma validate_number_ok (number : PageNumber) (n : Z) :
  match number with PageStr s => Py.int s | PageInt n => Some n end = Some n ->
  1 <= n <= num_pages ->
  Paginator.validate_number object_list per_page number = Ok n.
Proof.
  intros Hint [H1 H2]. unfold Paginator.validate_number. rewrite Hint.
  fold num_pages.
  destruct (n <? 1) eqn:E1; [lia|]. destruct (n >? num_pages) eqn:E2; [lia|]. done.
Qed.

Lemma validate_number_beyond (number : PageNumber) (n : Z) :
  match number with PageStr s => Py.int s | PageInt n => Some n end = Some n ->
  num_pages < n ->
  Paginator.validate_number object_list per_page number = Raise EmptyPage.
Proof.
  intros Hint H. unfold Paginator.validate_number. rewrite Hint. fold num_pages.
  destruct (n <? 1) eqn:E1; [done|]. destruct (n >? num_pages) eqn:E2; [done|lia].
Qed.

Lemma page_ok (number : PageNumber) (n : Z) :
  match number with PageStr s => Py.int s | PageInt n => Some n end = Some n ->
  1 <= n <= num_pages ->
  Paginator.page object_list per_page number
  = Ok {| Page.object_list :=
            take (Z.to_nat per_page) (drop (Z.to_nat ((n - 1) * per_page)) object_list);
          Page.number := n;
          Page.paginator_count := count;
          Page.paginator_num_pages := num_pages |}.
Proof.
  intros Hint Hn. unfold Paginator.page.
  rewrite (validate_number_ok number n Hint Hn). cbn.
  rewrite slice_window by lia. done.
Qed.

Lemma page_beyond (number : PageNumber) (n : Z) :
  match number with PageStr s => Py.int s | PageInt n => Some n end = Some n ->
  num_pages < n ->
  Paginator.page object_list per_page number = Raise EmptyPage.
Proof.
  intros Hint Hn. unfold Paginator.page.
  by rewrite (validate_number_beyond number n Hint Hn).
Qed.

(** Every page is a window of the list, whatever the outcome. *)
Lemma page_window (number : PageNumber) (p : Page.t A) :
  Paginator.page object_list per_page number = Ok p ->
  1 <= Page.number p <= num_pages
  /\ Page.object_list p
     = take (Z.to_nat per_page)
            (drop (Z.to_nat ((Page.number p - 1) * per_page)) object_list).
Proof.
  unfold Paginator.page, Paginator.validate_number. fold num_pages.
  destruct (match number with PageStr s => Py.int s | PageInt n => Some n end)
    as [n|]; [|done].
  destruct (n <? 1) eqn:E1; [done|]. destruct (n >? num_pages) eqn:E2; [done|].
  cbn. intros [= <-]. cbn. split; [lia|]. apply slice_window. lia.
Qed.
End paginator_facts.


(** ** The list view *)

Lemma occurs_ci_empty (text : string) : occurs_ci EmptyString text.
Proof. by exists EmptyString, (Py.lower text). Qed.

Lemma search_Q_occurs (search : string) (c : DiagnosisCode.t) :
  search_Q search c = true <->
  occurs_ci search (DiagnosisCode.full_code c)
  \/ occurs_ci search (DiagnosisCode.abbreviated_description c)
  \/ occurs_ci search (DiagnosisCode.full_description c).
Proof.
  unfold search_Q. rewrite !orb_true_iff, !icontains_occurs_ci. tauto.
Qed.

Lemma code_list_queryset_elem (db : DB) (q : gmap string string)
    (l : list DiagnosisCode.t) (c : DiagnosisCode.t) :
  code_list_queryset db q = Ok l -> c ∈ l -> c ∈ codes db /\ satisfies_filters q c.
Proof.
  unfold code_list_queryset, satisfies_filters.
  destruct (Py.if_truthy (q !! "icd_version")) as [v|] eqn:Ev;
  destruct (bool_decide (Py.lower (default "false" (q !! "include_inactive")) <> "true"))
    eqn:Ei;
  destruct (Py.if_truthy (q !! "category")) as [cid|] eqn:Ec;
  try (destruct (Py.int cid) as [pk|] eqn:Epk;
       [destruct (fits_database pk) eqn:Efit; [|done]|done]);
  destruct (Py.if_truthy (q !! "search")) as [s|] eqn:Es; cbn;
  intros [= <-]; rewrite elem_of_order_by, ?list_elem_of_filter;
  rewrite ?if_truthy_Some, ?if_truthy_None in *;
  try (apply bool_decide_eq_true in Ei); try (apply bool_decide_eq_false in Ei);
  rewrite ?search_Q_occurs;
  intros H; (split; [tauto|]);
  (split; [intros v' Hv' Hne; destruct_and?; destruct_or?; simplify_eq; by auto|]);
  (split; [intros Hl; by (tauto || done)|]);
  (split; [intros s' Hs' Hne; destruct_and?; destruct_or?; simplify_eq; by eauto|]);
  intros s' Hs'; destruct_and?; destruct_or?; simplify_eq;
  auto using occurs_ci_empty.
Qed.

Lemma StronglySorted_lookup {A} (R : relation A) (l : list A) (i j : nat) (a b : A) :
  StronglySorted R l -> l !! i = Some a -> l !! j = Some b -> (i < j)%nat -> R a b.
Proof.
  intros Hs. revert i j. induction Hs as [|x l Hs IH Hx]; intros i j Ha Hb Hij; [done|].
  destruct j as [|j]; [lia|]. destruct i as [|i]; cbn in *.
  - injection Ha as <-. eapply Forall_forall; [done|]. by eapply list_elem_of_lookup_2.
  - eapply IH; [done..|lia].
Qed.

Lemma code_list_queryset_sorted (db : DB) (q : gmap string string)
    (l : list DiagnosisCode.t) :
  code_list_queryset db q = Ok l -> StronglySorted code_le l.
Proof.
  unfold code_list_queryset.
  destruct (Py.if_truthy (q !! "category")) as [cid|];
    [destruct (Py.int cid) as [pk|]; [destruct (fits_database pk); [|done]|done]|];
    cbn; intros [= <-]; apply order_by_sorted.
Qed.

(** The queryset depends on the query string through the values its four
    tests read. *)
Lemma code_list_queryset_ext (db : DB) (q q' : gmap string string) :
  Py.if_truthy (q !! "icd_version") = Py.if_truthy (q' !! "icd_version") ->
  default "false" (q !! "include_inactive") = default "false" (q' !! "include_inactive") ->
  Py.if_truthy (q !! "category") = Py.if_truthy (q' !! "category") ->
  Py.if_truthy (q !! "search") = Py.if_truthy (q' !! "search") ->
  code_list_queryset db q = code_list_queryset db q'.
Proof.
  intros H1 H2 H3 H4. unfold code_list_queryset. by rewrite H1, H2, H3, H4.
Qed.

(** The page depends on the queryset, the page size and the [page]
    parameter. *)
Lemma code_list_page_ext (db : DB) (q q' : gmap string string) :
  code_list_queryset db q = code_list_queryset db q' ->
  DiagnosisCodePagination.get_page_size q = DiagnosisCodePagination.get_page_size q' ->
  q !! "page" = q' !! "page" ->
  code_list_page db q = code_list_page db q'.
Proof.
  intros H1 H2 H3.
  unfold code_list_page, page_number_refused, DiagnosisCodePagination.page_query_param.
  rewrite H1, H3.
  destruct (code_list_queryset db q') as [l|e]; [|done]. cbn.
  unfold DiagnosisCodePagination.paginate_queryset,
    DiagnosisCodePagination.get_page_number, DiagnosisCodePagination.page_query_param.
  by rewrite H2, H3.
Qed.

(** The list view reads six parameters and no other. *)
Lemma code_list_page_agree (db : DB) (q q' : gmap string string) :
  (forall k, k ∈ list_parameters -> q !! k = q' !! k) ->
  code_list_page db q = code_list_page db q'.
Proof.
  intros H.
  assert (forall k, In k list_parameters -> q !! k = q' !! k) as H'.
  { intros k Hk. apply H. by apply list_elem_of_In. }
  clear H. cbn in H'.
  apply code_list_page_ext.
  - apply code_list_queryset_ext; rewrite H'; auto 10.
  - unfold DiagnosisCodePagination.get_page_size,
      DiagnosisCodePagination.page_size_query_param. rewrite H'; auto 10.
  - apply H'. auto 10.
Qed.

Lemma code_list_page_inv (db : DB) (q : gmap string string) (p : Page.t DiagnosisCode.t) :
  code_list_page db q = Ok p ->
  exists l, code_list_queryset db q = Ok l
    /\ Paginator.page l (DiagnosisCodePagination.get_page_size q)
         (DiagnosisCodePagination.get_page_number q
            (Paginator.num_pages l (DiagnosisCodePagination.get_page_size q)))
       = Ok p.
Proof.
  unfold code_list_page. destruct (code_list_queryset db q) as [l|e].
  2: { destruct e; try done. by destruct (page_number_refused q). }
  cbn. unfold DiagnosisCodePagination.paginate_queryset.
  pose proof (get_page_size_range q) as Hs.
  destruct (DiagnosisCodePagination.get_page_size q =? 0) eqn:E; [lia|].
  destruct (Paginator.page _ _ _) as [p'|e] eqn:Ep; cbn.
  - intros [= <-]. eauto.
  - by destruct e.
Qed.

(** What the list view answers to a GET request. *)
Lemma list_view_GET (request : Request.t CodePayload.t) (db : DB) :
  Request.method request = GET ->
  diagnosis_code_list_create request db
  = (match code_list_page db (Request.query_params request) with
     | Ok p =>
         Ok (Response
               (PageBody (DiagnosisCodePagination.get_paginated_response p
                            (DiagnosisCodeListSerializer.to_representation db
                               <$> Page.object_list p)))
               status.HTTP_200_OK)
     | Raise (NotFound detail) =>
         Ok (Response (ObjectBody "detail" detail) status.HTTP_404_NOT_FOUND)
     | Raise Http404 => Ok (Response NotFoundBody status.HTTP_404_NOT_FOUND)
     | Raise (ValidationError detail) =>
         Ok (Response (ErrorsBody detail) status.HTTP_400_BAD_REQUEST)
     | Raise e => Raise e
     end, db).
Proof.
  intros Hm. unfold diagnosis_code_list_create, api_view, diagnosis_code_list_create_view.
  rewrite Hm. cbn.
  destruct (code_list_page db (Request.query_params request)) as [p|e]; [done|].
  by destruct e.
Qed.

Lemma list_view_GET_page (request : Request.t CodePayload.t) (db db' : DB)
    (resp : Response.t) (env : Envelope DiagnosisCodeListSerializer.data) :
  Request.method request = GET ->
  diagnosis_code_list_create request db = (Ok resp, db') ->
  Response.data resp = PageBody env ->
  exists p, code_list_page db (Request.query_params request) = Ok p
    /\ results env = DiagnosisCodeListSerializer.to_representation db <$> Page.object_list p.
Proof.
  intros Hm Hv Hd. rewrite (list_view_GET _ _ Hm) in Hv.
  destruct (code_list_page db (Request.query_params request)) as [p|e].
  - injection Hv as <- _. cbn in Hd. injection Hd as <-. eauto.
  - destruct e; try done; injection Hv as <- _; done.
Qed.

(** ** C1: the results satisfy the filters *)

(** C1 (as amended).  Every item of a page the list view returns stands
    for a stored code that satisfies every filter supplied with a value:
    the version is the one asked for, the category reference is the
    integer the category parameter denotes, the search term occurs,
    whatever the case, in one of the three text columns, and the code is
    active unless [include_inactive], put in lower case, is ["true"]. *)
Theorem list_results_satisfy_filters (request : Request.t CodePayload.t) (db db' : DB)
    (resp : Response.t) (env : Envelope DiagnosisCodeListSerializer.data)
    (item : DiagnosisCodeListSerializer.data) :
  Request.method request = GET ->
  diagnosis_code_list_create request db = (Ok resp, db') ->
  Response.data resp = PageBody env ->
  item ∈ results env ->
  exists c, c ∈ codes db
    /\ item = DiagnosisCodeListSerializer.to_representation db c
    /\ satisfies_filters (Request.query_params request) c.
Proof.
  intros Hm Hv Hd Hi.
  destruct (list_view_GET_page _ _ _ _ _ Hm Hv Hd) as (p & Hp & Hr).
  rewrite Hr in Hi. apply list_elem_of_fmap in Hi as (c & -> & Hc).
  destruct (code_list_page_inv _ _ _ Hp) as (l & Hl & Hpage).
  pose proof (get_page_size_range (Request.query_params request)) as Hs.
  apply page_window in Hpage as [_ Hw]; [|lia].
  rewrite Hw in Hc. apply elem_of_take in Hc as (i & Hc & _).
  rewrite lookup_drop in Hc. apply list_elem_of_lookup_2 in Hc.
  destruct (code_list_queryset_elem _ _ _ _ Hl Hc) as [? ?]. eauto.
Qed.

Lemma list_results_satisfy_filters_witness :
  exists c, c ∈ codes Sample.db
    /\ Sample.item Sample.code_1 = DiagnosisCodeListSerializer.to_representation Sample.db c
    /\ satisfies_filters {["icd_version" := "ICD-10"; "category" := "1"; "search" := "a012"]} c.
Proof.
  refine (list_results_satisfy_filters
            (Sample.GET_codes {["icd_version" := "ICD-10"; "category" := "1";
                                "search" := "a012"]})
            Sample.db Sample.db
            (Sample.page_200 1 None None [Sample.code_1])
            {| count := 1; next := None; previous := None;
               results := [Sample.item Sample.code_1] |}
            (Sample.item Sample.code_1) _ _ _ _).
  - reflexivity.
  - vm_compute. reflexivity.
  - reflexivity.
  - apply list_elem_of_here.
Defined.

(** With [include_inactive=TRUE] the inactive code is listed, and with an
    empty [icd_version] codes of every version are: the filters do not
    hold verbatim. *)
Lemma list_filters_verbatim_fail :
  (diagnosis_code_list_create (Sample.GET_codes {["include_inactive" := "TRUE"]}) Sample.db
   = (Ok (Sample.page_200 3 None None [Sample.code_1; Sample.code_2; Sample.code_3]),
      Sample.db)
   /\ ~ satisfies_filters_verbatim {["include_inactive" := "TRUE"]} Sample.code_2)
  /\ (diagnosis_code_list_create (Sample.GET_codes {["icd_version" := EmptyString]}) Sample.db
      = (Ok (Sample.page_200 2 None None [Sample.code_1; Sample.code_3]), Sample.db)
      /\ ~ satisfies_filters_verbatim {["icd_version" := EmptyString]} Sample.code_1).
Proof.
  split; split.
  - vm_compute. reflexivity.
  - intros (_ & H & _). discriminate H. by vm_compute.
  - vm_compute. reflexivity.
  - intros (H & _). discriminate (H EmptyString). by vm_compute.
Qed.

(** ** C6: the results are sorted *)

(** C6.  In a page the list view returns, an item that comes before
    another has a key [(icd_version, full_code)] that is lexicographically
    less than or equal to the other's; and the answer depends on the six
    parameters the view reads only, so that no parameter changes the
    order. *)
Theorem list_results_sorted (request : Request.t CodePayload.t) (db db' : DB)
    (resp : Response.t) (env : Envelope DiagnosisCodeListSerializer.data) :
  Request.method request = GET ->
  diagnosis_code_list_create request db = (Ok resp, db') ->
  Response.data resp = PageBody env ->
  (forall (i j : nat) (a b : DiagnosisCodeListSerializer.data),
      results env !! i = Some a -> results env !! j = Some b -> (i < j)%nat ->
      pair_le (item_key a) (item_key b))
  /\ (forall request' : Request.t CodePayload.t,
         Request.method request' = GET ->
         (forall k, k ∈ list_parameters ->
                    Request.query_params request' !! k = Request.query_params request !! k) ->
         diagnosis_code_list_create request' db = (Ok resp, db')).
Proof.
  intros Hm Hv Hd. split.
  - destruct (list_view_GET_page _ _ _ _ _ Hm Hv Hd) as (p & Hp & Hr).
    destruct (code_list_page_inv _ _ _ Hp) as (l & Hl & Hpage).
    pose proof (get_page_size_range (Request.query_params request)) as Hs.
    apply page_window in Hpage as [_ Hw]; [|lia].
    intros i j a b Ha Hb Hij. rewrite Hr, list_lookup_fmap in Ha, Hb.
    destruct (Page.object_list p !! i) as [ca|] eqn:Eca; [|done].
    destruct (Page.object_list p !! j) as [cb|] eqn:Ecb; [|done].
    injection Ha as <-. injection Hb as <-.
    rewrite Hw in Eca, Ecb.
    apply lookup_take_Some in Eca as [Eca _]. apply lookup_take_Some in Ecb as [Ecb _].
    rewrite lookup_drop in Eca, Ecb.
    apply (StronglySorted_lookup code_le l _ _ ca cb (code_list_queryset_sorted _ _ _ Hl)
             Eca Ecb). lia.
  - intros request' Hm' Hk. rewrite <- Hv, !list_view_GET by done.
    by rewrite (code_list_page_agree db _ _ Hk).
Qed.

Lemma list_results_sorted_witness :
  pair_le (item_key (Sample.item Sample.code_1)) (item_key (Sample.item Sample.code_3)).
Proof.
  refine (proj1 (list_results_sorted
                   (Sample.GET_codes ∅) Sample.db Sample.db
                   (Sample.page_200 2 None None [Sample.code_1; Sample.code_3])
                   {| count := 2; next := None; previous := None;
                      results := [Sample.item Sample.code_1; Sample.item Sample.code_3] |}
                   _ _ _) 0%nat 1%nat _ _ _ _ _).
  - reflexivity.
  - vm_compute. reflexivity.
  - reflexivity.
  - reflexivity.
  - reflexivity.
  - lia.
Defined.

(** ** C10: an empty filter value *)

Lemma if_truthy_delete (q : gmap string string) (k k' : string) :
  q !! k = Some EmptyString ->
  Py.if_truthy (delete k q !! k') = Py.if_truthy (q !! k').
Proof.
  intros H. destruct (decide (k = k')) as [<-|Hne].
  - by rewrite lookup_delete_eq, H.
  - by rewrite lookup_delete_ne.
Qed.

(** C10.  A filter parameter ([icd_version], [category] or [search])
    supplied with the empty string is treated as if it were absent: the
    list view answers the request as it answers the request without that
    parameter. *)
Theorem empty_filter_is_absent (request : Request.t CodePayload.t) (db : DB) (k : string) :
  Request.method request = GET ->
  k ∈ ["icd_version"; "category"; "search"] ->
  Request.query_params request !! k = Some EmptyString ->
  diagnosis_code_list_create request db
  = diagnosis_code_list_create
      (with_query request (delete k (Request.query_params request))) db.
Proof.
  intros Hm Hk He. rewrite !list_view_GET by done. cbn [with_query Request.query_params].
  set (q := Request.query_params request) in *.
  assert (k <> "include_inactive" /\ k <> "page" /\ k <> "page_size") as (N1 & N2 & N3).
  { rewrite !elem_of_cons, elem_of_nil in Hk.
    destruct Hk as [->|[->|[->|[]]]]; done. }
  rewrite (code_list_page_ext db q (delete k q)); [done|..].
  - apply code_list_queryset_ext; rewrite ?if_truthy_delete by done; try done.
    by rewrite lookup_delete_ne.
  - unfold DiagnosisCodePagination.get_page_size,
      DiagnosisCodePagination.page_size_query_param. by rewrite lookup_delete_ne.
  - by rewrite lookup_delete_ne.
Qed.

Lemma empty_filter_is_absent_witness :
  diagnosis_code_list_create
    (Sample.GET_codes {["category" := EmptyString; "icd_version" := "ICD-9"]}) Sample.db
  = diagnosis_code_list_create
      (with_query (Sample.GET_codes {["category" := EmptyString; "icd_version" := "ICD-9"]})
         (delete "category" {["category" := EmptyString; "icd_version" := "ICD-9"]}))
      Sample.db.
Proof.
  refine (empty_filter_is_absent
            (Sample.GET_codes {["category" := EmptyString; "icd_version" := "ICD-9"]})
            Sample.db "category" _ _ _).
  - reflexivity.
  - apply list_elem_of_further, list_elem_of_here.
  - reflexivity.
Defined.

(** ** C7: a page beyond the last *)

Lemma int_truthy (s : string) (n : Z) : Py.int s = Some n -> Py.truthy s = true.
Proof. by destruct s. Qed.

Lemma int_not_last (s : string) (n : Z) :
  Py.int s = Some n -> s ∉ DiagnosisCodePagination.last_page_strings.
Proof.
  intros Hn H. apply list_elem_of_singleton in H. rewrite H in Hn. discriminate.
Qed.

(** A [page] parameter that reads as an integer reaches the paginator as
    it is. *)
Lemma get_page_number_int (q : gmap string string) (s : string) (n num_pages : Z) :
  q !! "page" = Some s -> Py.int s = Some n ->
  DiagnosisCodePagination.get_page_number q num_pages = PageStr s.
Proof.
  intros Hq Hn. unfold DiagnosisCodePagination.get_page_number,
    DiagnosisCodePagination.page_query_param.
  rewrite Hq, (int_truthy s n Hn).
  by rewrite bool_decide_eq_false_2 by (by eapply int_not_last).
Qed.

Lemma code_list_page_int (db : DB) (q : gmap string string) (l : list DiagnosisCode.t)
    (s : string) (n : Z) :
  code_list_queryset db q = Ok l ->
  q !! "page" = Some s -> Py.int s = Some n ->
  code_list_page db q
  = match Paginator.page l (DiagnosisCodePagination.get_page_size q) (PageStr s) with
    | Ok p => Ok p
    | Raise _ => Raise (NotFound DiagnosisCodePagination.invalid_page_message)
    end.
Proof.
  intros Hl Hq Hn. unfold code_list_page. rewrite Hl. cbn.
  unfold DiagnosisCodePagination.paginate_queryset.
  pose proof (get_page_size_range q) as Hs.
  destruct (DiagnosisCodePagination.get_page_size q =? 0) eqn:E; [lia|].
  rewrite (get_page_number_int q s n _ Hq Hn).
  unfold Paginator.page, Paginator.validate_number. rewrite Hn.
  destruct (n <? 1); [done|]. by destruct (n >? _).
Qed.

(** C7.  A request for a page whose number exceeds the number of pages
    needed to exhaust the filtered sequence is answered with 404 and the
    detail ["Invalid page."] of the paginator, not with an empty page; so
    is, when the filtered sequence is empty, a request for page 2 or
    beyond. *)
Theorem page_beyond_last_not_found (request : Request.t CodePayload.t) (db : DB)
    (l : list DiagnosisCode.t) (s : string) (n : Z) :
  Request.method request = GET ->
  code_list_queryset db (Request.query_params request) = Ok l ->
  Request.query_params request !! "page" = Some s ->
  Py.int s = Some n ->
  (l <> [] ->
   ceil_div (Z.of_nat (length l))
            (DiagnosisCodePagination.get_page_size (Request.query_params request)) < n) ->
  (l = [] -> 2 <= n) ->
  diagnosis_code_list_create request db
  = (Ok (Response (ObjectBody "detail" "Invalid page.") status.HTTP_404_NOT_FOUND), db).
Proof.
  intros Hm Hl Hq Hn Hfull Hempty. rewrite list_view_GET by done.
  rewrite (code_list_page_int _ _ _ _ _ Hl Hq Hn).
  pose proof (get_page_size_range (Request.query_params request)) as Hs.
  set (size := DiagnosisCodePagination.get_page_size (Request.query_params request)) in *.
  assert (0 < size) as Hpos by lia.
  rewrite (page_beyond l size (PageStr s) n Hn); [done|].
  rewrite num_pages_eq by lia. unfold Paginator.count.
  destruct l as [|c l].
  - specialize (Hempty eq_refl). change (Z.max 1 (Z.of_nat (length []))) with 1.
    assert (ceil_div 1 size <= 1); [|lia].
    apply ceil_div_le; lia.
  - specialize (Hfull ltac:(done)). rewrite Z.max_r; [done|].
    rewrite length_cons. lia.
Qed.

Lemma page_beyond_last_not_found_witness :
  diagnosis_code_list_create (Sample.GET_codes {["page" := "2"]}) Sample.db
  = (Ok (Response (ObjectBody "detail" "Invalid page.") status.HTTP_404_NOT_FOUND), Sample.db).
Proof.
  refine (page_beyond_last_not_found (Sample.GET_codes {["page" := "2"]}) Sample.db
            [Sample.code_1; Sample.code_3] "2" 2 _ _ _ _ _ _).
  - reflexivity.
  - vm_compute. reflexivity.
  - reflexivity.
  - reflexivity.
  - intros _. vm_compute. reflexivity.
  - intros H. discriminate H.
Defined.

(** The first page of an empty result is an empty page, not an error. *)
Lemma first_page_of_nothing :
  diagnosis_code_list_create (Sample.GET_codes {["category" := "7"]}) Sample.db
  = (Ok (Sample.page_200 0 None None []), Sample.db)
  /\ diagnosis_code_list_create (Sample.GET_codes {["category" := "7"; "page" := "2"]})
       Sample.db
     = (Ok (Response (ObjectBody "detail" "Invalid page.") status.HTTP_404_NOT_FOUND),
        Sample.db).
Proof. split; vm_compute; reflexivity. Qed.

(** ** C8: the page size *)

Lemma get_page_size_int (q : gmap string string) (s : string) (n : Z) :
  q !! "page_size" = Some s -> Py.int s = Some n ->
  DiagnosisCodePagination.get_page_size q
  = if n <=? 0 then 20 else Z.min n 100.
Proof.
  intros Hq Hn. unfold DiagnosisCodePagination.get_page_size,
    DiagnosisCodePagination.page_size_query_param, DiagnosisCodePagination._positive_int,
    DiagnosisCodePagination.max_page_size, DiagnosisCodePagination.page_size.
  rewrite Hq, Hn. cbn.
  destruct (n <? 0) eqn:E1, (n =? 0) eqn:E2, (n <=? 0) eqn:E3; cbn; lia.
Qed.

(** C8 (as amended).  Without a [page_size] parameter the page size is 20;
    a requested size above 100 gives the page size 100, and the request is
    answered as the same request with [page_size=100] is; a requested size
    from 1 to 100 is used; a requested size of 0 or below is not used, the
    page size is 20 then.  No page holds more items than the page size. *)
Theorem page_size_clamped (q : gmap string string) :
  (q !! "page_size" = None -> DiagnosisCodePagination.get_page_size q = 20)
  /\ (forall (s : string) (n : Z),
         q !! "page_size" = Some s -> Py.int s = Some n ->
         (100 < n ->
          DiagnosisCodePagination.get_page_size q = 100
          /\ forall db, code_list_page db q = code_list_page db (<["page_size" := "100"]> q))
         /\ (1 <= n <= 100 -> DiagnosisCodePagination.get_page_size q = n)
         /\ (n <= 0 -> DiagnosisCodePagination.get_page_size q = 20))
  /\ (forall (db : DB) (p : Page.t DiagnosisCode.t),
         code_list_page db q = Ok p ->
         Z.of_nat (length (Page.object_list p)) <= DiagnosisCodePagination.get_page_size q).
Proof.
  split; [|split].
  - intros Hq. unfold DiagnosisCodePagination.get_page_size,
      DiagnosisCodePagination.page_size_query_param. by rewrite Hq.
  - intros s n Hq Hn. rewrite (get_page_size_int q s n Hq Hn).
    split; [|split].
    + intros H. destruct (n <=? 0) eqn:E; [lia|]. split; [lia|].
      intros db. apply code_list_page_ext.
      * apply code_list_queryset_ext; by rewrite lookup_insert_ne.
      * rewrite (get_page_size_int q s n Hq Hn).
        rewrite (get_page_size_int (<["page_size" := "100"]> q) "100" 100);
          [|by rewrite lookup_insert_eq|done].
        rewrite E. cbn. lia.
      * by rewrite lookup_insert_ne.
    + intros H. destruct (n <=? 0) eqn:E; lia.
    + intros H. destruct (n <=? 0) eqn:E; lia.
  - intros db p Hp. destruct (code_list_page_inv _ _ _ Hp) as (l & Hl & Hpage).
    pose proof (get_page_size_range q) as Hs.
    apply page_window in Hpage as [_ Hw]; [|lia].
    rewrite Hw, length_take. lia.
Qed.

(** A requested page size of 0 is at most 100 and is not used. *)
Lemma page_size_zero_not_used :
  Py.int "0" = Some 0
  /\ 0 <= 100
  /\ DiagnosisCodePagination.get_page_size {["page_size" := "0"]} = 20
  /\ diagnosis_code_list_create (Sample.GET_codes {["page_size" := "0"]}) Sample.db
     = (Ok (Sample.page_200 2 None None [Sample.code_1; Sample.code_3]), Sample.db).
Proof. repeat split; vm_compute; congruence. Qed.

(** ** C2: the pages, one after the other *)




Example pages_of_three :
  page_items Sample.db {["include_inactive" := "true"; "page_size" := "2"]} 1
  = [Sample.code_1; Sample.code_2]
  /\ page_items Sample.db {["include_inactive" := "true"; "page_size" := "2"]} 2
     = [Sample.code_3]
  /\ page_items Sample.db {["include_inactive" := "true"; "page_size" := "2"]} 3 = [].
Proof. repeat split; vm_compute; reflexivity. Qed.

(** ** C4: a category in use cannot be deleted *)

Lemma filter_nil_Forall {A} (P : A -> Prop) `{!forall x, Decision (P x)} (l : list A) :
  filter P l = [] <-> Forall (fun x => ~ P x) l.
Proof.
  induction l as [|x l IH]; [by split; [constructor|]|].
  rewrite filter_cons, Forall_cons. destruct (decide (P x)); [|tauto].
  split; [done|tauto].
Qed.

Lemma filter_cons_Exists {A} (P : A -> Prop) `{!forall x, Decision (P x)} (l : list A) :
  Exists P l -> exists x l', filter P l = x :: l' /\ P x /\ x ∈ l.
Proof.
  intros HE. destruct (filter P l) as [|x l'] eqn:E.
  - apply filter_nil_Forall in E. apply Exists_exists in HE as (x & Hx & HP).
    rewrite Forall_forall in E. by destruct (E x Hx).
  - exists x, l'. split; [done|].
    assert (x ∈ filter P l) as Hx by (rewrite E; left).
    by apply list_elem_of_filter in Hx.
Qed.

(** C4.  Deleting a category that at least one code refers to is answered
    with the 400 response that carries the constraint error, and the
    database is left as it was: the category and the codes that refer to
    it are all still there.  Deleting a category that no code refers to is
    answered with 204 and removes the category; the codes are untouched. *)
Theorem category_delete_protected (pk : Z) (request : Request.t CategoryPayload.t)
    (db : DB) :
  Request.method request = DELETE ->
  Exists (fun k => DiagnosisCategory.id k = pk) (categories db) ->
  (Exists (fun c => DiagnosisCode.category_id c = Some pk) (codes db) ->
   diagnosis_category_detail pk request db
   = (Ok (Response (ObjectBody "error"
                      "Cannot delete category with associated diagnosis codes")
            status.HTTP_400_BAD_REQUEST), db))
  /\ (Forall (fun c => DiagnosisCode.category_id c <> Some pk) (codes db) ->
      exists db',
        diagnosis_category_detail pk request db
        = (Ok (Response (ObjectBody "message" "Category deleted successfully")
                 status.HTTP_204_NO_CONTENT), db')
        /\ codes db' = codes db
        /\ forall k, k ∈ categories db' <-> k ∈ categories db /\ DiagnosisCategory.id k <> pk).
Proof.
  intros Hm Hk.
  destruct (filter_cons_Exists _ _ Hk) as (k & ks & Ek & Hid & _).
  unfold diagnosis_category_detail, api_view, diagnosis_category_detail_view.
  rewrite Hm, Ek. cbn [get_object_or_404]. unfold delete_category. rewrite Hid.
  rewrite bool_decide_eq_true_2 by (rewrite !elem_of_cons; auto).
  split.
  - intros Hc. destruct (filter_cons_Exists _ _ Hc) as (c & cs & -> & _). done.
  - intros Hc.
    apply (filter_nil_Forall (fun c => DiagnosisCode.category_id c = Some pk)) in Hc.
    rewrite Hc.
    eexists. split; [done|]. cbn. split; [done|].
    intros k'. rewrite list_elem_of_filter. tauto.
Qed.

Lemma category_delete_protected_witness :
  diagnosis_category_detail 1 Sample.DELETE_category Sample.db
  = (Ok (Response (ObjectBody "error"
                     "Cannot delete category with associated diagnosis codes")
           status.HTTP_400_BAD_REQUEST), Sample.db).
Proof.
  refine (proj1 (category_delete_protected 1 Sample.DELETE_category Sample.db _ _) _).
  - reflexivity.
  - apply Exists_cons_hd. reflexivity.
  - apply Exists_cons_hd. reflexivity.
Defined.

(** The category no code refers to goes, and nothing else. *)
Example delete_unused_category :
  diagnosis_category_detail 2 Sample.DELETE_category Sample.db
  = (Ok (Response (ObjectBody "message" "Category deleted successfully")
           status.HTTP_204_NO_CONTENT),
     {| categories := [Sample.category_10]; codes := codes Sample.db;
        category_seq := 3; code_seq := 4 |}).
Proof. vm_compute. reflexivity. Qed.

(** ** The serializer of codes *)

Lemma CharField_inv (max_length : option Z) (data : string) :
  (Fields.CharField max_length data = Valid (Py.strip data)
   /\ Py.strip data <> EmptyString)
  \/ exists messages, Fields.CharField max_length data = Invalid messages.
Proof.
  unfold Fields.CharField.
  destruct (Py.truthy (Py.strip data)) eqn:E; cbn; [|eauto].
  apply truthy_nonempty in E.
  destruct (_ ++ _)%list; eauto.
Qed.

Lemma run_CharField_inv (is_required partial : bool) (max_length : option Z)
    (data : option string) (name : string) :
  field_errors name (Fields.run is_required partial data (Fields.CharField max_length)) = [] ->
  field_value (Fields.run is_required partial data (Fields.CharField max_length))
  = Py.strip <$> data
  /\ (forall v, data = Some v -> Py.strip v <> EmptyString)
  /\ (is_required = true -> partial = false -> is_Some data).
Proof.
  destruct data as [s|]; cbn.
  - destruct (CharField_inv max_length s) as [[-> Hne]|[messages ->]]; cbn; [|done].
    intros _. split; [done|]. split; [by intros v [= <-]|eauto].
  - destruct is_required, partial; cbn; try done; intros _; (split; [done|]);
      (split; [done|]); done.
Qed.

Lemma run_PrimaryKeyRelatedField_inv (db : DB) (partial : bool) (data : option (option Z)) :
  field_errors "category"
    (Fields.run false partial data (Fields.PrimaryKeyRelatedField db)) = [] ->
  match data with
  | None =>
      field_value (Fields.run false partial data (Fields.PrimaryKeyRelatedField db)) = None
  | Some None =>
      field_value (Fields.run false partial data (Fields.PrimaryKeyRelatedField db))
      = Some None
  | Some (Some pk) =>
      exists k,
        field_value (Fields.run false partial data (Fields.PrimaryKeyRelatedField db))
        = Some (Some k)
        /\ k ∈ categories db /\ DiagnosisCategory.id k = pk
  end.
Proof.
  destruct data as [[pk|]|]; cbn; [|done..].
  destruct (filter _ (categories db)) as [|k [|k' ks]] eqn:E; cbn; [done| |done].
  intros _. exists k. split; [done|].
  assert (k ∈ filter (fun k => DiagnosisCategory.id k = pk) (categories db)) as Hk
    by (rewrite E; left).
  apply list_elem_of_filter in Hk. tauto.
Qed.

(** What a payload that passes the fields looks like once validated. *)
Lemma to_internal_value_inv (db : DB) (partial : bool) (data : CodePayload.t)
    (attrs : Attrs.t) :
  DiagnosisCodeSerializer.to_internal_value db partial data = Ok attrs ->
  Attrs.full_code attrs = Py.strip <$> CodePayload.full_code data
  /\ Attrs.icd_version attrs = Py.strip <$> CodePayload.icd_version data
  /\ (forall v, CodePayload.icd_version data = Some v -> Py.strip v <> EmptyString)
  /\ (partial = false ->
      is_Some (CodePayload.full_code data) /\ is_Some (CodePayload.icd_version data))
  /\ match CodePayload.category data with
     | None => Attrs.category attrs = None
     | Some None => Attrs.category attrs = Some None
     | Some (Some pk) =>
         exists k, Attrs.category attrs = Some (Some k)
                   /\ k ∈ categories db /\ DiagnosisCategory.id k = pk
     end.
Proof.
  unfold DiagnosisCodeSerializer.to_internal_value.
  destruct (_ ++ _)%list as [|e errors] eqn:E; [|done].
  repeat (apply app_eq_nil in E as [? E]).
  intros [= <-]. cbn.
  pose proof (run_PrimaryKeyRelatedField_inv db partial _ ltac:(eassumption)) as Hc.
  destruct (run_CharField_inv true partial (Some 20) (CodePayload.full_code data)
              "full_code" ltac:(assumption)) as (Hf1 & Hf2 & Hf3).
  destruct (run_CharField_inv true partial (Some 10) (CodePayload.icd_version data)
              "icd_version" ltac:(assumption)) as (Hv1 & Hv2 & Hv3).
  repeat split; auto.
Qed.

Lemma to_internal_value_raises (db : DB) (partial : bool) (data : CodePayload.t)
    (e : Exception) :
  DiagnosisCodeSerializer.to_internal_value db partial data = Raise e ->
  exists errors, e = ValidationError errors.
Proof.
  unfold DiagnosisCodeSerializer.to_internal_value.
  destruct (_ ++ _)%list as [|x errors]; [done|]. intros [= <-]. eauto.
Qed.

Lemma run_validation_raises (db : DB) (instance : option DiagnosisCode.t)
    (partial : bool) (data : CodePayload.t) (e : Exception) :
  DiagnosisCodeSerializer.run_validation db instance partial data = Raise e ->
  exists errors, e = ValidationError errors.
Proof.
  unfold DiagnosisCodeSerializer.run_validation.
  destruct (DiagnosisCodeSerializer.to_internal_value db partial data) as [attrs|e0] eqn:E;
    cbn.
  - unfold DiagnosisCodeSerializer.UniqueTogetherValidator.
    destruct (match instance with Some _ => _ | None => _ end) as [|m ms]; cbn.
    + destruct (match instance with Some i => _ | None => _ end) as [|c cs]; cbn.
      * unfold DiagnosisCodeSerializer.validate.
        destruct (default None (Attrs.category attrs)) as [k|]; [|done].
        destruct (Attrs.icd_version attrs) as [v|]; [|done].
        destruct (Py.truthy v); [|done]. case_bool_decide; [|done].
        intros [= <-]. eauto.
      * intros [= <-]. eauto.
    + intros [= <-]. eauto.
  - intros [= <-]. by eapply to_internal_value_raises.
Qed.

(** A write whose validation fails is answered with 400 and the errors,
    and changes nothing. *)
Lemma run_write_invalid (op : WriteOp) (data : CodePayload.t) (db : DB)
    (instance : option DiagnosisCode.t) (errors : ErrorDict) :
  write_instance db op = Some instance ->
  DiagnosisCodeSerializer.run_validation db instance (write_partial op) data
  = Raise (ValidationError errors) ->
  run_write op data db
  = (Ok (Response (ErrorsBody errors) status.HTTP_400_BAD_REQUEST), db).
Proof.
  intros Hi Hv. destruct op as [|pk|pk]; cbn in *.
  - injection Hi as <-.
    unfold diagnosis_code_list_create, api_view, diagnosis_code_list_create_view. cbn.
    by rewrite Hv.
  - destruct (filter _ (codes db)) as [|c cs] eqn:E; [done|]. injection Hi as <-.
    unfold diagnosis_code_detail, api_view, diagnosis_code_detail_view. cbn.
    rewrite E. cbn. by rewrite Hv.
  - destruct (filter _ (codes db)) as [|c cs] eqn:E; [done|]. injection Hi as <-.
    unfold diagnosis_code_detail, api_view, diagnosis_code_detail_view. cbn.
    rewrite E. cbn. by rewrite Hv.
Qed.

(** ** C3: the category and the code are of one version *)

Lemma validate_mismatch (attrs : Attrs.t) (k : DiagnosisCategory.t) (v : string) :
  Attrs.category attrs = Some (Some k) ->
  Attrs.icd_version attrs = Some v ->
  v <> EmptyString ->
  DiagnosisCategory.icd_version k <> v ->
  DiagnosisCodeSerializer.validate attrs
  = Raise (ValidationError [("icd_version", [DiagnosisCodeSerializer.version_message])]).
Proof.
  intros Hk Hv Hne Hdiff. unfold DiagnosisCodeSerializer.validate.
  rewrite Hk, Hv. cbn. rewrite (proj2 (truthy_nonempty v) Hne).
  by rewrite bool_decide_eq_true_2.
Qed.

Lemma validate_absent (attrs : Attrs.t) :
  Attrs.category attrs = None \/ Attrs.icd_version attrs = None ->
  DiagnosisCodeSerializer.validate attrs = Ok attrs.
Proof.
  unfold DiagnosisCodeSerializer.validate. intros [->| ->]; [done|].
  by destruct (default None (Attrs.category attrs)).
Qed.

(** C3 (as amended).  On a create or an update of a code: when the
    payload supplies both a category and a version, and the version of
    the referenced category differs from the version supplied (as its
    field delivers it, trimmed), the write is answered with 400 and
    field-keyed errors, which no 404 answer carries, and nothing is
    stored; the error is the one keyed to [icd_version] when the payload
    passes the fields and the uniqueness validator, which run first.
    When the payload leaves out either of the two fields, the check does
    not fire: [validate] returns the data, and the payload is valid if it
    passes the uniqueness validator. *)
Theorem version_mismatch_rejected (op : WriteOp) (data : CodePayload.t) (db : DB)
    (instance : option DiagnosisCode.t) :
  write_instance db op = Some instance ->
  (forall (pk : Z) (v : string),
      CodePayload.category data = Some (Some pk) ->
      CodePayload.icd_version data = Some v ->
      Forall (fun k => DiagnosisCategory.id k = pk ->
                       DiagnosisCategory.icd_version k <> Py.strip v) (categories db) ->
      exists errors,
        run_write op data db
        = (Ok (Response (ErrorsBody errors) status.HTTP_400_BAD_REQUEST), db)
        /\ status.HTTP_400_BAD_REQUEST <> status.HTTP_404_NOT_FOUND
        /\ (forall attrs,
               DiagnosisCodeSerializer.to_internal_value db (write_partial op) data
               = Ok attrs ->
               DiagnosisCodeSerializer.UniqueTogetherValidator db instance attrs = Ok () ->
               errors = [("icd_version", [DiagnosisCodeSerializer.version_message])]))
  /\ (forall attrs,
         CodePayload.category data = None \/ CodePayload.icd_version data = None ->
         DiagnosisCodeSerializer.to_internal_value db (write_partial op) data = Ok attrs ->
         DiagnosisCodeSerializer.validate attrs = Ok attrs
         /\ (DiagnosisCodeSerializer.UniqueTogetherValidator db instance attrs = Ok () ->
             DiagnosisCodeSerializer.run_validation db instance (write_partial op) data
             = Ok attrs)).
Proof.
  intros Hi. split.
  - intros pk v Hpk Hver Hdiff.
    destruct (DiagnosisCodeSerializer.run_validation db instance (write_partial op) data)
      as [attrs'|e] eqn:Erun.
    + exfalso. unfold DiagnosisCodeSerializer.run_validation in Erun.
      destruct (DiagnosisCodeSerializer.to_internal_value _ _ _) as [attrs|e] eqn:Et;
        [|done].
      cbn in Erun.
      destruct (DiagnosisCodeSerializer.UniqueTogetherValidator _ _ _) as [[]|e]; [|done].
      cbn in Erun.
      destruct (to_internal_value_inv _ _ _ _ Et) as (_ & Hv & Hne & _ & Hc).
      rewrite Hpk in Hc. destruct Hc as (k & Hk & Hin & Hid).
      rewrite Hver in Hv. cbn in Hv.
      rewrite (validate_mismatch attrs k (Py.strip v)) in Erun; try done.
      * by eapply Hne.
      * rewrite Forall_forall in Hdiff. by apply Hdiff.
    + destruct (run_validation_raises _ _ _ _ _ Erun) as [errors ->].
      exists errors. split; [by eapply run_write_invalid|]. split; [done|].
      intros attrs Et Hu. unfold DiagnosisCodeSerializer.run_validation in Erun.
      rewrite Et in Erun. cbn in Erun. rewrite Hu in Erun. cbn in Erun.
      destruct (to_internal_value_inv _ _ _ _ Et) as (_ & Hv & Hne & _ & Hc).
      rewrite Hpk in Hc. destruct Hc as (k & Hk & Hin & Hid).
      rewrite Hver in Hv. cbn in Hv.
      rewrite (validate_mismatch attrs k (Py.strip v)) in Erun; try done.
      * by injection Erun.
      * by eapply Hne.
      * rewrite Forall_forall in Hdiff. by apply Hdiff.
  - intros attrs Habs Et.
    destruct (to_internal_value_inv _ _ _ _ Et) as (_ & Hv & _ & _ & Hc).
    assert (DiagnosisCodeSerializer.validate attrs = Ok attrs) as Hval.
    { apply validate_absent. destruct Habs as [Habs|Habs].
      - left. by rewrite Habs in Hc.
      - right. by rewrite Habs in Hv. }
    split; [done|]. intros Hu.
    unfold DiagnosisCodeSerializer.run_validation. rewrite Et. cbn. by rewrite Hu.
Qed.

Lemma version_mismatch_rejected_witness :
  exists errors,
    run_write Create (Sample.payload (Some 2) "B00" "ICD-10") Sample.db
    = (Ok (Response (ErrorsBody errors) status.HTTP_400_BAD_REQUEST), Sample.db)
    /\ status.HTTP_400_BAD_REQUEST <> status.HTTP_404_NOT_FOUND
    /\ (forall attrs,
           DiagnosisCodeSerializer.to_internal_value Sample.db (write_partial Create)
             (Sample.payload (Some 2) "B00" "ICD-10") = Ok attrs ->
           DiagnosisCodeSerializer.UniqueTogetherValidator Sample.db None attrs = Ok () ->
           errors = [("icd_version", [DiagnosisCodeSerializer.version_message])]).
Proof.
  refine (proj1 (version_mismatch_rejected Create
                   (Sample.payload (Some 2) "B00" "ICD-10") Sample.db None _)
            2 "ICD-10" _ _ _).
  - reflexivity.
  - reflexivity.
  - reflexivity.
  - repeat constructor; intros H; vm_compute in H |- *; congruence.
Defined.

(** The answer to the mismatch, in full. *)
Example version_mismatch_answer :
  run_write Create (Sample.payload (Some 2) "B00" "ICD-10") Sample.db
  = (Ok (Response
           (ErrorsBody [("icd_version", [DiagnosisCodeSerializer.version_message])])
           status.HTTP_400_BAD_REQUEST), Sample.db)
  /\ run_write (Update 1) (Sample.payload (Some 2) "A01234" "ICD-10") Sample.db
     = (Ok (Response
              (ErrorsBody [("icd_version", [DiagnosisCodeSerializer.version_message])])
              status.HTTP_400_BAD_REQUEST), Sample.db).
Proof. split; vm_compute; reflexivity. Qed.

(** The field validation and the validator of [unique_together] run
    before [validate]: a create whose category is of ICD-9 and whose
    version is ICD-10 gets no error keyed to [icd_version] when its code
    and version are those of a stored code, nor when a field is
    missing. *)
Lemma version_mismatch_unreported :
  (Sample.category_9 ∈ categories Sample.db
   /\ DiagnosisCategory.id Sample.category_9 = 2
   /\ DiagnosisCategory.icd_version Sample.category_9 <> "ICD-10")
  /\ run_write Create (Sample.payload (Some 2) "A01234" "ICD-10") Sample.db
     = (Ok (Response
              (ErrorsBody [("non_field_errors", [DiagnosisCodeSerializer.unique_message])])
              status.HTTP_400_BAD_REQUEST), Sample.db)
  /\ run_write Create
       {| CodePayload.category := Some (Some 2); CodePayload.diagnosis_code := None;
          CodePayload.full_code := Some "B00";
          CodePayload.abbreviated_description := Some "Duplicate";
          CodePayload.full_description := Some "Duplicate";
          CodePayload.icd_version := Some "ICD-10";
          CodePayload.is_active := None; CodePayload.valid_from := None;
          CodePayload.valid_to := None |} Sample.db
     = (Ok (Response (ErrorsBody [("diagnosis_code", [Fields.required])])
              status.HTTP_400_BAD_REQUEST), Sample.db).
Proof.
  split; [|split; vm_compute; reflexivity].
  split; [apply list_elem_of_further, list_elem_of_here|]. split; [reflexivity|].
  discriminate.
Qed.

(** A PATCH that touches [is_active] only is not checked against the
    category, and a PATCH that supplies a version without a category is
    not either, whatever the version of the category the code has. *)
Example patch_skips_the_check :
  (run_write (PartialUpdate 1)
     {| CodePayload.category := None; CodePayload.diagnosis_code := None;
        CodePayload.full_code := None; CodePayload.abbreviated_description := None;
        CodePayload.full_description := None; CodePayload.icd_version := None;
        CodePayload.is_active := Some false; CodePayload.valid_from := None;
        CodePayload.valid_to := None |} Sample.db).1
  = Ok (Response (CodeBody {| instance := Sample.code 1 (Some 1) "A01234" "ICD-10" false;
                              category_details := Some Sample.category_10 |})
          status.HTTP_200_OK)
  /\ (run_write (PartialUpdate 1)
        {| CodePayload.category := None; CodePayload.diagnosis_code := None;
           CodePayload.full_code := None; CodePayload.abbreviated_description := None;
           CodePayload.full_description := None; CodePayload.icd_version := Some "ICD-11";
           CodePayload.is_active := None; CodePayload.valid_from := None;
           CodePayload.valid_to := None |} Sample.db).1
     = Ok (Response (CodeBody {| instance := Sample.code 1 (Some 1) "A01234" "ICD-11" true;
                                 category_details := Some Sample.category_10 |})
             status.HTTP_200_OK).
Proof. split; vm_compute; reflexivity. Qed.

(** ** C5: a code and its version are unique *)

Lemma create_view (data : CodePayload.t) (db : DB) :
  run_write Create data db
  = match DiagnosisCodeSerializer.run_validation db None false data with
    | Ok validated_data =>
        match create_code db validated_data with
        | (Ok c, db') =>
            (Ok (Response (CodeBody (code_data db' c)) status.HTTP_201_CREATED), db')
        | (Raise e, db') => (Raise e, db')
        end
    | Raise (ValidationError errors) =>
        (Ok (Response (ErrorsBody errors) status.HTTP_400_BAD_REQUEST), db)
    | Raise e => (Raise e, db)
    end.
Proof.
  unfold run_write, diagnosis_code_list_create, api_view, diagnosis_code_list_create_view.
  cbn. destruct (DiagnosisCodeSerializer.run_validation db None false data) as [a|e] eqn:E.
  - destruct (create_code db a) as [[c|e] db'] eqn:Ec; [done|].
    assert (e = IntegrityError) as ->; [|done].
    unfold create_code, insert_code in Ec.
    destruct (code_conflicts _ _); [destruct (foreign_key_ok _ _)|];
      by inversion Ec.
  - destruct (run_validation_raises _ _ _ _ _ E) as [errors ->]. done.
Qed.



(** The full code of a stored code is accepted under another version. *)
Example same_code_other_version :
  run_write Create (Sample.payload (Some 2) "A01234" "ICD-9") Sample.db
  = (Ok (Response
           (CodeBody
              {| instance :=
                   {| DiagnosisCode.id := 4; DiagnosisCode.category_id := Some 2;
                      DiagnosisCode.diagnosis_code := "1234";
                      DiagnosisCode.full_code := "A01234";
                      DiagnosisCode.abbreviated_description := "Duplicate";
                      DiagnosisCode.full_description := "Duplicate";
                      DiagnosisCode.icd_version := "ICD-9";
                      DiagnosisCode.is_active := true;
                      DiagnosisCode.valid_from := None;
                      DiagnosisCode.valid_to := None |};
                 category_details := Some Sample.category_9 |})
           status.HTTP_201_CREATED),
     with_new_code Sample.db
       {| DiagnosisCode.id := 4; DiagnosisCode.category_id := Some 2;
          DiagnosisCode.diagnosis_code := "1234";
          DiagnosisCode.full_code := "A01234";
          DiagnosisCode.abbreviated_description := "Duplicate";
          DiagnosisCode.full_description := "Duplicate";
          DiagnosisCode.icd_version := "ICD-9";
          DiagnosisCode.is_active := true;
          DiagnosisCode.valid_from := None;
          DiagnosisCode.valid_to := None |}).
Proof. vm_compute. reflexivity. Qed.

(** The table refuses a second row with the same pair on its own account:
    the insertion raises. *)
Example storage_refuses_duplicate :
  insert_code Sample.db (fun pk => Sample.code pk None "A01234" "ICD-10" true)
  = (Raise IntegrityError, Sample.db).
Proof. vm_compute. reflexivity. Qed.

(** ** C9: rows of the import without a category *)

(** C9 (as amended).  During an import, a row of the code file whose
    category is not in the table, and which has its [Full Code] column,
    is skipped without ending the run: the database and the four counters
    are as before, one warning that names the row is written, and the loop
    goes on with the next row.  The summary is made of the four counters
    of created and updated rows; skipping a row does not change it. *)
Theorem unresolved_row_skipped (icd_version : string) (i : nat)
    (row : gmap string string) (rest : list (nat * gmap string string))
    (s : import_icd.Run) (full_code : string) :
  unresolved (import_icd.db s) icd_version row ->
  row !! "Full Code" = Some full_code ->
  exists category_code s',
    row !! "Category Code" = Some category_code
    /\ import_icd.write import_icd.WARNING
         ("Category not found for code " +:+ full_code +:+ ": " +:+ category_code) s
       = (Ok (), s')
    /\ import_icd.import_code icd_version i row s = (Ok (), s')
    /\ import_icd.for_each ((i, row) :: rest)
         (fun ir => import_icd.import_code icd_version ir.1 ir.2) s
       = import_icd.for_each rest
           (fun ir => import_icd.import_code icd_version ir.1 ir.2) s'
    /\ import_icd.db s' = import_icd.db s
    /\ import_icd.summary icd_version s' = import_icd.summary icd_version s.
Proof.
  intros (category_code & Hcc & Hnone) Hfc.
  exists category_code. eexists. split; [done|]. split; [reflexivity|].
  assert (import_icd.import_code icd_version i row s
          = import_icd.write import_icd.WARNING
              ("Category not found for code " +:+ full_code +:+ ": " +:+ category_code) s)
    as Hstep.
  { unfold import_icd.import_code, import_icd.try_except, import_icd.bind at 1,
      import_icd.item at 1.
    rewrite Hcc. unfold import_icd.ret at 1.
    unfold import_icd.bind at 1, import_icd.get_category, import_icd.with_db.
    rewrite (proj2 (filter_nil_Forall
                      (fun k => DiagnosisCategory.code k = category_code
                                /\ DiagnosisCategory.icd_version k = icd_version) _) Hnone).
    cbn [get]. unfold import_icd.bind, import_icd.item. rewrite Hfc, Hcc.
    unfold import_icd.ret. by destruct s. }
  split; [done|]. split; [|done].
  cbn [import_icd.for_each]. unfold import_icd.bind at 1. cbn [fst snd].
  by rewrite Hstep.
Qed.

Lemma unresolved_row_skipped_witness :
  exists category_code s',
    Sample.code_row "B99" "9" "B999" !! "Category Code" = Some category_code
    /\ import_icd.write import_icd.WARNING
         ("Category not found for code " +:+ "B999" +:+ ": " +:+ category_code)
         (import_icd.start Sample.db)
       = (Ok (), s')
    /\ import_icd.import_code "ICD-10" 2 (Sample.code_row "B99" "9" "B999")
         (import_icd.start Sample.db) = (Ok (), s')
    /\ import_icd.for_each [(2%nat, Sample.code_row "B99" "9" "B999")]
         (fun ir => import_icd.import_code "ICD-10" ir.1 ir.2) (import_icd.start Sample.db)
       = import_icd.for_each []
           (fun ir => import_icd.import_code "ICD-10" ir.1 ir.2) s'
    /\ import_icd.db s' = import_icd.db (import_icd.start Sample.db)
    /\ import_icd.summary "ICD-10" s'
       = import_icd.summary "ICD-10" (import_icd.start Sample.db).
Proof.
  refine (unresolved_row_skipped "ICD-10" 2 (Sample.code_row "B99" "9" "B999") []
            (import_icd.start Sample.db) "B999" _ _).
  - exists "B99". split; [reflexivity|].
    repeat constructor; intros [H _]; discriminate H.
  - reflexivity.
Defined.

Lemma sample_runs :
  import_icd.handle "ICD-10" (Some Sample.categories_file) (Some Sample.codes_file)
    Sample.empty_db = Sample.run_1
  /\ import_icd.handle "ICD-10" (Some Sample.categories_file)
       (Some Sample.codes_file_orphan) Sample.empty_db = Sample.run_2.
Proof. split; vm_compute; reflexivity. Qed.

(** Two runs on the same category file: the second code file has a row
    more, which is skipped with its warning; both end with the same
    summary.  So no reading of the summary gives the number of skipped
    rows. *)
Lemma summary_omits_skipped_rows :
  (import_icd.handle "ICD-10" (Some Sample.categories_file) (Some Sample.codes_file)
     Sample.empty_db = (Ok (), Sample.run_1.2)
   /\ import_icd.handle "ICD-10" (Some Sample.categories_file)
        (Some Sample.codes_file_orphan) Sample.empty_db = (Ok (), Sample.run_2.2)
   /\ skipped Sample.run_1.2 "ICD-10" Sample.codes_file = 0%nat
   /\ skipped Sample.run_2.2 "ICD-10" Sample.codes_file_orphan = 1%nat
   /\ (import_icd.WARNING, "Category not found for code B999: B99")
        ∈ import_icd.stdout Sample.run_2.2
   /\ last (import_icd.stdout Sample.run_1.2) = last (import_icd.stdout Sample.run_2.2)
   /\ last (import_icd.stdout Sample.run_2.2)
      = Some (import_icd.SUCCESS, import_icd.summary "ICD-10" Sample.run_2.2)
   /\ import_icd.codes_count Sample.run_2.2 = 1%nat
   /\ import_icd.codes_updated Sample.run_2.2 = 0%nat)
  /\ ~ summary_reports_skipped.
Proof.
  destruct sample_runs as [E1 E2].
  assert (skipped Sample.run_1.2 "ICD-10" Sample.codes_file = 0%nat
          /\ skipped Sample.run_2.2 "ICD-10" Sample.codes_file_orphan = 1%nat
          /\ last (import_icd.stdout Sample.run_1.2)
             = last (import_icd.stdout Sample.run_2.2))
    as (H3 & H4 & H5).
  { repeat split; vm_compute; reflexivity. }
  split.
  - split; [exact E1|]. split; [exact E2|]. split; [exact H3|]. split; [exact H4|].
    split; [|split; [exact H5|]].
    + vm_compute. do 3 apply list_elem_of_further. apply list_elem_of_here.
    + repeat split; vm_compute; reflexivity.
  - intros (report & Hreport).
    destruct (Hreport "ICD-10" Sample.categories_file Sample.codes_file
                Sample.empty_db Sample.run_1.2 E1) as (t1 & Ht1 & Hr1).
    destruct (Hreport "ICD-10" Sample.categories_file Sample.codes_file_orphan
                Sample.empty_db Sample.run_2.2 E2) as (t2 & Ht2 & Hr2).
    rewrite H5, Ht2 in Ht1. injection Ht1 as <-.
    rewrite H3 in Hr1. rewrite H4 in Hr2. congruence.
Qed.

(** A row that lacks its [Full Code] column ends the run, resolved
    category or not, and the database is left as it was found. *)
Example row_without_full_code_aborts :
  (import_icd.handle "ICD-10" (Some Sample.categories_file)
     (Some [delete "Full Code" (Sample.code_row "B99" "9" "B999")]) Sample.empty_db).1
  = Raise (KeyError "Full Code")
  /\ import_icd.db
       (import_icd.handle "ICD-10" (Some Sample.categories_file)
          (Some [delete "Full Code" (Sample.code_row "B99" "9" "B999")])
          Sample.empty_db).2
     = Sample.empty_db
  /\ (import_icd.handle "ICD-10" (Some Sample.categories_file)
        (Some [delete "Full Code" (Sample.code_row "A00" "9" "A009")]) Sample.empty_db).1
     = Raise (KeyError "Full Code").
Proof. repeat split; vm_compute; reflexivity. Qed.


(** * Further properties *)

(** ** The queryset of the list view *)

Lemma filter_submseteq {A} (P : A -> Prop) `{!forall x, Decision (P x)} (l : list A) :
  filter P l ⊆+ l.
Proof. apply sublist_submseteq, sublist_filter. Qed.

(** X1.  The queryset of the list view holds the stored codes that satisfy
    the filters, all of them and nothing else, and no code more often than
    the table does. *)
Theorem code_list_queryset_exact (db : DB) (q : gmap string string)
    (l : list DiagnosisCode.t) :
  code_list_queryset db q = Ok l ->
  (forall c, c ∈ l <-> c ∈ codes db /\ satisfies_filters q c)
  /\ l ⊆+ codes db.
Proof.
  intros Hl. split.
  - intros c. split; [by apply code_list_queryset_elem|].
    revert Hl. unfold code_list_queryset, satisfies_filters.
    destruct (Py.if_truthy (q !! "icd_version")) as [v|] eqn:Ev;
    destruct (bool_decide (Py.lower (default "false" (q !! "include_inactive")) <> "true"))
      eqn:Ei;
    destruct (Py.if_truthy (q !! "category")) as [cid|] eqn:Ec;
    try (destruct (Py.int cid) as [pk|] eqn:Epk;
       [destruct (fits_database pk) eqn:Efit; [|done]|done]);
    destruct (Py.if_truthy (q !! "search")) as [s|] eqn:Es; cbn;
    intros [= <-]; rewrite elem_of_order_by, ?list_elem_of_filter;
    rewrite ?if_truthy_Some in *;
    try (apply bool_decide_eq_true in Ei);
    rewrite ?search_Q_occurs;
    intros (Hc & Hv & Ha & Hcat & Hs); destruct_and?;
    repeat split; eauto;
    match goal with
    | Hq : q !! "category" = Some ?cid, Hne : ?cid <> EmptyString |- _ =>
        destruct (Hcat cid Hq Hne) as (pk' & Hpk' & ->); congruence
    end.
  - revert Hl. unfold code_list_queryset.
    destruct (Py.if_truthy (q !! "category")) as [cid|];
      [destruct (Py.int cid) as [pk|]; [destruct (fits_database pk); [|done]|done]|];
    cbn; intros [= <-];
      rewrite order_by_perm;
      repeat (case_match || case_bool_decide);
      repeat (etrans; [apply filter_submseteq|]); done.
Qed.

Lemma code_list_queryset_exact_witness :
  (forall c, c ∈ [Sample.code_1] <->
             c ∈ codes Sample.db /\ satisfies_filters {["icd_version" := "ICD-10"]} c)
  /\ [Sample.code_1] ⊆+ codes Sample.db.
Proof.
  refine (code_list_queryset_exact Sample.db {["icd_version" := "ICD-10"]}
            [Sample.code_1] _).
  vm_compute. reflexivity.
Defined.

Lemma lower_truthy (s : string) : Py.truthy (Py.lower s) = Py.truthy s.
Proof. by destruct s. Qed.

(** X2.  The search ignores the case of the term too: two requests whose
    search terms differ in case only get the same answer. *)
Theorem search_ignores_case_of_term (request : Request.t CodePayload.t) (db : DB)
    (s s' : string) :
  Request.method request = GET ->
  Request.query_params request !! "search" = Some s ->
  Py.lower s = Py.lower s' ->
  diagnosis_code_list_create request db
  = diagnosis_code_list_create
      (with_query request (<["search" := s']> (Request.query_params request))) db.
Proof.
  intros Hm Hs Hlow. rewrite !list_view_GET by done. cbn [with_query Request.query_params].
  set (q := Request.query_params request) in *.
  rewrite (code_list_page_ext db q (<["search" := s']> q)); [done|..].
  - unfold code_list_queryset.
    rewrite (lookup_insert_ne q "search" "icd_version") by done.
    rewrite (lookup_insert_ne q "search" "include_inactive") by done.
    rewrite (lookup_insert_ne q "search" "category") by done.
    rewrite lookup_insert_eq, Hs.
    change (Py.if_truthy (Some s)) with (if Py.truthy s then Some s else None).
    change (Py.if_truthy (Some s')) with (if Py.truthy s' then Some s' else None).
    rewrite <- (lower_truthy s), <- (lower_truthy s'), Hlow.
    destruct (Py.truthy (Py.lower s')); [|done].
    assert (forall c, search_Q s c = search_Q s' c) as Hq.
    { intros c. unfold search_Q, icontains. by rewrite Hlow. }
    destruct (match Py.if_truthy (q !! "category") with Some _ => _ | None => _ end)
      as [l|e]; [|done].
    cbn. do 2 f_equal. apply list_filter_iff. intros c. by rewrite Hq.
  - unfold DiagnosisCodePagination.get_page_size,
      DiagnosisCodePagination.page_size_query_param. by rewrite lookup_insert_ne.
  - by rewrite lookup_insert_ne.
Qed.

Lemma search_ignores_case_of_term_witness :
  diagnosis_code_list_create (Sample.GET_codes {["search" := "a012"]}) Sample.db
  = diagnosis_code_list_create
      (with_query (Sample.GET_codes {["search" := "a012"]})
         (<["search" := "A012"]> {["search" := "a012"]})) Sample.db.
Proof.
  refine (search_ignores_case_of_term (Sample.GET_codes {["search" := "a012"]})
            Sample.db "a012" "A012" _ _ _); reflexivity.
Defined.

(** X3.  A [category] parameter that is not an integer literal makes the
    list view raise [ValueError], which no handler of the view catches: the
    request gets no response from the view.  A [category] parameter that
    is an integer of 64 bits no code refers to gets, without a [page]
    parameter, an empty page: status 200, count 0, no links.  One that is
    an integer beyond 64 bits makes, without a [page] parameter, the query
    fail with [OverflowError], which the view does not catch either. *)
Theorem category_parameter_edge_cases (request : Request.t CodePayload.t) (db : DB)
    (s : string) :
  Request.method request = GET ->
  Request.query_params request !! "category" = Some s ->
  s <> EmptyString ->
  (Py.int s = None -> diagnosis_code_list_create request db = (Raise ValueError, db))
  /\ (forall pk : Z,
         Py.int s = Some pk ->
         - 2 ^ 63 <= pk < 2 ^ 63 ->
         Forall (fun c => DiagnosisCode.category_id c <> Some pk) (codes db) ->
         Request.query_params request !! "page" = None ->
         diagnosis_code_list_create request db
         = (Ok (Response (PageBody {| count := 0; next := None; previous := None;
                                      results := [] |}) status.HTTP_200_OK), db))
  /\ (forall pk : Z,
         Py.int s = Some pk ->
         pk < - 2 ^ 63 \/ 2 ^ 63 <= pk ->
         Request.query_params request !! "page" = None ->
         diagnosis_code_list_create request db = (Raise OverflowError, db)).
Proof.
  intros Hm Hq Hne. rewrite list_view_GET by done.
  set (q := Request.query_params request) in *.
  assert (Py.if_truthy (q !! "category") = Some s) as Hc by (by apply if_truthy_Some).
  split; [|split].
  - intros Hint. unfold code_list_page, code_list_queryset. rewrite Hc, Hint. done.
  - intros pk Hint Hfit Hnone Hpage.
    assert (fits_database pk = true) as Hfits.
    { unfold fits_database. apply andb_true_iff. split; [apply Z.leb_le|apply Z.ltb_lt]; lia. }
    assert (code_list_queryset db q = Ok []) as Hl.
    { destruct (code_list_queryset db q) as [l|e] eqn:El.
      - f_equal. destruct l as [|c l]; [done|].
        destruct (code_list_queryset_elem db q _ c El ltac:(left))
          as (Hin & _ & _ & Hcat & _).
        destruct (Hcat s Hq Hne) as (pk' & Hpk' & Hid).
        rewrite Forall_forall in Hnone. destruct (Hnone c Hin). congruence.
      - unfold code_list_queryset in El. rewrite Hc, Hint, Hfits in El. cbn in El. done. }
    unfold code_list_page. rewrite Hl. cbn.
    unfold DiagnosisCodePagination.paginate_queryset.
    pose proof (get_page_size_range q) as Hs.
    destruct (DiagnosisCodePagination.get_page_size q =? 0) eqn:E; [lia|].
    unfold DiagnosisCodePagination.get_page_number,
      DiagnosisCodePagination.page_query_param. rewrite Hpage.
    set (size := DiagnosisCodePagination.get_page_size q) in *.
    assert (Paginator.num_pages (@nil DiagnosisCode.t) size = 1) as Hnp.
    { rewrite num_pages_eq by lia. change (Paginator.count []) with 0.
      change (Z.max 1 0) with 1.
      assert (ceil_div 1 size <= 1) by (apply ceil_div_le; lia).
      assert (0 < ceil_div 1 size) by (apply ceil_div_lt; lia). lia. }
    rewrite (page_ok [] size ltac:(lia) (PageInt 1) 1 eq_refl) by lia.
    rewrite Hnp, drop_nil, take_nil. done.
  - intros pk Hint Hout Hpage.
    assert (fits_database pk = false) as Hfits.
    { unfold fits_database. apply andb_false_iff.
      destruct Hout; [left; apply Z.leb_gt|right; apply Z.ltb_ge]; lia. }
    unfold code_list_page, code_list_queryset. rewrite Hc, Hint, Hfits. cbn.
    unfold page_number_refused, DiagnosisCodePagination.page_query_param.
    by rewrite Hpage.
Qed.

Lemma category_parameter_edge_cases_witness :
  diagnosis_code_list_create (Sample.GET_codes {["category" := "C21"]}) Sample.db
  = (Raise ValueError, Sample.db).
Proof.
  refine (proj1 (category_parameter_edge_cases (Sample.GET_codes {["category" := "C21"]})
                   Sample.db "C21" _ _ _) _).
  - reflexivity.
  - reflexivity.
  - discriminate.
  - reflexivity.
Defined.

(** ** The envelope of a page *)

(** The page number the paginator ends up with, given the [page]
    parameter. *)
Lemma page_number_cases (q : gmap string string) (l : list DiagnosisCode.t)
    (p : Page.t DiagnosisCode.t) :
  Paginator.page l (DiagnosisCodePagination.get_page_size q)
    (DiagnosisCodePagination.get_page_number q
       (Paginator.num_pages l (DiagnosisCodePagination.get_page_size q))) = Ok p ->
  match q !! "page" with
  | None => Page.number p = 1
  | Some s =>
      (s = EmptyString /\ Page.number p = 1)
      \/ (s = "last"
          /\ Page.number p = Paginator.num_pages l (DiagnosisCodePagination.get_page_size q))
      \/ Py.int s = Some (Page.number p)
  end.
Proof.
  unfold DiagnosisCodePagination.get_page_number, DiagnosisCodePagination.page_query_param,
    Paginator.page, Paginator.validate_number.
  destruct (q !! "page") as [s|].
  - destruct (Py.truthy s) eqn:Et.
    + case_bool_decide as Hlast.
      * apply list_elem_of_singleton in Hlast as ->.
        destruct (_ <? 1); [done|]. destruct (_ >? _); [done|]. cbn. intros [= <-]. auto.
      * destruct (Py.int s) as [n|]; [|done].
        destruct (_ <? 1); [done|]. destruct (_ >? _); [done|]. cbn. intros [= <-]. auto.
    + destruct s; [|done].
      destruct (_ <? 1); [done|]. destruct (_ >? _); [done|]. cbn. intros [= <-]. auto.
  - destruct (_ <? 1); [done|]. destruct (_ >? _); [done|]. cbn. intros [= <-]. done.
Qed.

(** X4.  The envelope of a page of the list view: [count] is the length of
    the whole filtered sequence, whatever the page; the page holds
    [page_size] items, or what is left of the sequence when that is less;
    [next] is present exactly when items follow the page and [previous]
    exactly when the page is not the first.  The page is the first when
    there is no [page] parameter or an empty one, the last one for
    [page=last], and the one the parameter denotes otherwise.  The
    database is not changed. *)
Theorem list_envelope (request : Request.t CodePayload.t) (db db' : DB)
    (resp : Response.t) (env : Envelope DiagnosisCodeListSerializer.data)
    (l : list DiagnosisCode.t) :
  Request.method request = GET ->
  diagnosis_code_list_create request db = (Ok resp, db') ->
  Response.data resp = PageBody env ->
  code_list_queryset db (Request.query_params request) = Ok l ->
  let size := DiagnosisCodePagination.get_page_size (Request.query_params request) in
  exists n : Z,
    1 <= n
    /\ match Request.query_params request !! "page" with
       | None => n = 1
       | Some s =>
           (s = EmptyString /\ n = 1)
           \/ (s = "last" /\ n = Paginator.num_pages l size)
           \/ Py.int s = Some n
       end
    /\ count env = Z.of_nat (length l)
    /\ Z.of_nat (length (results env)) = Z.min size (count env - (n - 1) * size)
    /\ next env = (if n * size <? count env then Some (n + 1) else None)
    /\ previous env = (if 1 <? n then Some (n - 1) else None)
    /\ Response.status_code resp = status.HTTP_200_OK
    /\ db' = db.
Proof.
  intros Hm Hv Hd Hl size.
  rewrite list_view_GET in Hv by done.
  destruct (code_list_page db (Request.query_params request)) as [p|e] eqn:Ep.
  2: { destruct e; try done; injection Hv as <- _; done. }
  injection Hv as <- <-. cbn in Hd. injection Hd as <-.
  destruct (code_list_page_inv _ _ _ Ep) as (l' & Hl' & Hpage).
  rewrite Hl in Hl'. injection Hl' as <-.
  pose proof (get_page_size_range (Request.query_params request)) as Hs.
  fold size in Hs, Hpage.
  assert (0 < size) as Hpos by lia.
  pose proof (page_number_cases _ _ _ Hpage) as Hcases. fold size in Hcases.
  pose proof (page_window l size Hpos _ _ Hpage) as [[Hn1 Hn2] Hw].
  assert (Page.paginator_count p = Z.of_nat (length l)
          /\ Page.paginator_num_pages p = Paginator.num_pages l size) as [Hc Hnp].
  { unfold Paginator.page in Hpage.
    destruct (Paginator.validate_number l size _) as [n|]; [|done].
    cbn in Hpage. injection Hpage as <-. done. }
  pose proof (num_pages_eq l size) as Heq. unfold Paginator.count in Heq.
  exists (Page.number p). split; [done|]. split; [done|].
  cbn. split; [done|]. rewrite Hc. split; [|split; [|split; [|done]]].
  - rewrite length_fmap, Hw, length_take, length_drop.
    assert ((Page.number p - 1) * size < Z.max 1 (Z.of_nat (length l))) as Hlt.
    { apply ceil_div_lt; [done|]. lia. }
    assert (0 <= (Page.number p - 1) * size) by nia.
    lia.
  - unfold DiagnosisCodePagination.get_next_link, Page.has_next. rewrite Hnp.
    destruct (Page.number p <? Paginator.num_pages l size) eqn:E1;
      destruct (Page.number p * size <? Z.of_nat (length l)) eqn:E2; try done; exfalso.
    + apply Z.ltb_lt in E1. rewrite Heq in E1. apply ceil_div_lt in E1; [|done]. nia.
    + apply Z.ltb_lt in E2.
      assert (Page.number p < Paginator.num_pages l size); [|lia].
      rewrite Heq. apply ceil_div_lt; [done|]. lia.
  - unfold DiagnosisCodePagination.get_previous_link, Page.has_previous.
    destruct (Page.number p >? 1) eqn:E1; destruct (1 <? Page.number p) eqn:E2;
      try done; lia.
Qed.


Lemma list_envelope_witness :
  exists n : Z,
    1 <= n
    /\ match Request.query_params Sample2.page_2_request !! "page" with
       | None => n = 1
       | Some s =>
           (s = EmptyString /\ n = 1)
           \/ (s = "last"
               /\ n = Paginator.num_pages [Sample.code_1; Sample.code_2; Sample.code_3]
                        (DiagnosisCodePagination.get_page_size
                           (Request.query_params Sample2.page_2_request)))
           \/ Py.int s = Some n
       end
    /\ count Sample2.page_2_envelope
       = Z.of_nat (length [Sample.code_1; Sample.code_2; Sample.code_3])
    /\ Z.of_nat (length (results Sample2.page_2_envelope))
       = Z.min (DiagnosisCodePagination.get_page_size
                  (Request.query_params Sample2.page_2_request))
               (count Sample2.page_2_envelope
                - (n - 1) * DiagnosisCodePagination.get_page_size
                              (Request.query_params Sample2.page_2_request))
    /\ next Sample2.page_2_envelope
       = (if n * DiagnosisCodePagination.get_page_size
                   (Request.query_params Sample2.page_2_request)
             <? count Sample2.page_2_envelope
          then Some (n + 1) else None)
    /\ previous Sample2.page_2_envelope = (if 1 <? n then Some (n - 1) else None)
    /\ Response.status_code (Response (PageBody Sample2.page_2_envelope) status.HTTP_200_OK)
       = status.HTTP_200_OK
    /\ Sample.db = Sample.db.
Proof.
  refine (list_envelope Sample2.page_2_request Sample.db Sample.db
            (Response (PageBody Sample2.page_2_envelope) status.HTTP_200_OK)
            Sample2.page_2_envelope
            [Sample.code_1; Sample.code_2; Sample.code_3] _ _ _ _).
  - reflexivity.
  - vm_compute. reflexivity.
  - reflexivity.
  - vm_compute. reflexivity.
Defined.

(** ** The tables keep their promises *)

Lemma NoDup_fmap_snoc {A K} (f : A -> K) (l : list A) (x : A) :
  NoDup (f <$> l) -> f x ∉ f <$> l -> NoDup (f <$> (l ++ [x])%list).
Proof.
  intros Hl Hx. rewrite fmap_app. apply NoDup_app. split; [done|]. split.
  - intros y Hy Hin. apply list_elem_of_singleton in Hin. by subst.
  - apply NoDup_singleton.
Qed.

Lemma fmap_replace_same {A K} (f : A -> K) (P : A -> Prop) `{!forall x, Decision (P x)}
    (l : list A) (c : A) :
  (forall r, r ∈ l -> P r -> f r = f c) ->
  f <$> ((fun r => if bool_decide (P r) then c else r) <$> l) = f <$> l.
Proof.
  intros Hsame. rewrite <- list_fmap_compose. apply list_fmap_ext.
  intros i r Hr. cbn. case_bool_decide; [|done].
  symmetry. apply Hsame; [|done]. by eapply list_elem_of_lookup_2.
Qed.

(** Replacing the rows with one primary key by a row of another key keeps
    the keys unique, when no other row has that key. *)
Lemma NoDup_fmap_replace {A K} `{!EqDecision K} (ident : A -> Z) (key : A -> K)
    (l : list A) (c : A) :
  NoDup (ident <$> l) -> NoDup (key <$> l) ->
  (forall r, r ∈ l -> ident r <> ident c -> key r <> key c) ->
  NoDup (key <$> ((fun r => if bool_decide (ident r = ident c) then c else r) <$> l)).
Proof.
  induction l as [|r l IH]; [constructor|].
  rewrite !fmap_cons, !NoDup_cons. intros [Hid Hids] [Hk Hks] Hother.
  assert (forall r', r' ∈ l -> ident r' <> ident c -> key r' <> key c) as Hother'.
  { intros r' Hr'. apply Hother. by right. }
  case_bool_decide as Hr.
  - assert ((fun r => if bool_decide (ident r = ident c) then c else r) <$> l = l) as ->.
    { rewrite <- (list_fmap_id l) at 2. apply list_fmap_ext. intros i r' Hr'. cbn.
      case_bool_decide as E; [|done]. destruct Hid. apply list_elem_of_fmap.
      exists r'. split; [congruence|]. by eapply list_elem_of_lookup_2. }
    split; [|done]. intros Hin. apply list_elem_of_fmap in Hin as (r' & Hkey & Hr').
    apply (Hother' r' Hr'); [|done]. intros E. destruct Hid.
    apply list_elem_of_fmap. exists r'. split; [congruence|done].
  - split; [|by apply IH].
    intros Hin. apply list_elem_of_fmap in Hin as (r' & Hkey & Hr').
    apply list_elem_of_fmap in Hr' as (r'' & -> & Hr'').
    case_bool_decide as E.
    + apply (Hother r); [left|done|done].
    + destruct Hk. apply list_elem_of_fmap. eauto.
Qed.

Lemma Forall_filter_keep {A} (P Q : A -> Prop) `{!forall x, Decision (Q x)} (l : list A) :
  Forall P l -> Forall P (filter Q l).
Proof.
  rewrite !Forall_forall. intros Hl x Hx. apply list_elem_of_filter in Hx as [_ Hx].
  by apply Hl.
Qed.

Lemma NoDup_fmap_filter {A K} (f : A -> K) (P : A -> Prop) `{!forall x, Decision (P x)}
    (l : list A) :
  NoDup (f <$> l) -> NoDup (f <$> filter P l).
Proof.
  intros Hl. apply (sublist_NoDup _ (f <$> l)); [done|].
  apply fmap_sublist. apply sublist_filter.
Qed.

Lemma foreign_key_ok_ext (db db' : DB) (c : DiagnosisCode.t) :
  DiagnosisCategory.id <$> categories db' = DiagnosisCategory.id <$> categories db ->
  foreign_key_ok db' c = foreign_key_ok db c.
Proof.
  intros H. unfold foreign_key_ok. destruct (DiagnosisCode.category_id c) as [pk|]; [|done].
  apply bool_decide_ext. rewrite !Exists_exists.
  split; intros (k & Hk & Hid).
  - assert (pk ∈ DiagnosisCategory.id <$> categories db) as Hin.
    { rewrite <- H. apply list_elem_of_fmap. eauto. }
    apply list_elem_of_fmap in Hin as (k' & ? & ?). eauto.
  - assert (pk ∈ DiagnosisCategory.id <$> categories db') as Hin.
    { rewrite H. apply list_elem_of_fmap. eauto. }
    apply list_elem_of_fmap in Hin as (k' & ? & ?). eauto.
Qed.

Lemma insert_code_ok (db db' : DB) (row : Z -> DiagnosisCode.t) (c : DiagnosisCode.t) :
  db_ok db ->
  DiagnosisCode.id (row (code_seq db)) = code_seq db ->
  insert_code db row = (Ok c, db') ->
  db_ok db'
  /\ c = row (code_seq db)
  /\ db' = with_new_code db c
  /\ c ∉ codes db.
Proof.
  intros [H1 H2 H3 H4 H5 H6 H7] Hid. unfold insert_code.
  destruct (code_conflicts _ _) as [|x xs] eqn:Ec; [|done].
  destruct (foreign_key_ok db _) eqn:Efk; [|done].
  intros [= <- <-]. set (c := row (code_seq db)) in *.
  assert (forall r, r ∈ codes db -> DiagnosisCode.id r <> DiagnosisCode.id c) as Hne.
  { intros r Hr. rewrite Forall_forall in H5. specialize (H5 r Hr). lia. }
  split; [|split; [done|split; [done|]]].
  - split; cbn; try done.
    + apply NoDup_fmap_snoc; [done|]. intros Hin.
      apply list_elem_of_fmap in Hin as (r & Hr & Hin). by apply (Hne r).
    + apply Forall_app. split.
      * eapply Forall_impl; [exact H5|]. cbn. lia.
      * repeat constructor. change (DiagnosisCode.id c < code_seq db + 1). lia.
    + apply NoDup_fmap_snoc; [done|]. intros Hin.
      apply list_elem_of_fmap in Hin as (r & Hr & Hin).
      apply (filter_nil_not_elem_of _ _ r Ec); [|done].
      unfold code_key in Hr. injection Hr as ??. split; [by apply Hne|done].
    + apply Forall_app. split; [done|]. repeat constructor. done.
  - intros Hin. by apply (Hne c).
Qed.

Lemma update_code_ok (db db' : DB) (c c' : DiagnosisCode.t) :
  db_ok db ->
  update_code db c = (Ok c', db') ->
  db_ok db'
  /\ c' = c
  /\ categories db' = categories db
  /\ codes db'
     = (fun r => if bool_decide (DiagnosisCode.id r = DiagnosisCode.id c) then c else r)
         <$> codes db.
Proof.
  intros [H1 H2 H3 H4 H5 H6 H7]. unfold update_code.
  destruct (code_conflicts _ _) as [|x xs] eqn:Ec; [|done].
  destruct (foreign_key_ok db _) eqn:Efk; [|done].
  intros [= <- <-]. split; [|done].
  assert (DiagnosisCode.id
            <$> ((fun r => if bool_decide (DiagnosisCode.id r = DiagnosisCode.id c)
                           then c else r) <$> codes db)
          = DiagnosisCode.id <$> codes db) as Hids.
  { apply (fmap_replace_same DiagnosisCode.id
             (fun r => DiagnosisCode.id r = DiagnosisCode.id c)). by intros r _ ->. }
  split; cbn; try done.
  - by rewrite Hids.
  - rewrite Forall_forall in H5 |- *. intros r Hr.
    assert (DiagnosisCode.id r ∈ DiagnosisCode.id <$> codes db) as Hin.
    { rewrite <- Hids. by apply list_elem_of_fmap_2. }
    apply list_elem_of_fmap in Hin as (r' & -> & Hr'). by apply H5.
  - apply (NoDup_fmap_replace DiagnosisCode.id code_key); [done..|].
    intros r Hr Hne Hkey. apply (filter_nil_not_elem_of _ _ r Ec); [|done].
    unfold code_key in Hkey. injection Hkey as ??. done.
  - rewrite Forall_forall in H7 |- *. intros r Hr.
    apply list_elem_of_fmap in Hr as (r' & -> & Hr').
    case_bool_decide; [done|]. by apply H7.
Qed.

Lemma delete_code_ok (db : DB) (c : DiagnosisCode.t) : db_ok db -> db_ok (delete_code db c).
Proof.
  intros [H1 H2 H3 H4 H5 H6 H7]. split; cbn; try done.
  - by apply NoDup_fmap_filter.
  - by apply Forall_filter_keep.
  - by apply NoDup_fmap_filter.
  - by apply Forall_filter_keep.
Qed.

Lemma delete_category_ok (db db' : DB) (k : DiagnosisCategory.t) :
  db_ok db -> delete_category db k = (Ok (), db') -> db_ok db'.
Proof.
  intros [H1 H2 H3 H4 H5 H6 H7]. unfold delete_category.
  destruct (filter _ (codes db)) as [|x xs] eqn:Ec; [|done].
  intros [= <-]. split; cbn; try done.
  - by apply NoDup_fmap_filter.
  - by apply Forall_filter_keep.
  - by apply NoDup_fmap_filter.
  - rewrite Forall_forall in H7 |- *. intros c Hc. specialize (H7 c Hc).
    unfold foreign_key_ok in *. cbn.
    destruct (DiagnosisCode.category_id c) as [pk|] eqn:Epk; [|done].
    apply bool_decide_eq_true in H7. apply bool_decide_eq_true_2.
    apply Exists_exists in H7 as (k' & Hk' & Hid). apply Exists_exists.
    exists k'. split; [|done]. apply list_elem_of_filter. split; [|done].
    intros E. apply (filter_nil_not_elem_of _ _ c Ec); [|done]. congruence.
Qed.

Lemma update_category_ok (db db' : DB) (k k' : DiagnosisCategory.t) :
  db_ok db ->
  update_category db k = (Ok k', db') ->
  db_ok db' /\ k' = k /\ codes db' = codes db.
Proof.
  intros [H1 H2 H3 H4 H5 H6 H7]. unfold update_category.
  destruct (filter _ (categories db)) as [|x xs] eqn:Ec; [|done].
  intros [= <- <-]. split; [|done].
  assert (DiagnosisCategory.id
            <$> ((fun r => if bool_decide (DiagnosisCategory.id r = DiagnosisCategory.id k)
                           then k else r) <$> categories db)
          = DiagnosisCategory.id <$> categories db) as Hids.
  { apply (fmap_replace_same DiagnosisCategory.id
             (fun r => DiagnosisCategory.id r = DiagnosisCategory.id k)). by intros r _ ->. }
  split; cbn; try done.
  - by rewrite Hids.
  - rewrite Forall_forall in H2 |- *. intros r Hr.
    assert (DiagnosisCategory.id r ∈ DiagnosisCategory.id <$> categories db) as Hin.
    { rewrite <- Hids. by apply list_elem_of_fmap_2. }
    apply list_elem_of_fmap in Hin as (r' & -> & Hr'). by apply H2.
  - apply (NoDup_fmap_replace DiagnosisCategory.id category_key); [done..|].
    intros r Hr Hne Hkey. apply (filter_nil_not_elem_of _ _ r Ec); [|done].
    unfold category_key in Hkey. injection Hkey as ??. done.
  - eapply Forall_impl; [exact H7|]. intros c Hc. cbn in Hc.
    rewrite <- Hc. by apply foreign_key_ok_ext.
Qed.

Lemma insert_category_ok (db db' : DB) (row : Z -> DiagnosisCategory.t)
    (k : DiagnosisCategory.t) :
  db_ok db ->
  DiagnosisCategory.id (row (category_seq db)) = category_seq db ->
  insert_category db row = (Ok k, db') ->
  db_ok db'
  /\ k = row (category_seq db)
  /\ categories db' = (categories db ++ [k])%list
  /\ codes db' = codes db.
Proof.
  intros [H1 H2 H3 H4 H5 H6 H7] Hid. unfold insert_category.
  destruct (filter _ (categories db)) as [|x xs] eqn:Ec; [|done].
  intros [= <- <-]. set (k := row (category_seq db)) in *.
  assert (forall r, r ∈ categories db -> DiagnosisCategory.id r <> DiagnosisCategory.id k)
    as Hne.
  { intros r Hr. rewrite Forall_forall in H2. specialize (H2 r Hr). lia. }
  split; [|done]. split; cbn; try done.
  - apply NoDup_fmap_snoc; [done|]. intros Hin.
    apply list_elem_of_fmap in Hin as (r & Hr & Hin). by apply (Hne r).
  - apply Forall_app. split.
    + eapply Forall_impl; [exact H2|]. cbn. lia.
    + repeat constructor. change (DiagnosisCategory.id k < category_seq db + 1). lia.
  - apply NoDup_fmap_snoc; [done|]. intros Hin.
    apply list_elem_of_fmap in Hin as (r & Hr & Hin).
    apply (filter_nil_not_elem_of _ _ r Ec); [|done].
    unfold category_key in Hr. injection Hr as ??. done.
  - rewrite Forall_forall in H7 |- *. intros c Hc. specialize (H7 c Hc).
    unfold foreign_key_ok in *. cbn.
    destruct (DiagnosisCode.category_id c) as [pk|]; [|done].
    apply bool_decide_eq_true in H7. apply bool_decide_eq_true_2.
    apply Exists_app. by left.
Qed.

(** ** The write views *)

Lemma run_validation_Ok (db : DB) (instance : option DiagnosisCode.t) (partial : bool)
    (data : CodePayload.t) (validated_data : Attrs.t) :
  DiagnosisCodeSerializer.run_validation db instance partial data = Ok validated_data ->
  DiagnosisCodeSerializer.to_internal_value db partial data = Ok validated_data
  /\ DiagnosisCodeSerializer.UniqueTogetherValidator db instance validated_data = Ok ()
  /\ DiagnosisCodeSerializer.validate validated_data = Ok validated_data.
Proof.
  unfold DiagnosisCodeSerializer.run_validation.
  destruct (DiagnosisCodeSerializer.to_internal_value db partial data) as [attrs|e]; [|done].
  cbn. destruct (DiagnosisCodeSerializer.UniqueTogetherValidator db instance attrs)
    as [[]|e] eqn:Eu; [|done].
  cbn. intros Hv.
  assert (validated_data = attrs) as ->; [|by repeat split].
  unfold DiagnosisCodeSerializer.validate in Hv.
  repeat case_match; congruence.
Qed.

(** The uniqueness validator passes only when the table would accept the
    row. *)
Lemma validated_create_no_conflict (db : DB) (validated_data : Attrs.t)
    (c : DiagnosisCode.t) :
  DiagnosisCodeSerializer.UniqueTogetherValidator db None validated_data = Ok () ->
  DiagnosisCode.full_code c = default EmptyString (Attrs.full_code validated_data) ->
  DiagnosisCode.icd_version c = default EmptyString (Attrs.icd_version validated_data) ->
  code_conflicts (codes db) c = [].
Proof.
  unfold DiagnosisCodeSerializer.UniqueTogetherValidator. intros Hu Hf Hv.
  destruct (Attrs.full_code validated_data) as [fc|]; [|done].
  destruct (Attrs.icd_version validated_data) as [v|]; [|done].
  cbn in *. destruct (filter _ (codes db)) as [|x xs] eqn:E; [|done].
  apply filter_nil_Forall, Forall_forall. intros r Hr (_ & Hf' & Hv').
  apply (filter_nil_not_elem_of _ _ r E); [|done]. split; congruence.
Qed.

Lemma validated_update_no_conflict (db : DB) (i : DiagnosisCode.t)
    (validated_data : Attrs.t) :
  DiagnosisCodeSerializer.UniqueTogetherValidator db (Some i) validated_data = Ok () ->
  code_conflicts (codes db) (update_instance i validated_data) = [].
Proof.
  unfold DiagnosisCodeSerializer.UniqueTogetherValidator. cbn. intros Hu.
  destruct (filter _ (filter _ (codes db))) as [|x xs] eqn:E; [|done].
  apply filter_nil_Forall, Forall_forall. intros r Hr (Hid & Hf & Hv). cbn in *.
  apply (filter_nil_not_elem_of _ _ r E); [done|].
  apply list_elem_of_filter. split; [|done].
  rewrite Hf, Hv. split.
  - by destruct (Attrs.full_code validated_data).
  - by destruct (Attrs.icd_version validated_data).
Qed.

Lemma category_of_payload_stored (db : DB) (partial : bool) (data : CodePayload.t)
    (validated_data : Attrs.t) (k : DiagnosisCategory.t) :
  DiagnosisCodeSerializer.to_internal_value db partial data = Ok validated_data ->
  Attrs.category validated_data = Some (Some k) ->
  k ∈ categories db.
Proof.
  intros Ht Hk. destruct (to_internal_value_inv _ _ _ _ Ht) as (_ & _ & _ & _ & Hc).
  destruct (CodePayload.category data) as [[pk|]|]; try congruence.
  destruct Hc as (k' & Hk' & Hin & _). congruence.
Qed.

Lemma foreign_key_ok_stored (db : DB) (c : DiagnosisCode.t) (k : DiagnosisCategory.t) :
  k ∈ categories db ->
  DiagnosisCode.category_id c = Some (DiagnosisCategory.id k) ->
  foreign_key_ok db c = true.
Proof.
  intros Hk Hc. unfold foreign_key_ok. rewrite Hc. apply bool_decide_eq_true_2.
  apply Exists_exists. eauto.
Qed.

(** A create that passes validation is stored. *)
Lemma create_code_validated (db : DB) (data : CodePayload.t) (validated_data : Attrs.t) :
  db_ok db ->
  DiagnosisCodeSerializer.run_validation db None false data = Ok validated_data ->
  exists c,
    create_code db validated_data = (Ok c, with_new_code db c)
    /\ DiagnosisCode.id c = code_seq db
    /\ (c ∉ codes db)
    /\ db_ok (with_new_code db c).
Proof.
  intros Hok Hrun. destruct (run_validation_Ok _ _ _ _ _ Hrun) as (Ht & Hu & _).
  unfold create_code.
  destruct (insert_code db _) as [[c|e] db'] eqn:Ei.
  - pose proof (fun H => insert_code_ok _ _ _ _ Hok H Ei) as Hins.
    destruct (Hins eq_refl) as (Hok' & -> & -> & Hnew).
    eexists. split; [done|]. split; [done|]. split; [done|]. done.
  - exfalso. unfold insert_code in Ei.
    rewrite (validated_create_no_conflict db validated_data) in Ei by done.
    unfold foreign_key_ok in Ei. cbn in Ei.
    destruct (Attrs.category validated_data) as [[k|]|] eqn:Ek; cbn in Ei; try done.
    rewrite bool_decide_eq_true_2 in Ei; [done|].
    apply Exists_exists. exists k. split; [|done].
    by eapply category_of_payload_stored.
Qed.

(** An update that passes validation is stored. *)
Lemma update_code_validated (db : DB) (i : DiagnosisCode.t) (partial : bool)
    (data : CodePayload.t) (validated_data : Attrs.t) :
  db_ok db ->
  i ∈ codes db ->
  DiagnosisCodeSerializer.run_validation db (Some i) partial data = Ok validated_data ->
  exists db',
    update_code db (update_instance i validated_data)
    = (Ok (update_instance i validated_data), db')
    /\ db_ok db'
    /\ categories db' = categories db
    /\ codes db'
       = (fun r => if bool_decide (DiagnosisCode.id r = DiagnosisCode.id i)
                   then update_instance i validated_data else r) <$> codes db.
Proof.
  intros Hok Hi Hrun. destruct (run_validation_Ok _ _ _ _ _ Hrun) as (Ht & Hu & _).
  destruct (update_code db _) as [[c|e] db'] eqn:Eu.
  - destruct (update_code_ok _ _ _ _ Hok Eu) as (Hok' & -> & Hcat & Hcodes).
    exists db'. done.
  - exfalso. unfold update_code in Eu.
    rewrite (validated_update_no_conflict db i validated_data Hu) in Eu.
    assert (foreign_key_ok db (update_instance i validated_data) = true) as Hfk.
    { destruct (Attrs.category validated_data) as [[k|]|] eqn:Ek.
      - apply (foreign_key_ok_stored db _ k); [by eapply category_of_payload_stored|].
        cbn. by rewrite Ek.
      - unfold foreign_key_ok. cbn. by rewrite Ek.
      - pose proof (code_categories_exist db Hok) as Hfk.
        rewrite Forall_forall in Hfk. specialize (Hfk i Hi).
        unfold foreign_key_ok in *. cbn. by rewrite Ek. }
    rewrite Hfk in Eu. done.
Qed.

Lemma head_filter_Some {A} (P : A -> Prop) `{!forall x, Decision (P x)} (l : list A) (x : A) :
  head (filter P l) = Some x -> x ∈ l /\ P x.
Proof.
  intros Hh. assert (x ∈ filter P l) as Hx.
  { destruct (filter P l); [done|]. injection Hh as ->. left. }
  apply list_elem_of_filter in Hx. tauto.
Qed.

(** What a write on codes comes to. *)
Lemma run_write_cases (op : WriteOp) (data : CodePayload.t) (db : DB) :
  db_ok db ->
  match write_instance db op with
  | None =>
      run_write op data db
      = (Ok (Response NotFoundBody status.HTTP_404_NOT_FOUND), db)
  | Some instance =>
      match DiagnosisCodeSerializer.run_validation db instance (write_partial op) data with
      | Raise e =>
          exists errors,
            e = ValidationError errors
            /\ run_write op data db
               = (Ok (Response (ErrorsBody errors) status.HTTP_400_BAD_REQUEST), db)
      | Ok validated_data =>
          match instance with
          | None =>
              exists c,
                run_write op data db
                = (Ok (Response (CodeBody (code_data (with_new_code db c) c))
                         status.HTTP_201_CREATED), with_new_code db c)
                /\ create_code db validated_data = (Ok c, with_new_code db c)
                /\ DiagnosisCode.id c = code_seq db
                /\ (c ∉ codes db)
                /\ db_ok (with_new_code db c)
          | Some i =>
              exists db',
                run_write op data db
                = (Ok (Response (CodeBody (code_data db' (update_instance i validated_data)))
                         status.HTTP_200_OK), db')
                /\ i ∈ codes db
                /\ db_ok db'
                /\ categories db' = categories db
                /\ codes db'
                   = (fun r => if bool_decide (DiagnosisCode.id r = DiagnosisCode.id i)
                               then update_instance i validated_data else r) <$> codes db
          end
      end
  end.
Proof.
  intros Hok. destruct op as [|pk|pk]; cbn [write_instance write_partial].
  - rewrite create_view.
    destruct (DiagnosisCodeSerializer.run_validation db None false data) as [vd|e] eqn:E.
    + destruct (create_code_validated db data vd Hok E) as (c & Hc & Hid & Hnew & Hok').
      exists c. rewrite Hc. done.
    + destruct (run_validation_raises _ _ _ _ _ E) as [errors ->]. eauto.
  - unfold run_write, diagnosis_code_detail, api_view, diagnosis_code_detail_view. cbn.
    destruct (filter _ (codes db)) as [|i rest] eqn:Ef; cbn; [done|].
    assert (i ∈ codes db) as Hi.
    { apply (head_filter_Some (fun c => DiagnosisCode.id c = pk) (codes db) i).
      by rewrite Ef. }
    destruct (DiagnosisCodeSerializer.run_validation db (Some i) false data)
      as [vd|e] eqn:E.
    + destruct (update_code_validated db i false data vd Hok Hi E)
        as (db' & -> & Hok' & Hcat & Hcodes).
      exists db'. done.
    + destruct (run_validation_raises _ _ _ _ _ E) as [errors ->]. eauto.
  - unfold run_write, diagnosis_code_detail, api_view, diagnosis_code_detail_view. cbn.
    destruct (filter _ (codes db)) as [|i rest] eqn:Ef; cbn; [done|].
    assert (i ∈ codes db) as Hi.
    { apply (head_filter_Some (fun c => DiagnosisCode.id c = pk) (codes db) i).
      by rewrite Ef. }
    destruct (DiagnosisCodeSerializer.run_validation db (Some i) true data)
      as [vd|e] eqn:E.
    + destruct (update_code_validated db i true data vd Hok Hi E)
        as (db' & -> & Hok' & Hcat & Hcodes).
      exists db'. done.
    + destruct (run_validation_raises _ _ _ _ _ E) as [errors ->]. eauto.
Qed.

(** The views on codes read the method and the payload of a request, and
    for a GET on the list its query string. *)
Lemma code_detail_reads (pk : Z) (request : Request.t CodePayload.t) (db : DB) :
  diagnosis_code_detail pk request db
  = diagnosis_code_detail pk
      (write_request (Request.method request) (Request.data request)) db.
Proof. by destruct request. Qed.

Lemma code_list_create_reads (request : Request.t CodePayload.t) (db : DB) :
  Request.method request <> GET ->
  diagnosis_code_list_create request db
  = diagnosis_code_list_create
      (write_request (Request.method request) (Request.data request)) db.
Proof. destruct request as [[] ? ?]; done. Qed.

(** X5.  On a database that keeps the promises of [models.py], no request
    to the detail view of codes and no request but a GET to the list view
    ends in an exception: each gets a response, and the database keeps the
    promises afterwards.  A GET on the list leaves the database as it
    is. *)
Theorem code_views_keep_integrity (request : Request.t CodePayload.t) (db : DB) :
  db_ok db ->
  (forall pk : Z,
      exists resp db',
        diagnosis_code_detail pk request db = (Ok resp, db') /\ db_ok db')
  /\ (Request.method request <> GET ->
      exists resp db',
        diagnosis_code_list_create request db = (Ok resp, db') /\ db_ok db')
  /\ (Request.method request = GET ->
      (diagnosis_code_list_create request db).2 = db).
Proof.
  intros Hok. split; [|split].
  - intros pk. rewrite code_detail_reads.
    destruct (Request.method request) eqn:Hm.
    + (* GET *)
      unfold diagnosis_code_detail, api_view, diagnosis_code_detail_view. cbn.
      destruct (filter _ (codes db)); cbn; eauto.
    + (* POST *)
      unfold diagnosis_code_detail, api_view. cbn. eauto.
    + (* PUT *)
      pose proof (run_write_cases (Update pk) (Request.data request) db Hok) as H.
      cbn [run_write write_partial] in H.
      destruct (write_instance db (Update pk)) as [instance|] eqn:Ei.
      * assert (exists i, instance = Some i) as [i ->].
        { cbn in Ei. destruct (head _); [|done]. injection Ei as <-. eauto. }
        destruct (DiagnosisCodeSerializer.run_validation db (Some i) false _).
        -- destruct H as (db' & -> & _ & Hok' & _). eauto.
        -- destruct H as (errors & _ & ->). eauto.
      * rewrite H. eauto.
    + (* PATCH *)
      pose proof (run_write_cases (PartialUpdate pk) (Request.data request) db Hok) as H.
      cbn [run_write write_partial] in H.
      destruct (write_instance db (PartialUpdate pk)) as [instance|] eqn:Ei.
      * assert (exists i, instance = Some i) as [i ->].
        { cbn in Ei. destruct (head _); [|done]. injection Ei as <-. eauto. }
        destruct (DiagnosisCodeSerializer.run_validation db (Some i) true _).
        -- destruct H as (db' & -> & _ & Hok' & _). eauto.
        -- destruct H as (errors & _ & ->). eauto.
      * rewrite H. eauto.
    + (* DELETE *)
      unfold diagnosis_code_detail, api_view, diagnosis_code_detail_view. cbn.
      destruct (filter _ (codes db)) as [|c cs]; cbn; eauto.
      eexists _, _. split; [done|]. by apply delete_code_ok.
  - intros Hm. rewrite code_list_create_reads by done.
    destruct (Request.method request) eqn:Hm'; try done.
    + pose proof (run_write_cases Create (Request.data request) db Hok) as H.
      cbn [run_write write_partial write_instance] in H.
      destruct (DiagnosisCodeSerializer.run_validation db None false _).
      * destruct H as (c & -> & _ & _ & _ & Hok'). eauto.
      * destruct H as (errors & _ & ->). eauto.
    + unfold diagnosis_code_list_create, api_view. cbn. eauto.
    + unfold diagnosis_code_list_create, api_view. cbn. eauto.
    + unfold diagnosis_code_list_create, api_view. cbn. eauto.
  - intros Hm. by rewrite list_view_GET.
Qed.

Lemma sample_db_ok : db_ok Sample.db.
Proof.
  split; apply (bool_decide_unpack _); vm_compute; exact I.
Qed.

Lemma code_views_keep_integrity_witness :
  (forall pk : Z,
      exists resp db',
        diagnosis_code_detail pk Sample2.DELETE_code Sample.db = (Ok resp, db')
        /\ db_ok db')
  /\ (Request.method Sample2.DELETE_code <> GET ->
      exists resp db',
        diagnosis_code_list_create Sample2.DELETE_code Sample.db = (Ok resp, db')
        /\ db_ok db')
  /\ (Request.method Sample2.DELETE_code = GET ->
      (diagnosis_code_list_create Sample2.DELETE_code Sample.db).2 = Sample.db).
Proof.
  refine (code_views_keep_integrity Sample2.DELETE_code Sample.db _).
  exact sample_db_ok.
Defined.

(** ** Create, retrieve, delete *)

Lemma filter_fresh_id (db : DB) (c : DiagnosisCode.t) :
  db_ok db ->
  DiagnosisCode.id c = code_seq db ->
  filter (fun r => DiagnosisCode.id r = DiagnosisCode.id c) (codes db ++ [c])%list = [c].
Proof.
  intros Hok Hid. rewrite filter_app.
  rewrite (proj2 (filter_nil_Forall _ (codes db))).
  - rewrite filter_cons_True by done. done.
  - eapply Forall_impl; [exact (code_ids_issued db Hok)|]. cbn. lia.
Qed.

(** X6.  A code the list view has created (201) is retrieved by a GET on
    the detail view under the primary key of the response, with the body
    of the response; the key is fresh, and the code is the last row of the
    table. *)
Theorem create_then_retrieve (data : CodePayload.t) (db db' : DB) (resp : Response.t)
    (d : CodeData) (request : Request.t CodePayload.t) :
  db_ok db ->
  run_write Create data db = (Ok resp, db') ->
  Response.data resp = CodeBody d ->
  Request.method request = GET ->
  diagnosis_code_detail (DiagnosisCode.id (instance d)) request db'
  = (Ok (Response (CodeBody d) status.HTTP_200_OK), db')
  /\ Response.status_code resp = status.HTTP_201_CREATED
  /\ Forall (fun c => DiagnosisCode.id c <> DiagnosisCode.id (instance d)) (codes db)
  /\ codes db' = (codes db ++ [instance d])%list.
Proof.
  intros Hok Hw Hd Hm.
  pose proof (run_write_cases Create data db Hok) as H.
  cbn [write_instance write_partial] in H.
  destruct (DiagnosisCodeSerializer.run_validation db None false data) as [vd|e].
  2: { destruct H as (errors & _ & H). rewrite H in Hw. injection Hw as <- _. done. }
  destruct H as (c & H & _ & Hid & Hnew & Hok').
  rewrite H in Hw. injection Hw as <- <-. cbn in Hd. injection Hd as <-. cbn.
  split; [|split; [done|split; [|done]]].
  - rewrite code_detail_reads, Hm.
    unfold diagnosis_code_detail, api_view, diagnosis_code_detail_view. cbn.
    change (filter _ (codes db ++ [c])%list)
      with (filter (fun r => DiagnosisCode.id r = DiagnosisCode.id c) (codes db ++ [c])%list).
    rewrite filter_fresh_id by done. done.
  - eapply Forall_impl; [exact (code_ids_issued db Hok)|]. cbn. lia.
Qed.

Lemma create_then_retrieve_witness :
  diagnosis_code_detail
    (DiagnosisCode.id
       (instance {| instance := Sample2.code_4;
                    category_details := Some Sample.category_9 |}))
    Sample2.GET_code (with_new_code Sample.db Sample2.code_4)
  = (Ok (Response (CodeBody {| instance := Sample2.code_4;
                               category_details := Some Sample.category_9 |})
           status.HTTP_200_OK), with_new_code Sample.db Sample2.code_4)
  /\ Response.status_code
       (Response (CodeBody {| instance := Sample2.code_4;
                              category_details := Some Sample.category_9 |})
          status.HTTP_201_CREATED) = status.HTTP_201_CREATED
  /\ Forall (fun c => DiagnosisCode.id c
                      <> DiagnosisCode.id
                           (instance {| instance := Sample2.code_4;
                                        category_details := Some Sample.category_9 |}))
            (codes Sample.db)
  /\ codes (with_new_code Sample.db Sample2.code_4)
     = (codes Sample.db
        ++ [instance {| instance := Sample2.code_4;
                        category_details := Some Sample.category_9 |}])%list.
Proof.
  refine (create_then_retrieve (Sample.payload (Some 2) "A01234" "ICD-9")
            Sample.db (with_new_code Sample.db Sample2.code_4)
            (Response (CodeBody {| instance := Sample2.code_4;
                                   category_details := Some Sample.category_9 |})
               status.HTTP_201_CREATED)
            {| instance := Sample2.code_4; category_details := Some Sample.category_9 |}
            Sample2.GET_code _ _ _ _).
  - exact sample_db_ok.
  - vm_compute. reflexivity.
  - reflexivity.
  - reflexivity.
Defined.

(** X7.  A DELETE on the detail view of a stored code is answered with
    204 and removes the rows with that primary key and no other row; the
    categories stay; a request for the same key afterwards, whatever its
    method among the four of the view, is answered with 404. *)
Theorem delete_code_then_not_found (pk : Z) (request request' : Request.t CodePayload.t)
    (db : DB) :
  Request.method request = DELETE ->
  Exists (fun c => DiagnosisCode.id c = pk) (codes db) ->
  Request.method request' ∈ [GET; PUT; PATCH; DELETE] ->
  exists db',
    diagnosis_code_detail pk request db
    = (Ok (Response (ObjectBody "message" "Diagnosis code deleted successfully")
             status.HTTP_204_NO_CONTENT), db')
    /\ codes db' = filter (fun c => DiagnosisCode.id c <> pk) (codes db)
    /\ categories db' = categories db
    /\ exists response,
         diagnosis_code_detail pk request' db' = (Ok response, db')
         /\ Response.status_code response = status.HTTP_404_NOT_FOUND.
Proof.
  intros Hm Hex Hm'.
  destruct (filter_cons_Exists _ _ Hex) as (c & cs & Ef & Hid & _).
  rewrite (code_detail_reads pk request), Hm.
  unfold diagnosis_code_detail at 1, api_view, diagnosis_code_detail_view at 1. cbn.
  rewrite Ef. cbn. eexists. split; [done|]. cbn. rewrite Hid.
  split; [done|]. split; [done|].
  rewrite code_detail_reads.
  unfold diagnosis_code_detail, api_view, diagnosis_code_detail_view.
  cbn [Request.method write_request].
  rewrite bool_decide_eq_true_2 by done. cbn [codes].
  rewrite (proj2 (filter_nil_Forall (fun c => DiagnosisCode.id c = pk) _)).
  - by eexists.
  - apply Forall_forall. intros r Hr. apply list_elem_of_filter in Hr as [Hr _].
    congruence.
Qed.

Lemma delete_code_then_not_found_witness :
  exists db',
    diagnosis_code_detail 2 Sample2.DELETE_code Sample.db
    = (Ok (Response (ObjectBody "message" "Diagnosis code deleted successfully")
             status.HTTP_204_NO_CONTENT), db')
    /\ codes db' = filter (fun c => DiagnosisCode.id c <> 2) (codes Sample.db)
    /\ categories db' = categories Sample.db
    /\ exists response,
         diagnosis_code_detail 2 Sample2.GET_code db' = (Ok response, db')
         /\ Response.status_code response = status.HTTP_404_NOT_FOUND.
Proof.
  refine (delete_code_then_not_found 2 Sample2.DELETE_code Sample2.GET_code Sample.db
            _ _ _).
  - reflexivity.
  - apply Exists_cons_tl, Exists_cons_hd. reflexivity.
  - apply list_elem_of_here.
Defined.

(** ** Partial and full updates *)




Lemma required_field_missing (db : DB) (data : CodePayload.t) (name : string)
    (field : CodePayload.t -> option string) :
  (name, field) ∈ required_text_fields ->
  field data = None ->
  exists errors,
    DiagnosisCodeSerializer.to_internal_value db false data
    = Raise (ValidationError errors)
    /\ (name, [Fields.required]) ∈ errors.
Proof.
  intros Hin Hnone. unfold DiagnosisCodeSerializer.to_internal_value.
  match goal with
  | |- context [match ?l with [] => _ | _ :: _ => _ end] => set (errors := l)
  end.
  assert ((name, [Fields.required]) ∈ errors) as Herr.
  { subst errors. unfold required_text_fields in Hin.
    rewrite !elem_of_cons, elem_of_nil in Hin.
    rewrite !elem_of_app.
    destruct Hin as [E|[E|[E|[E|[E|[]]]]]]; injection E as -> ->;
      rewrite Hnone; cbn; rewrite elem_of_cons; auto 10. }
  destruct errors as [|e errors]; [by apply elem_of_nil in Herr|]. eauto.
Qed.

(** X9.  A create or a full update (PUT) whose payload lacks one of the
    five text fields of a code is answered with 400, the errors name the
    field with the message of a required field, and nothing is stored. *)
Theorem required_fields_enforced (op : WriteOp) (data : CodePayload.t) (db : DB)
    (instance : option DiagnosisCode.t) (name : string)
    (field : CodePayload.t -> option string) :
  write_instance db op = Some instance ->
  write_partial op = false ->
  (name, field) ∈ required_text_fields ->
  field data = None ->
  exists errors,
    run_write op data db
    = (Ok (Response (ErrorsBody errors) status.HTTP_400_BAD_REQUEST), db)
    /\ (name, ["This field is required."]) ∈ errors.
Proof.
  intros Hi Hp Hin Hnone.
  destruct (required_field_missing db data name field Hin Hnone) as (errors & Ht & Herr).
  exists errors. split; [|done].
  apply (run_write_invalid op data db instance); [done|].
  unfold DiagnosisCodeSerializer.run_validation. rewrite Hp, Ht. done.
Qed.

Lemma required_fields_enforced_witness :
  exists errors,
    run_write Create Sample2.without_full_code Sample.db
    = (Ok (Response (ErrorsBody errors) status.HTTP_400_BAD_REQUEST), Sample.db)
    /\ ("full_code", ["This field is required."]) ∈ errors.
Proof.
  refine (required_fields_enforced Create Sample2.without_full_code Sample.db None
            "full_code" CodePayload.full_code _ _ _ _).
  - reflexivity.
  - reflexivity.
  - apply list_elem_of_further, list_elem_of_here.
  - reflexivity.
Defined.

Lemma NoDup_fmap_elem_inj {A K} (f : A -> K) (l : list A) (x y : A) :
  NoDup (f <$> l) -> x ∈ l -> y ∈ l -> f x = f y -> x = y.
Proof.
  induction l as [|z l IH]; [by intros _ ?%elem_of_nil|].
  rewrite fmap_cons, NoDup_cons, !elem_of_cons. intros [Hz Hl] [->|Hx] [->|Hy] Hf.
  - done.
  - destruct Hz. rewrite Hf. by apply list_elem_of_fmap_2.
  - destruct Hz. rewrite <- Hf. by apply list_elem_of_fmap_2.
  - by apply IH.
Qed.

Lemma partial_update_stored (pk : Z) (data : CodePayload.t) (db db' : DB)
    (old c : DiagnosisCode.t) (rest : list DiagnosisCode.t) (validated_data : Attrs.t) :
  filter (fun c => DiagnosisCode.id c = pk) (codes db) = old :: rest ->
  DiagnosisCodeSerializer.run_validation db (Some old) true data = Ok validated_data ->
  update_code db (update_instance old validated_data) = (Ok c, db') ->
  run_write (PartialUpdate pk) data db
  = (Ok (Response (CodeBody (code_data db' c)) status.HTTP_200_OK), db').
Proof.
  intros Hf Hrun Hupd.
  unfold run_write, diagnosis_code_detail, api_view, diagnosis_code_detail_view. cbn.
  rewrite Hf. cbn. rewrite Hrun, Hupd. done.
Qed.

(** X10.  A PATCH with an empty payload on a stored code is valid and is
    answered with 200, when the database keeps the promises of
    [models.py]: the row is saved with every column a payload can supply
    as it was, the answer shows it, and no other row and no category
    changes.  (The save rewrites [updated_at], which the rows here do not
    hold.) *)
Theorem empty_patch_keeps_columns (pk : Z) (db : DB) (old : DiagnosisCode.t) :
  db_ok db ->
  old ∈ codes db ->
  DiagnosisCode.id old = pk ->
  exists response db' new,
    run_write (PartialUpdate pk) Sample.no_payload db = (Ok response, db')
    /\ Response.status_code response = status.HTTP_200_OK
    /\ Response.data response = CodeBody (code_data db' new)
    /\ codes db'
       = (fun r => if bool_decide (DiagnosisCode.id r = pk) then new else r) <$> codes db
    /\ categories db' = categories db
    /\ DiagnosisCode.id new = pk
    /\ DiagnosisCode.category_id new = DiagnosisCode.category_id old
    /\ DiagnosisCode.diagnosis_code new = DiagnosisCode.diagnosis_code old
    /\ DiagnosisCode.full_code new = DiagnosisCode.full_code old
    /\ DiagnosisCode.abbreviated_description new
       = DiagnosisCode.abbreviated_description old
    /\ DiagnosisCode.full_description new = DiagnosisCode.full_description old
    /\ DiagnosisCode.icd_version new = DiagnosisCode.icd_version old
    /\ DiagnosisCode.is_active new = DiagnosisCode.is_active old
    /\ DiagnosisCode.valid_from new = DiagnosisCode.valid_from old
    /\ DiagnosisCode.valid_to new = DiagnosisCode.valid_to old.
Proof.
  intros Hok Hold Hid.
  assert (forall r, r ∈ codes db -> DiagnosisCode.id r = pk -> r = old) as Huniq.
  { intros r Hr Hr'. apply (NoDup_fmap_elem_inj DiagnosisCode.id (codes db)); try done.
    - exact (code_ids_unique db Hok).
    - congruence. }
  assert (exists rest, filter (fun c => DiagnosisCode.id c = pk) (codes db) = old :: rest)
    as [rest Hf].
  { destruct (filter _ (codes db)) as [|c cs] eqn:E.
    - by destruct (filter_nil_not_elem_of _ _ old E).
    - assert (c ∈ filter (fun c => DiagnosisCode.id c = pk) (codes db)) as Hc
        by (rewrite E; left).
      apply list_elem_of_filter in Hc as [Hc1 Hc2].
      rewrite (Huniq c Hc2 Hc1). eauto. }
  set (nothing := {| Attrs.category := None; Attrs.diagnosis_code := None;
                     Attrs.full_code := None; Attrs.abbreviated_description := None;
                     Attrs.full_description := None; Attrs.icd_version := None;
                     Attrs.is_active := None; Attrs.valid_from := None;
                     Attrs.valid_to := None |}).
  assert (DiagnosisCodeSerializer.run_validation db (Some old) true Sample.no_payload
          = Ok nothing) as Hrun.
  { unfold DiagnosisCodeSerializer.run_validation. cbn.
    rewrite (proj2 (filter_nil_Forall _ _)); [done|].
    apply Forall_forall. intros r Hr Hne.
    apply list_elem_of_filter in Hr as [[[= Hf1] [= Hf2]] Hr].
    apply Hne. f_equal.
    apply (NoDup_fmap_elem_inj code_key (codes db)); try done.
    - exact (code_keys_unique db Hok).
    - unfold code_key. congruence. }
  destruct (update_code_validated db old true Sample.no_payload nothing Hok Hold Hrun)
    as (db' & Hupd & _ & Hcats & Hcodes).
  exists (Response (CodeBody (code_data db' (update_instance old nothing)))
            status.HTTP_200_OK), db', (update_instance old nothing).
  split; [exact (partial_update_stored pk _ db db' old _ rest _ Hf Hrun Hupd)|].
  split; [done|]. split; [done|]. split; [by rewrite Hcodes, Hid|].
  split; [done|]. by repeat split.
Qed.

Lemma empty_patch_keeps_columns_witness :
  exists response db' new,
    run_write (PartialUpdate 3) Sample.no_payload Sample.db = (Ok response, db')
    /\ Response.status_code response = status.HTTP_200_OK
    /\ Response.data response = CodeBody (code_data db' new)
    /\ codes db'
       = (fun r => if bool_decide (DiagnosisCode.id r = 3) then new else r)
           <$> codes Sample.db
    /\ categories db' = categories Sample.db
    /\ DiagnosisCode.id new = 3
    /\ DiagnosisCode.category_id new = DiagnosisCode.category_id Sample.code_3
    /\ DiagnosisCode.diagnosis_code new = DiagnosisCode.diagnosis_code Sample.code_3
    /\ DiagnosisCode.full_code new = DiagnosisCode.full_code Sample.code_3
    /\ DiagnosisCode.abbreviated_description new
       = DiagnosisCode.abbreviated_description Sample.code_3
    /\ DiagnosisCode.full_description new = DiagnosisCode.full_description Sample.code_3
    /\ DiagnosisCode.icd_version new = DiagnosisCode.icd_version Sample.code_3
    /\ DiagnosisCode.is_active new = DiagnosisCode.is_active Sample.code_3
    /\ DiagnosisCode.valid_from new = DiagnosisCode.valid_from Sample.code_3
    /\ DiagnosisCode.valid_to new = DiagnosisCode.valid_to Sample.code_3.
Proof.
  refine (empty_patch_keeps_columns 3 Sample.db Sample.code_3 _ _ _).
  - exact sample_db_ok.
  - do 2 apply list_elem_of_further. apply list_elem_of_here.
  - reflexivity.
Defined.

(** X11.  The detail views answer a method they do not list with 405
    whatever the primary key, and a listed method on a primary key that no
    row has with 404; the database is left as it is in both cases. *)
Theorem detail_views_not_found (pk : Z) (code_request : Request.t CodePayload.t)
    (category_request : Request.t CategoryPayload.t) (db : DB) :
  (Request.method code_request = POST ->
   exists response,
     diagnosis_code_detail pk code_request db = (Ok response, db)
     /\ Response.status_code response = status.HTTP_405_METHOD_NOT_ALLOWED)
  /\ (Request.method code_request <> POST ->
      Forall (fun c => DiagnosisCode.id c <> pk) (codes db) ->
      exists response,
        diagnosis_code_detail pk code_request db = (Ok response, db)
        /\ Response.status_code response = status.HTTP_404_NOT_FOUND)
  /\ (Request.method category_request ∈ [POST; PATCH] ->
      exists response,
        diagnosis_category_detail pk category_request db = (Ok response, db)
        /\ Response.status_code response = status.HTTP_405_METHOD_NOT_ALLOWED)
  /\ (Request.method category_request ∈ [GET; PUT; DELETE] ->
      Forall (fun k => DiagnosisCategory.id k <> pk) (categories db) ->
      exists response,
        diagnosis_category_detail pk category_request db = (Ok response, db)
        /\ Response.status_code response = status.HTTP_404_NOT_FOUND).
Proof.
  split; [|split; [|split]].
  - intros Hm. unfold diagnosis_code_detail, api_view. rewrite Hm. (eexists; split; reflexivity).
  - intros Hm Hnone. unfold diagnosis_code_detail, api_view, diagnosis_code_detail_view.
    rewrite (proj2 (filter_nil_Forall (fun c => DiagnosisCode.id c = pk) _) Hnone).
    destruct (Request.method code_request); try done; (eexists; split; reflexivity).
  - intros Hm. unfold diagnosis_category_detail, api_view.
    rewrite !elem_of_cons, elem_of_nil in Hm. destruct Hm as [->|[->|[]]]; (eexists; split; reflexivity).
  - intros Hm Hnone.
    unfold diagnosis_category_detail, api_view, diagnosis_category_detail_view.
    rewrite (proj2 (filter_nil_Forall (fun k => DiagnosisCategory.id k = pk) _) Hnone).
    rewrite !elem_of_cons, elem_of_nil in Hm.
    destruct Hm as [->|[->|[->|[]]]]; (eexists; split; reflexivity).
Qed.

Lemma detail_views_not_found_witness :
  exists response,
    diagnosis_code_detail 99 Sample2.GET_code Sample.db = (Ok response, Sample.db)
    /\ Response.status_code response = status.HTTP_404_NOT_FOUND.
Proof.
  refine (proj1 (proj2 (detail_views_not_found 99 Sample2.GET_code
                          Sample.DELETE_category Sample.db)) _ _).
  - discriminate.
  - vm_compute. repeat constructor; discriminate.
Defined.

(** ** The import command *)

Lemma get_unique {A K} (key : A -> K) (P : A -> Prop) `{!forall x, Decision (P x)}
    (l : list A) (k : K) :
  NoDup (key <$> l) ->
  (forall x, P x <-> key x = k) ->
  ((k ∉ key <$> l) /\ filter P l = [])
  \/ (exists x, x ∈ l /\ key x = k /\ filter P l = [x]).
Proof.
  intros Hnd HP. induction l as [|a l IH]; [left; split; [apply not_elem_of_nil|done]|].
  rewrite fmap_cons in Hnd. apply NoDup_cons in Hnd as [Ha Hnd].
  rewrite filter_cons. destruct (decide (P a)) as [Hp|Hp].
  - right. exists a. split; [left|]. split; [by apply HP|].
    destruct (IH Hnd) as [[_ ->]|(x & Hx & Hk & _)]; [done|].
    destruct Ha. rewrite (proj1 (HP a) Hp), <- Hk. by apply list_elem_of_fmap_2.
  - destruct (IH Hnd) as [[Hk Hf]|(x & Hx & Hk & Hf)].
    + left. split; [|done]. rewrite fmap_cons, not_elem_of_cons. split; [|done].
      intros ->. by apply Hp, HP.
    + right. exists x. split; [by right|done].
Qed.

(** The run with another database. *)
Lemma with_db_run {A} (op : DB -> result A * DB) (s : import_icd.Run) :
  import_icd.with_db op s
  = ((op (import_icd.db s)).1,
     {| import_icd.db := (op (import_icd.db s)).2;
        import_icd.stdout := import_icd.stdout s;
        import_icd.categories_count := import_icd.categories_count s;
        import_icd.codes_count := import_icd.codes_count s;
        import_icd.categories_updated := import_icd.categories_updated s;
        import_icd.codes_updated := import_icd.codes_updated s |}).
Proof. unfold import_icd.with_db. by destruct (op (import_icd.db s)). Qed.

Lemma item_Some (row : gmap string string) (key value : string) (s : import_icd.Run) :
  row !! key = Some value -> import_icd.item row key s = (Ok value, s).
Proof. intros H. unfold import_icd.item. by rewrite H. Qed.


(** [update_or_create] of a category on a sound database: it answers, the
    database stays sound, the codes, the output and the counters are
    untouched, and a row is created exactly when none had the key. *)
Lemma update_or_create_category_run (code icd_version title : string)
    (s : import_icd.Run) :
  db_ok (import_icd.db s) ->
  exists (k : DiagnosisCategory.t) (created : bool) (db' : DB),
    import_icd.update_or_create_category code icd_version title s
    = (Ok (k, created),
       {| import_icd.db := db';
          import_icd.stdout := import_icd.stdout s;
          import_icd.categories_count := import_icd.categories_count s;
          import_icd.codes_count := import_icd.codes_count s;
          import_icd.categories_updated := import_icd.categories_updated s;
          import_icd.codes_updated := import_icd.codes_updated s |})
    /\ db_ok db'
    /\ codes db' = codes (import_icd.db s)
    /\ (created = true <-> (code, icd_version) ∉ category_key <$> categories (import_icd.db s))
    /\ category_key <$> categories db'
       = ((category_key <$> categories (import_icd.db s))
          ++ (if created then [(code, icd_version)] else []))%list
    /\ DiagnosisCategory.id <$> categories db'
       = ((DiagnosisCategory.id <$> categories (import_icd.db s))
          ++ (if created then [category_seq (import_icd.db s)] else []))%list.
Proof.
  intros Hok.
  destruct (get_unique category_key
              (fun k => DiagnosisCategory.code k = code
                        /\ DiagnosisCategory.icd_version k = icd_version)
              (categories (import_icd.db s)) (code, icd_version)
              (category_keys_unique _ Hok)) as [[Hk Hf]|(old & Hold & Hk & Hf)].
  { intros x. unfold category_key. split; [by intros [-> ->]|by intros [= -> ->]]. }
  - (* no row has the key: INSERT *)
    unfold import_icd.update_or_create_category, import_icd.try_except, import_icd.bind,
      import_icd.get_category.
    rewrite with_db_run. cbn [fst snd]. rewrite Hf. cbn [get].
    rewrite with_db_run. cbn [import_icd.db].
    destruct (insert_category (import_icd.db s) _) as [[k|e] db'] eqn:Ei.
    + pose proof (fun H => insert_category_ok _ _ _ _ Hok H Ei) as Hins.
      destruct (Hins eq_refl) as (Hok' & -> & Hcats & Hcodes).
      eexists _, true, db'. cbn [fst snd import_icd.ret import_icd.db].
      split; [destruct s; reflexivity|].
      split; [done|]. split; [done|]. split; [done|].
      rewrite Hcats, !fmap_app. done.
    + exfalso. unfold insert_category in Ei. cbn in Ei. by rewrite Hf in Ei.
  - (* one row has the key: UPDATE of its title *)
    unfold import_icd.update_or_create_category, import_icd.try_except, import_icd.bind,
      import_icd.get_category.
    rewrite with_db_run. cbn [fst snd]. rewrite Hf. cbn [get].
    rewrite with_db_run. cbn [import_icd.db].
    assert (import_icd.db
              {| import_icd.db := import_icd.db s;
                 import_icd.stdout := import_icd.stdout s;
                 import_icd.categories_count := import_icd.categories_count s;
                 import_icd.codes_count := import_icd.codes_count s;
                 import_icd.categories_updated := import_icd.categories_updated s;
                 import_icd.codes_updated := import_icd.codes_updated s |}
            = import_icd.db s) as Hdb by reflexivity.
    destruct (update_category (import_icd.db s) _) as [[k|e] db'] eqn:Eu.
    + destruct (update_category_ok _ _ _ _ Hok Eu) as (Hok' & -> & Hcodes).
      eexists _, false, db'. cbn [fst snd import_icd.ret import_icd.db].
      split; [reflexivity|].
      split; [done|]. split; [done|].
      split.
      { split; [done|]. intros Hnot. destruct Hnot. rewrite <- Hk.
        by apply list_elem_of_fmap_2. }
      rewrite !app_nil_r.
      unfold update_category in Eu. cbn in Eu.
      destruct (filter _ (categories (import_icd.db s))) in Eu; [|done].
      injection Eu as <-. cbn [categories].
      split.
      * apply fmap_replace_same. intros r Hr Hid. unfold category_key. cbn.
        assert (r = old) as ->; [|done].
        by apply (NoDup_fmap_elem_inj DiagnosisCategory.id (categories (import_icd.db s)));
          [apply (category_ids_unique _ Hok)|..].
      * apply fmap_replace_same. intros r Hr Hid. done.
    + exfalso. unfold update_category in Eu. cbn in Eu.
      rewrite (proj2 (filter_nil_Forall _ _)) in Eu; [done|].
      apply Forall_forall. intros r Hr (Hid & Hc & Hv).
      apply Hid.
      assert (r = old) as ->; [|done].
      apply (NoDup_fmap_elem_inj category_key (categories (import_icd.db s)));
        [apply (category_keys_unique _ Hok)|done..|].
      unfold category_key. by rewrite Hc, Hv.
Qed.

(** One row of [categories.csv] that has its columns. *)
Lemma import_category_run (icd_version : string) (row : gmap string string)
    (s : import_icd.Run) :
  db_ok (import_icd.db s) ->
  has_columns category_columns row ->
  exists s' : import_icd.Run,
    import_icd.import_category icd_version row s = (Ok (), s')
    /\ db_ok (import_icd.db s')
    /\ codes (import_icd.db s') = codes (import_icd.db s)
    /\ import_icd.stdout s' = import_icd.stdout s
    /\ import_icd.codes_count s' = import_icd.codes_count s
    /\ import_icd.codes_updated s' = import_icd.codes_updated s
    /\ (((row_category_key icd_version row
          ∉ category_key <$> categories (import_icd.db s))
         /\ import_icd.categories_count s' = S (import_icd.categories_count s)
         /\ import_icd.categories_updated s' = import_icd.categories_updated s
         /\ category_key <$> categories (import_icd.db s')
            = ((category_key <$> categories (import_icd.db s))
               ++ [row_category_key icd_version row])%list)
        \/ ((row_category_key icd_version row
             ∈ category_key <$> categories (import_icd.db s))
            /\ import_icd.categories_count s' = import_icd.categories_count s
            /\ import_icd.categories_updated s' = S (import_icd.categories_updated s)
            /\ category_key <$> categories (import_icd.db s')
               = category_key <$> categories (import_icd.db s)
            /\ DiagnosisCategory.id <$> categories (import_icd.db s')
               = DiagnosisCategory.id <$> categories (import_icd.db s))).
Proof.
  intros Hok Hrow.
  unfold has_columns, category_columns in Hrow.
  apply Forall_cons in Hrow as [[code Hcode] Hrow].
  apply Forall_cons in Hrow as [[title Htitle] _].
  destruct (update_or_create_category_run code icd_version title s Hok)
    as (k & created & db' & Hrun & Hok' & Hcodes & Hcreated & Hkeys & Hids).
  unfold import_icd.import_category, import_icd.bind.
  rewrite (item_Some _ _ _ _ Hcode), (item_Some _ _ _ _ Htitle), Hrun.
  unfold row_category_key. rewrite Hcode. cbn [default snd].
  eexists. split; [reflexivity|]. cbn.
  do 5 (split; [done|]).
  destruct created.
  - left. split; [by apply Hcreated|]. done.
  - right. rewrite !app_nil_r in *. split; [|done].
    destruct (decide ((code, icd_version)
                       ∈ category_key <$> categories (import_icd.db s))) as [|Hn]; [done|].
    by apply Hcreated in Hn.
Qed.

(** The loop over [categories.csv]. *)
Lemma import_categories_run (icd_version : string) (rows : list (gmap string string))
    (s : import_icd.Run) :
  db_ok (import_icd.db s) ->
  Forall (has_columns category_columns) rows ->
  exists s' : import_icd.Run,
    import_icd.for_each rows (import_icd.import_category icd_version) s = (Ok (), s')
    /\ db_ok (import_icd.db s')
    /\ codes (import_icd.db s') = codes (import_icd.db s)
    /\ import_icd.stdout s' = import_icd.stdout s
    /\ import_icd.codes_count s' = import_icd.codes_count s
    /\ import_icd.codes_updated s' = import_icd.codes_updated s
    /\ (import_icd.categories_count s' + import_icd.categories_updated s'
        = import_icd.categories_count s + import_icd.categories_updated s
          + length rows)%nat
    /\ (forall key, key ∈ category_key <$> categories (import_icd.db s')
                    <-> (key ∈ category_key <$> categories (import_icd.db s))
                        \/ key ∈ row_category_key icd_version <$> rows)
    /\ (Forall (fun row => row_category_key icd_version row
                           ∈ category_key <$> categories (import_icd.db s)) rows ->
        import_icd.categories_count s' = import_icd.categories_count s
        /\ category_key <$> categories (import_icd.db s')
           = category_key <$> categories (import_icd.db s)
        /\ DiagnosisCategory.id <$> categories (import_icd.db s')
           = DiagnosisCategory.id <$> categories (import_icd.db s)).
Proof.
  intros Hok Hrows. revert s Hok.
  induction Hrows as [|row rows Hrow Hrows IH]; intros s Hok.
  - exists s. cbn [import_icd.for_each length]. do 6 (split; [done|]).
    split; [lia|]. split; [|done].
    intros key. rewrite fmap_nil, elem_of_nil. tauto.
  - destruct (import_category_run icd_version row s Hok Hrow)
      as (s1 & Hrun & Hok1 & Hcodes1 & Hout1 & Hcc1 & Hcu1 & Hcase).
    destruct (IH s1 Hok1)
      as (s' & Hloop & Hok' & Hcodes' & Hout' & Hcc' & Hcu' & Hsum & Hkeys & Hsame).
    exists s'. cbn [import_icd.for_each]. unfold import_icd.bind at 1. rewrite Hrun.
    split; [done|]. split; [done|].
    split; [congruence|]. split; [congruence|]. split; [congruence|].
    split; [congruence|].
    split; [cbn [length]; destruct Hcase as [(_ & ? & ? & _)|(_ & ? & ? & _)]; lia|].
    split.
    + intros key. rewrite Hkeys, fmap_cons, elem_of_cons.
      destruct Hcase as [(_ & _ & _ & ->)|(Hin & _ & _ & -> & _)].
      * rewrite elem_of_app, list_elem_of_singleton. tauto.
      * split; [tauto|]. intros [?|[->|?]]; tauto.
    + intros Hall. apply Forall_cons in Hall as [Hin Hall].
      destruct Hcase as [(Hn & _)|(_ & Hc & _ & Hk & Hi)]; [done|].
      rewrite Hk in Hsame. destruct (Hsame Hall) as (? & ? & ?).
      split; [congruence|]. split; congruence.
Qed.

(** [update_or_create] of a code under a stored category on a sound
    database. *)
Lemma update_or_create_code_run (full_code icd_version : string)
    (category : DiagnosisCategory.t)
    (diagnosis_code abbreviated_description full_description : string)
    (s : import_icd.Run) :
  db_ok (import_icd.db s) ->
  category ∈ categories (import_icd.db s) ->
  exists (c : DiagnosisCode.t) (created : bool) (db' : DB),
    import_icd.update_or_create_code full_code icd_version category diagnosis_code
      abbreviated_description full_description s
    = (Ok (c, created),
       {| import_icd.db := db';
          import_icd.stdout := import_icd.stdout s;
          import_icd.categories_count := import_icd.categories_count s;
          import_icd.codes_count := import_icd.codes_count s;
          import_icd.categories_updated := import_icd.categories_updated s;
          import_icd.codes_updated := import_icd.codes_updated s |})
    /\ db_ok db'
    /\ categories db' = categories (import_icd.db s)
    /\ (created = true <-> (full_code, icd_version) ∉ code_key <$> codes (import_icd.db s))
    /\ code_key <$> codes db'
       = ((code_key <$> codes (import_icd.db s))
          ++ (if created then [(full_code, icd_version)] else []))%list
    /\ DiagnosisCode.id <$> codes db'
       = ((DiagnosisCode.id <$> codes (import_icd.db s))
          ++ (if created then [code_seq (import_icd.db s)] else []))%list.
Proof.
  intros Hok Hcat.
  destruct (get_unique code_key
              (fun c => DiagnosisCode.full_code c = full_code
                        /\ DiagnosisCode.icd_version c = icd_version)
              (codes (import_icd.db s)) (full_code, icd_version)
              (code_keys_unique _ Hok)) as [[Hk Hf]|(old & Hold & Hk & Hf)].
  { intros x. unfold code_key. split; [by intros [-> ->]|by intros [= -> ->]]. }
  - (* no row has the key: INSERT *)
    unfold import_icd.update_or_create_code, import_icd.try_except, import_icd.bind.
    rewrite with_db_run. cbn [fst snd]. rewrite Hf. cbn [get].
    rewrite with_db_run. cbn [import_icd.db].
    destruct (insert_code (import_icd.db s) _) as [[c|e] db'] eqn:Ei.
    + pose proof (fun H => insert_code_ok _ _ _ _ Hok H Ei) as Hins.
      destruct (Hins eq_refl) as (Hok' & -> & -> & _).
      eexists _, true, _. cbn [fst snd import_icd.ret import_icd.db].
      split; [reflexivity|].
      split; [done|]. split; [done|]. split; [done|].
      unfold with_new_code. cbn [codes]. rewrite !fmap_app. done.
    + exfalso. unfold insert_code, code_conflicts in Ei.
      rewrite (proj2 (filter_nil_Forall _ _)) in Ei.
      * erewrite foreign_key_ok_stored in Ei; [done|exact Hcat|done].
      * apply Forall_forall. intros r Hr (_ & Hfc & Hv). cbn in Hfc, Hv.
        apply Hk. apply list_elem_of_fmap. exists r. unfold code_key.
        by rewrite Hfc, Hv.
  - (* one row has the key: UPDATE of its other columns *)
    unfold import_icd.update_or_create_code, import_icd.try_except, import_icd.bind.
    rewrite with_db_run. cbn [fst snd]. rewrite Hf. cbn [get].
    rewrite with_db_run. cbn [import_icd.db].
    destruct (update_code (import_icd.db s) _) as [[c|e] db'] eqn:Eu.
    + destruct (update_code_ok _ _ _ _ Hok Eu) as (Hok' & -> & Hcats & Hcodes).
      eexists _, false, db'. cbn [fst snd import_icd.ret import_icd.db].
      split; [reflexivity|].
      split; [done|]. split; [done|].
      split.
      { split; [done|]. intros Hnot. destruct Hnot. rewrite <- Hk.
        by apply list_elem_of_fmap_2. }
      rewrite !app_nil_r, Hcodes. cbn [DiagnosisCode.id].
      split.
      * apply fmap_replace_same. intros r Hr Hid. unfold code_key. cbn.
        assert (r = old) as ->; [|done].
        by apply (NoDup_fmap_elem_inj DiagnosisCode.id (codes (import_icd.db s)));
          [apply (code_ids_unique _ Hok)|..].
      * apply fmap_replace_same. intros r Hr Hid. done.
    + exfalso. unfold update_code, code_conflicts in Eu.
      rewrite (proj2 (filter_nil_Forall _ _)) in Eu.
      * erewrite foreign_key_ok_stored in Eu; [done|exact Hcat|done].
      * apply Forall_forall. intros r Hr (Hid & Hfc & Hv). cbn in Hid, Hfc, Hv.
        apply Hid.
        assert (r = old) as ->; [|done].
        apply (NoDup_fmap_elem_inj code_key (codes (import_icd.db s)));
          [apply (code_keys_unique _ Hok)|done..|].
        unfold code_key. by rewrite Hfc, Hv.
Qed.

Lemma unresolved_ext (db db' : DB) (icd_version : string) (row : gmap string string) :
  categories db' = categories db ->
  unresolved db' icd_version row <-> unresolved db icd_version row.
Proof. intros H. unfold unresolved. by rewrite H. Qed.

(** One row of [codes.csv] that has its columns: it is skipped with a
    warning when its category is not in the table, and stored otherwise,
    as a new row exactly when no row had its key. *)
Lemma import_code_run (icd_version : string) (i : nat) (row : gmap string string)
    (s : import_icd.Run) :
  db_ok (import_icd.db s) ->
  has_columns code_columns row ->
  exists s' : import_icd.Run,
    import_icd.import_code icd_version i row s = (Ok (), s')
    /\ db_ok (import_icd.db s')
    /\ categories (import_icd.db s') = categories (import_icd.db s)
    /\ import_icd.categories_count s' = import_icd.categories_count s
    /\ import_icd.categories_updated s' = import_icd.categories_updated s
    /\ ((unresolved (import_icd.db s) icd_version row
         /\ import_icd.db s' = import_icd.db s
         /\ import_icd.codes_count s' = import_icd.codes_count s
         /\ import_icd.codes_updated s' = import_icd.codes_updated s
         /\ warnings s' = S (warnings s))
        \/ (~ unresolved (import_icd.db s) icd_version row
            /\ warnings s' = warnings s
            /\ (((row_code_key icd_version row ∉ code_key <$> codes (import_icd.db s))
                 /\ import_icd.codes_count s' = S (import_icd.codes_count s)
                 /\ import_icd.codes_updated s' = import_icd.codes_updated s
                 /\ code_key <$> codes (import_icd.db s')
                    = ((code_key <$> codes (import_icd.db s))
                       ++ [row_code_key icd_version row])%list)
                \/ ((row_code_key icd_version row ∈ code_key <$> codes (import_icd.db s))
                    /\ import_icd.codes_count s' = import_icd.codes_count s
                    /\ import_icd.codes_updated s' = S (import_icd.codes_updated s)
                    /\ code_key <$> codes (import_icd.db s')
                       = code_key <$> codes (import_icd.db s)
                    /\ DiagnosisCode.id <$> codes (import_icd.db s')
                       = DiagnosisCode.id <$> codes (import_icd.db s))))).
Proof.
  intros Hok Hrow.
  unfold has_columns, code_columns in Hrow.
  apply Forall_cons in Hrow as [[category_code Hcc] Hrow].
  apply Forall_cons in Hrow as [[full_code Hfc] Hrow].
  apply Forall_cons in Hrow as [[diagnosis_code Hdc] Hrow].
  apply Forall_cons in Hrow as [[abbreviated_description Had] Hrow].
  apply Forall_cons in Hrow as [[full_description Hfd] _].
  destruct (get_unique category_key
              (fun k => DiagnosisCategory.code k = category_code
                        /\ DiagnosisCategory.icd_version k = icd_version)
              (categories (import_icd.db s)) (category_code, icd_version)
              (category_keys_unique _ Hok)) as [[Hk Hf]|(category & Hcat & Hk & Hf)].
  { intros x. unfold category_key. split; [by intros [-> ->]|by intros [= -> ->]]. }
  - (* the category is not in the table *)
    assert (unresolved (import_icd.db s) icd_version row) as Hun.
    { exists category_code. split; [done|].
      exact (proj1 (filter_nil_Forall
                      (fun k => DiagnosisCategory.code k = category_code
                                /\ DiagnosisCategory.icd_version k = icd_version) _) Hf). }
    unfold import_icd.import_code, import_icd.try_except, import_icd.bind at 1.
    rewrite (item_Some _ _ _ _ Hcc).
    unfold import_icd.bind at 1, import_icd.get_category.
    rewrite with_db_run. cbn [fst snd]. rewrite Hf. cbn [get].
    unfold import_icd.bind.
    rewrite (item_Some _ _ _ _ Hfc), (item_Some _ _ _ _ Hcc).
    eexists. split; [reflexivity|]. cbn [import_icd.db import_icd.categories_count
      import_icd.categories_updated import_icd.codes_count import_icd.codes_updated].
    split; [done|]. do 3 (split; [done|]).
    left. do 4 (split; [done|]).
    unfold warnings. cbn [import_icd.stdout].
    rewrite filter_app, length_app, filter_cons, filter_nil. cbn [fst].
    rewrite decide_True by done. cbn [length]. lia.
  - (* the category is in the table *)
    assert (~ unresolved (import_icd.db s) icd_version row) as Hres.
    { intros (cc & Hcc' & Hall). rewrite Hcc in Hcc'. injection Hcc' as <-.
      pose proof (proj2 (filter_nil_Forall
                           (fun k => DiagnosisCategory.code k = category_code
                                     /\ DiagnosisCategory.icd_version k = icd_version) _)
                    Hall) as Hnil.
      by rewrite Hf in Hnil. }
    destruct (update_or_create_code_run full_code icd_version category diagnosis_code
                abbreviated_description full_description s Hok Hcat)
      as (c & created & db' & Hrun & Hok' & Hcats & Hcreated & Hkeys & Hids).
    unfold import_icd.import_code, import_icd.try_except, import_icd.bind at 1.
    rewrite (item_Some _ _ _ _ Hcc).
    unfold import_icd.bind at 1, import_icd.get_category.
    rewrite with_db_run. cbn [fst snd]. rewrite Hf. cbn [get].
    assert ({| import_icd.db := import_icd.db s;
               import_icd.stdout := import_icd.stdout s;
               import_icd.categories_count := import_icd.categories_count s;
               import_icd.codes_count := import_icd.codes_count s;
               import_icd.categories_updated := import_icd.categories_updated s;
               import_icd.codes_updated := import_icd.codes_updated s |} = s) as ->
      by (by destruct s).
    unfold import_icd.bind.
    rewrite (item_Some _ _ _ _ Hfc), (item_Some _ _ _ _ Hdc), (item_Some _ _ _ _ Had),
      (item_Some _ _ _ _ Hfd), Hrun.
    unfold row_code_key. rewrite Hfc. cbn [default snd import_icd.count_code].
    destruct (i mod 100 =? 0)%nat.
    + eexists. split; [reflexivity|]. cbn [import_icd.db import_icd.categories_count
        import_icd.categories_updated import_icd.codes_count import_icd.codes_updated].
      do 4 (split; [done|]). right. split; [done|].
      split.
      { unfold warnings. cbn [import_icd.stdout].
        rewrite filter_app, length_app, filter_cons, filter_nil. cbn [fst].
        rewrite decide_False by done. cbn [length]. lia. }
      destruct created.
      * left. split; [by apply Hcreated|]. done.
      * right. rewrite !app_nil_r in *. split; [|done].
        destruct (decide ((full_code, icd_version)
                           ∈ code_key <$> codes (import_icd.db s))) as [|Hn]; [done|].
        by apply Hcreated in Hn.
    + eexists. split; [reflexivity|]. cbn [import_icd.db import_icd.categories_count
        import_icd.categories_updated import_icd.codes_count import_icd.codes_updated].
      do 4 (split; [done|]). right. split; [done|].
      split; [done|].
      destruct created.
      * left. split; [by apply Hcreated|]. done.
      * right. rewrite !app_nil_r in *. split; [|done].
        destruct (decide ((full_code, icd_version)
                           ∈ code_key <$> codes (import_icd.db s))) as [|Hn]; [done|].
        by apply Hcreated in Hn.
Qed.

(** The loop over [codes.csv], from row number [n] on. *)
Lemma import_codes_run (icd_version : string) (rows : list (gmap string string))
    (n : nat) (s : import_icd.Run) :
  db_ok (import_icd.db s) ->
  Forall (has_columns code_columns) rows ->
  exists s' : import_icd.Run,
    import_icd.for_each (zip (seq n (length rows)) rows)
      (fun ir => import_icd.import_code icd_version ir.1 ir.2) s = (Ok (), s')
    /\ db_ok (import_icd.db s')
    /\ categories (import_icd.db s') = categories (import_icd.db s)
    /\ import_icd.categories_count s' = import_icd.categories_count s
    /\ import_icd.categories_updated s' = import_icd.categories_updated s
    /\ warnings s'
       = (warnings s + length (filter (unresolved (import_icd.db s) icd_version) rows))%nat
    /\ (import_icd.codes_count s' + import_icd.codes_updated s'
        + length (filter (unresolved (import_icd.db s) icd_version) rows)
        = import_icd.codes_count s + import_icd.codes_updated s + length rows)%nat
    /\ (forall key, key ∈ code_key <$> codes (import_icd.db s) ->
                    key ∈ code_key <$> codes (import_icd.db s'))
    /\ (forall row, row ∈ rows -> ~ unresolved (import_icd.db s) icd_version row ->
                    row_code_key icd_version row ∈ code_key <$> codes (import_icd.db s'))
    /\ (Forall (fun row => ~ unresolved (import_icd.db s) icd_version row ->
                           row_code_key icd_version row
                           ∈ code_key <$> codes (import_icd.db s)) rows ->
        import_icd.codes_count s' = import_icd.codes_count s
        /\ code_key <$> codes (import_icd.db s') = code_key <$> codes (import_icd.db s)
        /\ DiagnosisCode.id <$> codes (import_icd.db s')
           = DiagnosisCode.id <$> codes (import_icd.db s)).
Proof.
  intros Hok Hrows. revert n s Hok.
  induction Hrows as [|row rows Hrow Hrows IH]; intros n s Hok.
  - exists s. cbn [length seq zip zip_with import_icd.for_each filter list_filter].
    do 5 (split; [done|]). cbn [length].
    split; [lia|]. split; [lia|]. split; [done|]. split; [|done].
    intros row Hin. by apply elem_of_nil in Hin.
  - destruct (import_code_run icd_version n row s Hok Hrow)
      as (s1 & Hrun & Hok1 & Hcats1 & Hcc1 & Hcu1 & Hcase).
    destruct (IH (S n) s1 Hok1)
      as (s' & Hloop & Hok' & Hcats' & Hcc' & Hcu' & Hwarn & Hsum & Hmono & Hin & Hsame).
    assert (filter (unresolved (import_icd.db s1) icd_version) rows
            = filter (unresolved (import_icd.db s) icd_version) rows) as Hfilter.
    { apply list_filter_iff. intros r. by apply unresolved_ext. }
    rewrite Hfilter in Hwarn, Hsum.
    exists s'. cbn [length seq zip zip_with import_icd.for_each].
    unfold import_icd.bind at 1. cbn [fst snd]. rewrite Hrun.
    split; [done|]. split; [done|].
    split; [congruence|]. split; [congruence|]. split; [congruence|].
    rewrite filter_cons.
    destruct Hcase as [(Hun & Hdb & Hc & Hu & Hw)
                      |(Hres & Hw & [(Hnew & Hc & Hu & Hk)|(Hold & Hc & Hu & Hk & Hi)])].
    + (* skipped *)
      rewrite decide_True by done. cbn [length]. rewrite Hdb in *.
      split; [lia|]. split; [lia|]. split; [done|].
      split.
      * intros r Hr Hnot. apply elem_of_cons in Hr as [->|Hr]; [done|].
        by apply Hin.
      * intros Hall. apply Forall_cons in Hall as [_ Hall].
        destruct (Hsame Hall) as (? & ? & ?). split; [congruence|done].
    + (* created *)
      rewrite decide_False by done.
      split; [lia|]. split; [cbn [length]; lia|].
      split; [intros key Hkey; apply Hmono; rewrite Hk, elem_of_app; by left|].
      split.
      * intros r Hr Hnot. apply elem_of_cons in Hr as [->|Hr].
        -- apply Hmono. rewrite Hk, elem_of_app, list_elem_of_singleton. by right.
        -- apply Hin; [done|]. by rewrite (unresolved_ext _ _ _ _ Hcats1).
      * intros Hall. apply Forall_cons in Hall as [Hhere _]. destruct Hnew. by apply Hhere.
    + (* updated *)
      rewrite decide_False by done.
      split; [lia|]. split; [cbn [length]; lia|].
      split; [intros key Hkey; apply Hmono; by rewrite Hk|].
      split.
      * intros r Hr Hnot. apply elem_of_cons in Hr as [->|Hr].
        -- apply Hmono. by rewrite Hk.
        -- apply Hin; [done|]. by rewrite (unresolved_ext _ _ _ _ Hcats1).
      * intros Hall. apply Forall_cons in Hall as [_ Hall].
        destruct Hsame as (? & ? & ?).
        { eapply Forall_impl; [exact Hall|]. intros r Hr Hnot. rewrite Hk.
          apply Hr. by rewrite <- (unresolved_ext _ _ _ _ Hcats1). }
        split; [congruence|]. split; congruence.
Qed.

Lemma bind_run {A B} (m : import_icd.M A) (f : A -> import_icd.M B)
    (s s' : import_icd.Run) (a : A) :
  m s = (Ok a, s') -> import_icd.bind m f s = f a s'.
Proof. intros H. unfold import_icd.bind. by rewrite H. Qed.


(** A row is unresolved when it has a category code and no category has
    its key. *)
Lemma unresolved_key (db : DB) (icd_version : string) (row : gmap string string) :
  unresolved db icd_version row
  <-> is_Some (row !! "Category Code")
      /\ (row_category_key icd_version row ∉ category_key <$> categories db).
Proof.
  unfold unresolved, row_category_key. split.
  - intros (cc & Hcc & Hall). rewrite Hcc. split; [done|]. cbn [default].
    intros Hin. apply list_elem_of_fmap in Hin as (k & Hk & Hin).
    rewrite Forall_forall in Hall. apply (Hall k Hin).
    unfold category_key in Hk. by injection Hk as -> ->.
  - intros [[cc Hcc] Hnot]. exists cc. split; [done|]. rewrite Hcc in Hnot.
    apply Forall_forall. intros k Hk [Hc Hv]. apply Hnot.
    apply list_elem_of_fmap. exists k. split; [|done].
    unfold category_key. by rewrite Hc, Hv.
Qed.

(** A run of the command on a sound database, with both files present
    and every row having its columns. *)
Lemma handle_run (icd_version : string) (category_rows code_rows : list (gmap string string))
    (db : DB) :
  db_ok db ->
  Forall (has_columns category_columns) category_rows ->
  Forall (has_columns code_columns) code_rows ->
  exists r : import_icd.Run,
    import_icd.handle icd_version (Some category_rows) (Some code_rows) db = (Ok (), r)
    /\ db_ok (import_icd.db r)
    /\ (import_icd.categories_count r + import_icd.categories_updated r
        = length category_rows)%nat
    /\ (import_icd.codes_count r + import_icd.codes_updated r
        + skipped r icd_version code_rows = length code_rows)%nat
    /\ warnings r = skipped r icd_version code_rows
    /\ (forall key, key ∈ category_key <$> categories (import_icd.db r)
                    <-> (key ∈ category_key <$> categories db)
                        \/ key ∈ row_category_key icd_version <$> category_rows)
    /\ (forall key, key ∈ code_key <$> codes db ->
                    key ∈ code_key <$> codes (import_icd.db r))
    /\ (forall row, row ∈ code_rows -> ~ unresolved (import_icd.db r) icd_version row ->
                    row_code_key icd_version row ∈ code_key <$> codes (import_icd.db r))
    /\ (Forall (fun row => row_category_key icd_version row
                           ∈ category_key <$> categories db) category_rows ->
        import_icd.categories_count r = 0%nat
        /\ category_key <$> categories (import_icd.db r) = category_key <$> categories db
        /\ DiagnosisCategory.id <$> categories (import_icd.db r)
           = DiagnosisCategory.id <$> categories db
        /\ (Forall (fun row => ~ unresolved db icd_version row ->
                               row_code_key icd_version row ∈ code_key <$> codes db)
                   code_rows ->
            import_icd.codes_count r = 0%nat
            /\ code_key <$> codes (import_icd.db r) = code_key <$> codes db
            /\ DiagnosisCode.id <$> codes (import_icd.db r)
               = DiagnosisCode.id <$> codes db)).
Proof.
  intros Hok Hcats Hcodes.
  unfold import_icd.handle, import_icd.atomic, import_icd.handle_body.
  erewrite bind_run; [|reflexivity]. cbv beta.
  match goal with
  | |- context [import_icd.bind (import_icd.for_each category_rows _) _ ?s] =>
      destruct (import_categories_run icd_version category_rows s Hok Hcats)
        as (s1 & Hloop1 & Hok1 & Hcodes1 & Hout1 & Hcc1 & Hcu1 & Hsum1 & Hkeys1 & Hsame1)
  end.
  erewrite bind_run; [|exact Hloop1]. cbv beta.
  erewrite bind_run; [|reflexivity]. cbv beta.
  erewrite bind_run; [|reflexivity]. cbv beta.
  erewrite bind_run; [|reflexivity]. cbv beta.
  match goal with
  | |- context [import_icd.bind (import_icd.for_each (zip _ code_rows) _) _ ?s] =>
      destruct (import_codes_run icd_version code_rows 1 s Hok1 Hcodes)
        as (s2 & Hloop2 & Hok2 & Hcats2 & Hcc2 & Hcu2 & Hwarn2 & Hsum2 & Hmono2 & Hin2
            & Hsame2)
  end.
  erewrite bind_run; [|exact Hloop2]. cbv beta.
  erewrite bind_run; [|reflexivity]. cbv beta.
  unfold import_icd.write.
  eexists. split; [reflexivity|].
  cbn [import_icd.db import_icd.categories_count import_icd.categories_updated
       import_icd.codes_count import_icd.codes_updated import_icd.start
       import_icd.stdout] in *.
  unfold skipped. cbn [import_icd.db].
  assert (filter (unresolved (import_icd.db s2) icd_version) code_rows
          = filter (unresolved (import_icd.db s1) icd_version) code_rows) as ->.
  { apply list_filter_iff. intros row. by apply unresolved_ext. }
  split; [done|]. split; [lia|]. split; [lia|].
  split.
  { unfold warnings in *. cbn [import_icd.stdout] in *.
    rewrite filter_app, length_app, Hwarn2, !filter_app, !length_app, Hout1. cbn [app].
    rewrite !filter_cons, !filter_nil. cbn [fst].
    rewrite !decide_False by done. cbn [length]. lia. }
  split; [by rewrite Hcats2|].
  split; [intros key Hkey; apply Hmono2; by rewrite Hcodes1|].
  split.
  { intros row Hrow Hres. apply Hin2; [done|].
    by rewrite <- (unresolved_ext _ _ icd_version row Hcats2). }
  intros Hall. destruct (Hsame1 Hall) as (Hc1 & Hk1 & Hi1).
  split; [lia|]. rewrite Hcats2. split; [done|]. split; [done|].
  intros Hall2. destruct Hsame2 as (Hc2 & Hk2 & Hi2).
  { eapply Forall_impl; [exact Hall2|]. intros row Hrow Hres. rewrite Hcodes1.
    apply Hrow. intros Hun. apply Hres.
    apply unresolved_key. apply unresolved_key in Hun. by rewrite Hk1. }
  rewrite Hk2, Hi2, Hcodes1. split; [lia|done].
Qed.

(** X12.  On a database that satisfies the constraints of [models.py],
    with both files present and every row having the columns [handle]
    reads, the import runs to its end without an exception, and the
    database it leaves satisfies the constraints again. *)
Theorem import_keeps_integrity (icd_version : string)
    (category_rows code_rows : list (gmap string string)) (db : DB) :
  db_ok db ->
  Forall (has_columns category_columns) category_rows ->
  Forall (has_columns code_columns) code_rows ->
  exists r : import_icd.Run,
    import_icd.handle icd_version (Some category_rows) (Some code_rows) db = (Ok (), r)
    /\ db_ok (import_icd.db r).
Proof.
  intros Hok Hcats Hcodes.
  destruct (handle_run icd_version category_rows code_rows db Hok Hcats Hcodes)
    as (r & Hrun & Hok' & _).
  by exists r.
Qed.

Lemma empty_db_ok : db_ok Sample.empty_db.
Proof. split; cbn; constructor. Qed.

Lemma import_keeps_integrity_witness :
  exists r : import_icd.Run,
    import_icd.handle "ICD-10" (Some Sample.categories_file)
      (Some Sample.codes_file_orphan) Sample.db = (Ok (), r)
    /\ db_ok (import_icd.db r).
Proof.
  refine (import_keeps_integrity "ICD-10" Sample.categories_file Sample.codes_file_orphan
            Sample.db _ _ _).
  - exact sample_db_ok.
  - apply (bool_decide_unpack _). vm_compute. exact I.
  - apply (bool_decide_unpack _). vm_compute. exact I.
Defined.

(** X13.  The counters of a completed import account for every row: each
    row of [categories.csv] is counted as new or as updated, and each row
    of [codes.csv] is counted as new, as updated, or is one of the rows
    whose category is not in the table, for each of which one warning
    was written. *)
Theorem import_counts_every_row (icd_version : string)
    (category_rows code_rows : list (gmap string string)) (db : DB) :
  db_ok db ->
  Forall (has_columns category_columns) category_rows ->
  Forall (has_columns code_columns) code_rows ->
  exists r : import_icd.Run,
    import_icd.handle icd_version (Some category_rows) (Some code_rows) db = (Ok (), r)
    /\ (import_icd.categories_count r + import_icd.categories_updated r
        = length category_rows)%nat
    /\ (import_icd.codes_count r + import_icd.codes_updated r
        + skipped r icd_version code_rows = length code_rows)%nat
    /\ warnings r = skipped r icd_version code_rows.
Proof.
  intros Hok Hcats Hcodes.
  destruct (handle_run icd_version category_rows code_rows db Hok Hcats Hcodes)
    as (r & Hrun & _ & Hc & Hd & Hw & _).
  by exists r.
Qed.

Lemma import_counts_every_row_witness :
  exists r : import_icd.Run,
    import_icd.handle "ICD-10" (Some Sample.categories_file)
      (Some Sample.codes_file_orphan) Sample.empty_db = (Ok (), r)
    /\ (import_icd.categories_count r + import_icd.categories_updated r
        = length Sample.categories_file)%nat
    /\ (import_icd.codes_count r + import_icd.codes_updated r
        + skipped r "ICD-10" Sample.codes_file_orphan
        = length Sample.codes_file_orphan)%nat
    /\ warnings r = skipped r "ICD-10" Sample.codes_file_orphan.
Proof.
  refine (import_counts_every_row "ICD-10" Sample.categories_file
            Sample.codes_file_orphan Sample.empty_db _ _ _).
  - exact empty_db_ok.
  - apply (bool_decide_unpack _). vm_compute. exact I.
  - apply (bool_decide_unpack _). vm_compute. exact I.
Defined.

(** X14.  What a completed import leaves in the tables: every key that
    was there is still there, every row of [categories.csv] has its
    category, and every row of [codes.csv] whose category is in the table
    has its code. *)
Theorem import_stores_rows (icd_version : string)
    (category_rows code_rows : list (gmap string string)) (db : DB) :
  db_ok db ->
  Forall (has_columns category_columns) category_rows ->
  Forall (has_columns code_columns) code_rows ->
  exists r : import_icd.Run,
    import_icd.handle icd_version (Some category_rows) (Some code_rows) db = (Ok (), r)
    /\ (forall key, key ∈ category_key <$> categories db ->
                    key ∈ category_key <$> categories (import_icd.db r))
    /\ (forall key, key ∈ code_key <$> codes db ->
                    key ∈ code_key <$> codes (import_icd.db r))
    /\ (forall row, row ∈ category_rows ->
                    row_category_key icd_version row
                    ∈ category_key <$> categories (import_icd.db r))
    /\ (forall row, row ∈ code_rows ->
                    ~ unresolved (import_icd.db r) icd_version row ->
                    row_code_key icd_version row
                    ∈ code_key <$> codes (import_icd.db r)).
Proof.
  intros Hok Hcats Hcodes.
  destruct (handle_run icd_version category_rows code_rows db Hok Hcats Hcodes)
    as (r & Hrun & _ & _ & _ & _ & Hkeys & Hmono & Hin & _).
  exists r. split; [done|].
  split; [intros key Hkey; apply Hkeys; by left|].
  split; [done|]. split; [|done].
  intros row Hrow. apply Hkeys. right. by apply list_elem_of_fmap_2.
Qed.

Lemma import_stores_rows_witness :
  exists r : import_icd.Run,
    import_icd.handle "ICD-10" (Some Sample.categories_file)
      (Some Sample.codes_file_orphan) Sample.db = (Ok (), r)
    /\ (forall key, key ∈ category_key <$> categories Sample.db ->
                    key ∈ category_key <$> categories (import_icd.db r))
    /\ (forall key, key ∈ code_key <$> codes Sample.db ->
                    key ∈ code_key <$> codes (import_icd.db r))
    /\ (forall row, row ∈ Sample.categories_file ->
                    row_category_key "ICD-10" row
                    ∈ category_key <$> categories (import_icd.db r))
    /\ (forall row, row ∈ Sample.codes_file_orphan ->
                    ~ unresolved (import_icd.db r) "ICD-10" row ->
                    row_code_key "ICD-10" row
                    ∈ code_key <$> codes (import_icd.db r)).
Proof.
  refine (import_stores_rows "ICD-10" Sample.categories_file Sample.codes_file_orphan
            Sample.db _ _ _).
  - exact sample_db_ok.
  - apply (bool_decide_unpack _). vm_compute. exact I.
  - apply (bool_decide_unpack _). vm_compute. exact I.
Defined.

(** X15.  The import can be repeated: run again on the database a
    completed import left, with the same files, it creates no row, counts
    every category row and every stored code row as updated, and leaves
    the primary keys of both tables as they were. *)
Theorem second_import_creates_nothing (icd_version : string)
    (category_rows code_rows : list (gmap string string)) (db : DB)
    (r1 : import_icd.Run) :
  db_ok db ->
  Forall (has_columns category_columns) category_rows ->
  Forall (has_columns code_columns) code_rows ->
  import_icd.handle icd_version (Some category_rows) (Some code_rows) db = (Ok (), r1) ->
  exists r2 : import_icd.Run,
    import_icd.handle icd_version (Some category_rows) (Some code_rows) (import_icd.db r1)
    = (Ok (), r2)
    /\ import_icd.categories_count r2 = 0%nat
    /\ import_icd.categories_updated r2 = length category_rows
    /\ import_icd.codes_count r2 = 0%nat
    /\ import_icd.codes_updated r2
       = (import_icd.codes_count r1 + import_icd.codes_updated r1)%nat
    /\ DiagnosisCategory.id <$> categories (import_icd.db r2)
       = DiagnosisCategory.id <$> categories (import_icd.db r1)
    /\ DiagnosisCode.id <$> codes (import_icd.db r2)
       = DiagnosisCode.id <$> codes (import_icd.db r1).
Proof.
  intros Hok Hcats Hcodes Hrun1.
  destruct (handle_run icd_version category_rows code_rows db Hok Hcats Hcodes)
    as (r & Hrun & Hok1 & _ & Hsum1 & _ & Hkeys1 & _ & Hin1 & _).
  rewrite Hrun1 in Hrun. injection Hrun as <-.
  destruct (handle_run icd_version category_rows code_rows (import_icd.db r1)
              Hok1 Hcats Hcodes)
    as (r2 & Hrun2 & _ & Hcsum2 & Hsum2 & _ & _ & _ & _ & Hsame).
  destruct Hsame as (Hc & Hk & Hi & Hsame).
  { apply Forall_forall. intros row Hrow. apply Hkeys1. right.
    by apply list_elem_of_fmap_2. }
  destruct Hsame as (Hc' & Hk' & Hi').
  { apply Forall_forall. intros row Hrow. by apply Hin1. }
  assert (skipped r2 icd_version code_rows = skipped r1 icd_version code_rows) as Hskip.
  { unfold skipped. f_equal. apply list_filter_iff. intros row.
    rewrite !unresolved_key. by rewrite Hk. }
  exists r2. split; [done|]. split; [done|]. split; [lia|]. split; [done|].
  split; [lia|]. done.
Qed.

Lemma second_import_creates_nothing_witness :
  exists r2 : import_icd.Run,
    import_icd.handle "ICD-10" (Some Sample.categories_file)
      (Some Sample.codes_file_orphan) (import_icd.db Sample.run_2.2)
    = (Ok (), r2)
    /\ import_icd.categories_count r2 = 0%nat
    /\ import_icd.categories_updated r2 = length Sample.categories_file
    /\ import_icd.codes_count r2 = 0%nat
    /\ import_icd.codes_updated r2
       = (import_icd.codes_count Sample.run_2.2
          + import_icd.codes_updated Sample.run_2.2)%nat
    /\ DiagnosisCategory.id <$> categories (import_icd.db r2)
       = DiagnosisCategory.id <$> categories (import_icd.db Sample.run_2.2)
    /\ DiagnosisCode.id <$> codes (import_icd.db r2)
       = DiagnosisCode.id <$> codes (import_icd.db Sample.run_2.2).
Proof.
  refine (second_import_creates_nothing "ICD-10" Sample.categories_file
            Sample.codes_file_orphan Sample.empty_db Sample.run_2.2 _ _ _ _).
  - exact empty_db_ok.
  - apply (bool_decide_unpack _). vm_compute. exact I.
  - apply (bool_decide_unpack _). vm_compute. exact I.
  - vm_compute. reflexivity.
Defined.








(** ** The views of categories *)

Lemma category_run_validation_cases (db : DB) (instance : DiagnosisCategory.t)
    (partial : bool) (data : CategoryPayload.t) :
  (exists errors,
      DiagnosisCategorySerializer.run_validation db instance partial data
      = Raise (ValidationError errors))
  \/ (exists validated_data,
         DiagnosisCategorySerializer.run_validation db instance partial data
         = Ok validated_data
         /\ DiagnosisCategorySerializer.to_internal_value partial data = Ok validated_data
         /\ Forall (fun r => ~ (DiagnosisCategory.id r <> DiagnosisCategory.id instance
                                /\ category_key r
                                   = category_key (DiagnosisCategorySerializer.update
                                                     instance validated_data)))
                   (categories db)).
Proof.
  unfold DiagnosisCategorySerializer.run_validation.
  destruct (DiagnosisCategorySerializer.to_internal_value partial data)
    as [value|e] eqn:Ev.
  - cbn. unfold DiagnosisCategorySerializer.UniqueTogetherValidator.
    destruct (filter _ (filter _ (categories db))) as [|x xs] eqn:Ef.
    + right. exists value. split; [done|]. split; [done|].
      apply Forall_forall. intros r Hr [Hid Hkey].
      apply (filter_nil_not_elem_of _ _ r Ef); [done|].
      apply list_elem_of_filter. split; [|done].
      unfold category_key in Hkey. cbn in Hkey. by injection Hkey as -> ->.
    + left. by eexists.
  - left. unfold DiagnosisCategorySerializer.to_internal_value in Ev.
    destruct (_ ++ _)%list in Ev; [done|]. injection Ev as <-. by eexists.
Qed.

(** X18.  On a database that keeps the promises of [models.py], every
    request to the detail view of categories gets a response, the
    database keeps the promises afterwards, so that no code is left
    without its category, and the table of codes is not touched. *)
Theorem category_detail_keeps_integrity (pk : Z) (request : Request.t CategoryPayload.t)
    (db : DB) :
  db_ok db ->
  exists resp db',
    diagnosis_category_detail pk request db = (Ok resp, db')
    /\ db_ok db'
    /\ codes db' = codes db.
Proof.
  intros Hok. unfold diagnosis_category_detail, api_view.
  destruct (decide (Request.method request ∈ [GET; PUT; DELETE])) as [Hm|Hm].
  2: { rewrite bool_decide_eq_false_2 by done. by eexists _, _. }
  rewrite bool_decide_eq_true_2 by done.
  unfold diagnosis_category_detail_view.
  destruct (filter _ (categories db)) as [|category cs] eqn:Ef.
  { cbn. by eexists _, _. }
  cbn [get_object_or_404].
  rewrite !elem_of_cons, elem_of_nil in Hm. destruct Hm as [->|[->|[->|[]]]].
  - by eexists _, _.
  - destruct (category_run_validation_cases db category false (Request.data request))
      as [[errors ->]|(validated_data & -> & _ & Hfree)].
    { by eexists _, _. }
    destruct (update_category db _) as [[k|e] db'] eqn:Eu.
    + destruct (update_category_ok _ _ _ _ Hok Eu) as (Hok' & _ & Hcodes).
      by eexists _, _.
    + exfalso. unfold update_category in Eu.
      rewrite (proj2 (filter_nil_Forall _ _)) in Eu; [done|].
      eapply Forall_impl; [exact Hfree|]. intros r Hr (Hid & Hc & Hv). apply Hr.
      split; [done|]. unfold category_key. by rewrite Hc, Hv.
  - destruct (delete_category db category) as [[[]|e] db'] eqn:Ed.
    + pose proof (delete_category_ok _ _ _ Hok Ed) as Hok'.
      assert (codes db' = codes db) as Hcodes.
      { unfold delete_category in Ed. destruct (filter _ (codes db)); [|done].
        by injection Ed as <-. }
      by eexists _, _.
    + assert (db' = db) as ->.
      { unfold delete_category in Ed. destruct (filter _ (codes db)); [done|].
        by injection Ed as _ <-. }
      by eexists _, _.
Qed.

Lemma category_detail_keeps_integrity_witness :
  exists resp db',
    diagnosis_category_detail 1 Sample.DELETE_category Sample.db = (Ok resp, db')
    /\ db_ok db'
    /\ codes db' = codes Sample.db.
Proof.
  refine (category_detail_keeps_integrity 1 Sample.DELETE_category Sample.db _).
  exact sample_db_ok.
Defined.

Global Instance category_le_trans : Transitive category_le.
Proof. intros x y z. unfold category_le. apply pair_le_trans. Qed.

Global Instance category_le_total : Total category_le.
Proof. intros x y. unfold category_le. apply pair_le_total. Qed.

Lemma order_by_category_sorted (queryset : list DiagnosisCategory.t) :
  StronglySorted category_le (order_by_category queryset).
Proof. apply StronglySorted_merge_sort; apply _. Qed.

Lemma order_by_category_perm (queryset : list DiagnosisCategory.t) :
  order_by_category queryset ≡ₚ queryset.
Proof. apply merge_sort_Permutation. Qed.

Lemma filter_Forall_id {A} (P : A -> Prop) `{!forall x, Decision (P x)} (l : list A) :
  Forall P l -> filter P l = l.
Proof.
  induction 1 as [|x l Hx Hl IH]; [done|].
  rewrite filter_cons, decide_True by done. by rewrite IH.
Qed.

Lemma category_list_queryset_perm (db : DB) (q : gmap string string) :
  category_list_queryset db q ≡ₚ filter (category_listed q) (categories db).
Proof.
  unfold category_list_queryset. rewrite order_by_category_perm.
  destruct (Py.if_truthy (q !! "icd_version")) as [v|] eqn:Ev.
  - apply if_truthy_Some in Ev as [Ev Hv].
    erewrite list_filter_iff; [done|].
    intros k. unfold category_listed. rewrite Ev. tauto.
  - rewrite filter_Forall_id; [done|].
    apply Forall_forall. intros k _. unfold category_listed.
    apply if_truthy_None in Ev as [->| ->]; done.
Qed.

(** The GET branch answers every request: with 404 for a page that does
    not exist, with the page otherwise. *)
Lemma category_list_GET (request : Request.t CategoryPayload.t) (db : DB) :
  Request.method request = GET ->
  let q := Request.query_params request in
  let l := category_list_queryset db q in
  let size := DiagnosisCodePagination.get_page_size q in
  match Paginator.page l size
          (DiagnosisCodePagination.get_page_number q (Paginator.num_pages l size)) with
  | Ok p =>
      diagnosis_category_list_create request db
      = (Ok {| CategoryListResponse.data :=
                 CategoryPageBody
                   (DiagnosisCodePagination.get_paginated_response p (Page.object_list p));
               CategoryListResponse.status_code := status.HTTP_200_OK |}, db)
  | Raise _ =>
      diagnosis_category_list_create request db
      = (Ok {| CategoryListResponse.data := DetailBody;
               CategoryListResponse.status_code := status.HTTP_404_NOT_FOUND |}, db)
  end.
Proof.
  intros Hm q l size.
  pose proof (get_page_size_range q) as Hs. fold size in Hs.
  unfold diagnosis_category_list_create, diagnosis_category_list_create_view.
  rewrite Hm. rewrite bool_decide_eq_true_2 by (apply list_elem_of_here).
  fold q. fold l. unfold DiagnosisCodePagination.paginate_queryset. fold size.
  destruct (size =? 0) eqn:E0; [lia|].
  destruct (Paginator.page l size _) as [p|e] eqn:Ep; [done|].
  unfold Paginator.page in Ep.
  destruct (Paginator.validate_number l size _) as [n|e'] eqn:En; [done|].
  cbn in Ep. injection Ep as <-.
  unfold Paginator.validate_number in En.
  destruct (match DiagnosisCodePagination.get_page_number q _ with
            | PageStr s => Py.int s | PageInt n => Some n end) as [n|].
  - destruct (n <? 1); [by injection En as <-|].
    destruct (n >? _); [by injection En as <-|done].
  - by injection En as <-.
Qed.

(** The envelope of a page, for any list: the count is the length of the
    list, and the links are there exactly when a page follows or
    precedes. *)
Lemma page_envelope {A} (l : list A) (size : Z) (number : PageNumber) (p : Page.t A) :
  0 < size ->
  Paginator.page l size number = Ok p ->
  1 <= Page.number p
  /\ (Page.number p - 1) * size < Z.max 1 (Z.of_nat (length l))
  /\ DiagnosisCodePagination.get_paginated_response p (Page.object_list p)
     = {| count := Z.of_nat (length l);
          next := (if Page.number p * size <? Z.of_nat (length l)
                   then Some (Page.number p + 1) else None);
          previous := (if 1 <? Page.number p then Some (Page.number p - 1) else None);
          results := take (Z.to_nat size)
                          (drop (Z.to_nat ((Page.number p - 1) * size)) l) |}.
Proof.
  intros Hpos Hpage.
  pose proof (page_window l size Hpos _ _ Hpage) as [[Hn1 Hn2] Hw].
  assert (Page.paginator_count p = Z.of_nat (length l)
          /\ Page.paginator_num_pages p = Paginator.num_pages l size) as [Hc Hnp].
  { unfold Paginator.page in Hpage.
    destruct (Paginator.validate_number l size _) as [n|]; [|done].
    cbn in Hpage. injection Hpage as <-. done. }
  pose proof (num_pages_eq l size) as Heq. unfold Paginator.count in Heq.
  split; [done|]. split.
  { apply ceil_div_lt; [done|]. lia. }
  unfold DiagnosisCodePagination.get_paginated_response. rewrite Hc, Hw. f_equal.
  - unfold DiagnosisCodePagination.get_next_link, Page.has_next. rewrite Hnp.
    destruct (Page.number p <? Paginator.num_pages l size) eqn:E1;
      destruct (Page.number p * size <? Z.of_nat (length l)) eqn:E2; try done; exfalso.
    + apply Z.ltb_lt in E1. rewrite Heq in E1. apply ceil_div_lt in E1; [|done]. nia.
    + apply Z.ltb_lt in E2.
      assert (Page.number p < Paginator.num_pages l size); [|lia].
      rewrite Heq. apply ceil_div_lt; [done|]. lia.
  - unfold DiagnosisCodePagination.get_previous_link, Page.has_previous.
    destruct (Page.number p >? 1) eqn:E1; destruct (1 <? Page.number p) eqn:E2;
      try done; lia.
Qed.

(** X19.  A GET on the list view of categories.  The sequence the view
    pages through holds the stored categories, each as often as the table
    does, of the requested [icd_version] when the parameter is given and
    not empty and all of them otherwise, in the order of [icd_version],
    then [code].  Every request is answered and none changes the
    database: with 404, or with status 200 and a page that is a window of
    [page_size] items of the sequence, the count of the whole sequence,
    and the links to the pages that exist.  Without a [page] parameter
    the answer is the first page. *)
Theorem category_list_view (request : Request.t CategoryPayload.t) (db : DB) :
  Request.method request = GET ->
  let q := Request.query_params request in
  let l := category_list_queryset db q in
  let size := DiagnosisCodePagination.get_page_size q in
  let page (n : Z) : CategoryListResponse.t :=
    {| CategoryListResponse.data :=
         CategoryPageBody
           {| count := Z.of_nat (length l);
              next := (if n * size <? Z.of_nat (length l) then Some (n + 1) else None);
              previous := (if 1 <? n then Some (n - 1) else None);
              results := take (Z.to_nat size) (drop (Z.to_nat ((n - 1) * size)) l) |};
       CategoryListResponse.status_code := status.HTTP_200_OK |} in
  l ≡ₚ filter (category_listed q) (categories db)
  /\ StronglySorted category_le l
  /\ (exists response,
         diagnosis_category_list_create request db = (Ok response, db)
         /\ (CategoryListResponse.status_code response = status.HTTP_404_NOT_FOUND
             \/ exists n, 1 <= n
                          /\ (n - 1) * size < Z.max 1 (Z.of_nat (length l))
                          /\ response = page n))
  /\ (q !! "page" = None ->
      diagnosis_category_list_create request db = (Ok (page 1), db)).
Proof.
  intros Hm q l size page.
  pose proof (get_page_size_range q) as Hs. fold size in Hs.
  assert (0 < size) as Hpos by lia.
  pose proof (category_list_GET request db Hm) as Hget. cbv zeta in Hget.
  fold q in Hget. fold l in Hget. fold size in Hget.
  split; [apply category_list_queryset_perm|].
  split; [apply order_by_category_sorted|].
  split.
  - destruct (Paginator.page l size _) as [p|e] eqn:Ep.
    + destruct (page_envelope l size _ p Hpos Ep) as (Hn & Hlt & Henv).
      eexists. split; [exact Hget|]. right. exists (Page.number p).
      split; [done|]. split; [done|]. unfold page. by rewrite Henv.
    + eexists. split; [exact Hget|]. by left.
  - intros Hpage.
    assert (DiagnosisCodePagination.get_page_number q (Paginator.num_pages l size)
            = PageInt 1) as Hone.
    { unfold DiagnosisCodePagination.get_page_number,
        DiagnosisCodePagination.page_query_param. by rewrite Hpage. }
    rewrite Hone in Hget.
    pose proof (num_pages_pos l size Hpos) as Hnp.
    pose proof (page_ok l size Hpos (PageInt 1) 1 eq_refl ltac:(lia)) as Hp.
    rewrite Hp in Hget.
    destruct (page_envelope l size _ _ Hpos Hp) as (_ & _ & Henv).
    rewrite Hget, Henv. done.
Qed.

Lemma category_list_view_witness :
  diagnosis_category_list_create (GET_categories ∅) Sample.db
  = (Ok {| CategoryListResponse.data :=
             CategoryPageBody {| count := 2; next := None; previous := None;
                                 results := [Sample.category_10; Sample.category_9] |};
           CategoryListResponse.status_code := status.HTTP_200_OK |}, Sample.db).
Proof.
  refine (eq_trans (proj2 (proj2 (proj2 (category_list_view (GET_categories ∅) Sample.db
                                           _))) _) _).
  - reflexivity.
  - reflexivity.
  - vm_compute. reflexivity.
Defined.

Lemma category_to_internal_value_fields (partial : bool) (data value : CategoryPayload.t) :
  DiagnosisCategorySerializer.to_internal_value partial data = Ok value ->
  CategoryPayload.code value = Py.strip <$> CategoryPayload.code data
  /\ CategoryPayload.title value = Py.strip <$> CategoryPayload.title data
  /\ CategoryPayload.icd_version value = Py.strip <$> CategoryPayload.icd_version data
  /\ (partial = false ->
      is_Some (CategoryPayload.code data) /\ is_Some (CategoryPayload.title data)
      /\ is_Some (CategoryPayload.icd_version data)).
Proof.
  unfold DiagnosisCategorySerializer.to_internal_value.
  destruct (_ ++ _)%list as [|e errors] eqn:E; [|done].
  apply app_eq_nil in E as [H1 E]. apply app_eq_nil in E as [H2 H3].
  intros [= <-]. cbn [CategoryPayload.code CategoryPayload.title CategoryPayload.icd_version].
  apply run_CharField_inv in H1 as (-> & _ & R1).
  apply run_CharField_inv in H2 as (-> & _ & R2).
  apply run_CharField_inv in H3 as (-> & _ & R3).
  do 3 (split; [done|]). intros ->. auto.
Qed.

(** X20.  A POST on the list view of categories, on a database that keeps
    the promises of [models.py]: the request is answered, with 400 and
    nothing stored, or with 201 and one category appended to the table
    under the next primary key, holding the three texts of the payload
    without the white space around them; its pair of code and version
    was not in the table.  The codes are not touched and the database
    keeps the promises. *)
Theorem category_create (request : Request.t CategoryPayload.t) (db : DB) :
  db_ok db ->
  Request.method request = POST ->
  exists response db',
    diagnosis_category_list_create request db = (Ok response, db')
    /\ db_ok db'
    /\ codes db' = codes db
    /\ ((CategoryListResponse.status_code response = status.HTTP_400_BAD_REQUEST
         /\ db' = db)
        \/ exists k,
             response = {| CategoryListResponse.data := CreatedBody k;
                           CategoryListResponse.status_code := status.HTTP_201_CREATED |}
             /\ categories db' = (categories db ++ [k])%list
             /\ DiagnosisCategory.id k = category_seq db
             /\ Py.strip <$> CategoryPayload.code (Request.data request)
                = Some (DiagnosisCategory.code k)
             /\ Py.strip <$> CategoryPayload.title (Request.data request)
                = Some (DiagnosisCategory.title k)
             /\ Py.strip <$> CategoryPayload.icd_version (Request.data request)
                = Some (DiagnosisCategory.icd_version k)
             /\ (category_key k ∉ category_key <$> categories db)).
Proof.
  intros Hok Hm.
  unfold diagnosis_category_list_create, diagnosis_category_list_create_view.
  rewrite Hm. rewrite bool_decide_eq_true_2 by (apply list_elem_of_further, list_elem_of_here).
  unfold category_create_validation.
  destruct (DiagnosisCategorySerializer.to_internal_value false (Request.data request))
    as [value|e] eqn:Ev.
  2: { unfold DiagnosisCategorySerializer.to_internal_value in Ev.
       destruct (_ ++ _)%list in Ev; [done|]. injection Ev as <-. cbn.
       eexists _, _. split; [reflexivity|]. split; [done|]. split; [done|]. by left. }
  cbn.
  destruct (category_to_internal_value_fields _ _ _ Ev) as (Hc & Ht & Hv & Hreq).
  destruct (Hreq eq_refl) as ([c Ec] & [t Et] & [v Ev']).
  rewrite Ec in Hc. rewrite Et in Ht. rewrite Ev' in Hv. cbn in Hc, Ht, Hv.
  destruct (filter _ (categories db)) as [|x xs] eqn:Ef.
  2: { eexists _, _. split; [reflexivity|]. split; [done|]. split; [done|]. by left. }
  destruct (create_category db value) as [[k|e] db'] eqn:Ei.
  - unfold create_category in Ei.
    pose proof (fun H => insert_category_ok _ _ _ _ Hok H Ei) as Hins.
    destruct (Hins eq_refl) as (Hok' & -> & Hcats & Hcodes).
    eexists _, _. split; [reflexivity|]. split; [done|]. split; [done|].
    right. eexists. split; [reflexivity|]. split; [done|].
    cbn [DiagnosisCategory.id DiagnosisCategory.code DiagnosisCategory.title
         DiagnosisCategory.icd_version].
    rewrite Ec, Et, Ev', Hc, Ht, Hv. cbn. do 4 (split; [done|]).
    intros Hin. apply list_elem_of_fmap in Hin as (r & Hr & Hin).
    apply (filter_nil_not_elem_of _ _ r Ef); [|done].
    unfold category_key in Hr. cbn in Hr. rewrite Hc, Hv. cbn.
    by injection Hr as <- <-.
  - exfalso. unfold create_category, insert_category in Ei. cbn in Ei.
    by rewrite Ef in Ei.
Qed.

Lemma category_create_witness :
  exists response db',
    diagnosis_category_list_create (POST_category " B00 " "Herpes" "ICD-10") Sample.db
    = (Ok response, db')
    /\ db_ok db'
    /\ codes db' = codes Sample.db
    /\ ((CategoryListResponse.status_code response = status.HTTP_400_BAD_REQUEST
         /\ db' = Sample.db)
        \/ exists k,
             response = {| CategoryListResponse.data := CreatedBody k;
                           CategoryListResponse.status_code := status.HTTP_201_CREATED |}
             /\ categories db' = (categories Sample.db ++ [k])%list
             /\ DiagnosisCategory.id k = category_seq Sample.db
             /\ Py.strip <$> CategoryPayload.code
                               (Request.data (POST_category " B00 " "Herpes" "ICD-10"))
                = Some (DiagnosisCategory.code k)
             /\ Py.strip <$> CategoryPayload.title
                               (Request.data (POST_category " B00 " "Herpes" "ICD-10"))
                = Some (DiagnosisCategory.title k)
             /\ Py.strip <$> CategoryPayload.icd_version
                               (Request.data (POST_category " B00 " "Herpes" "ICD-10"))
                = Some (DiagnosisCategory.icd_version k)
             /\ (category_key k ∉ category_key <$> categories Sample.db)).
Proof.
  refine (category_create (POST_category " B00 " "Herpes" "ICD-10") Sample.db _ _).
  - exact sample_db_ok.
  - reflexivity.
Defined.

(** X21.  A POST on the list view of categories whose code and version,
    without the white space around them, are those of a stored category
    is answered with 400, and nothing is stored. *)
Theorem duplicate_category_rejected (request : Request.t CategoryPayload.t) (db : DB)
    (code icd_version : string) (k : DiagnosisCategory.t) :
  Request.method request = POST ->
  CategoryPayload.code (Request.data request) = Some code ->
  CategoryPayload.icd_version (Request.data request) = Some icd_version ->
  k ∈ categories db ->
  DiagnosisCategory.code k = Py.strip code ->
  DiagnosisCategory.icd_version k = Py.strip icd_version ->
  exists errors,
    diagnosis_category_list_create request db
    = (Ok {| CategoryListResponse.data := InvalidBody errors;
             CategoryListResponse.status_code := status.HTTP_400_BAD_REQUEST |}, db)
    /\ (DiagnosisCategorySerializer.to_internal_value false (Request.data request)
        = Raise (ValidationError errors)
        \/ errors = [("non_field_errors", [DiagnosisCategorySerializer.unique_message])]).
Proof.
  intros Hm Hc Hv Hk Hkc Hkv.
  unfold diagnosis_category_list_create, diagnosis_category_list_create_view.
  rewrite Hm. rewrite bool_decide_eq_true_2 by (apply list_elem_of_further, list_elem_of_here).
  unfold category_create_validation.
  destruct (DiagnosisCategorySerializer.to_internal_value false (Request.data request))
    as [value|e] eqn:Ev.
  2: { unfold DiagnosisCategorySerializer.to_internal_value in Ev.
       destruct (_ ++ _)%list in Ev; [done|]. injection Ev as <-. cbn.
       eexists. split; [reflexivity|]. by left. }
  cbn.
  destruct (category_to_internal_value_fields _ _ _ Ev) as (Hc' & _ & Hv' & _).
  rewrite Hc in Hc'. rewrite Hv in Hv'. cbn in Hc', Hv'.
  destruct (filter _ (categories db)) as [|x xs] eqn:Ef.
  - exfalso. apply (filter_nil_not_elem_of _ _ k Ef); [|done].
    rewrite Hc', Hv'. cbn. done.
  - eexists. split; [reflexivity|]. by right.
Qed.

Lemma duplicate_category_rejected_witness :
  exists errors,
    diagnosis_category_list_create (POST_category "A0" "Again" " ICD-10") Sample.db
    = (Ok {| CategoryListResponse.data := InvalidBody errors;
             CategoryListResponse.status_code := status.HTTP_400_BAD_REQUEST |}, Sample.db)
    /\ (DiagnosisCategorySerializer.to_internal_value false
          (Request.data (POST_category "A0" "Again" " ICD-10"))
        = Raise (ValidationError errors)
        \/ errors = [("non_field_errors", [DiagnosisCategorySerializer.unique_message])]).
Proof.
  refine (duplicate_category_rejected (POST_category "A0" "Again" " ICD-10") Sample.db
            "A0" " ICD-10" Sample.category_10 _ _ _ _ _ _).
  - reflexivity.
  - reflexivity.
  - reflexivity.
  - apply list_elem_of_here.
  - reflexivity.
  - reflexivity.
Defined.

(** X22.  A DELETE on the detail view of a stored category that no code
    refers to is answered with 204 and removes the rows with that primary
    key and no other row; the codes stay; a request for the same key
    afterwards, whatever its method among the three of the view, is
    answered with 404. *)
Theorem delete_category_then_not_found (pk : Z)
    (request request' : Request.t CategoryPayload.t) (db : DB) :
  Request.method request = DELETE ->
  Exists (fun k => DiagnosisCategory.id k = pk) (categories db) ->
  Forall (fun c => DiagnosisCode.category_id c <> Some pk) (codes db) ->
  Request.method request' ∈ [GET; PUT; DELETE] ->
  exists db',
    diagnosis_category_detail pk request db
    = (Ok (Response (ObjectBody "message" "Category deleted successfully")
             status.HTTP_204_NO_CONTENT), db')
    /\ categories db' = filter (fun k => DiagnosisCategory.id k <> pk) (categories db)
    /\ codes db' = codes db
    /\ exists response,
         diagnosis_category_detail pk request' db' = (Ok response, db')
         /\ Response.status_code response = status.HTTP_404_NOT_FOUND.
Proof.
  intros Hm Hex Hfree Hm'.
  destruct (filter_cons_Exists _ _ Hex) as (k & ks & Ef & Hid & _).
  unfold diagnosis_category_detail at 1, api_view, diagnosis_category_detail_view at 1.
  rewrite Hm. rewrite bool_decide_eq_true_2 by (do 2 apply list_elem_of_further; left).
  rewrite Ef. cbn [get_object_or_404]. unfold delete_category. rewrite Hid.
  rewrite (proj2 (filter_nil_Forall
                    (fun c => DiagnosisCode.category_id c = Some pk) _) Hfree).
  eexists. split; [reflexivity|]. cbn [categories codes].
  split; [done|]. split; [done|].
  unfold diagnosis_category_detail, api_view, diagnosis_category_detail_view.
  rewrite bool_decide_eq_true_2 by done. cbn [categories].
  rewrite (proj2 (filter_nil_Forall (fun k => DiagnosisCategory.id k = pk) _)).
  - by eexists.
  - apply Forall_forall. intros r Hr. apply list_elem_of_filter in Hr as [Hr _].
    congruence.
Qed.

Lemma delete_category_then_not_found_witness :
  exists db',
    diagnosis_category_detail 2 Sample.DELETE_category Sample.db
    = (Ok (Response (ObjectBody "message" "Category deleted successfully")
             status.HTTP_204_NO_CONTENT), db')
    /\ categories db'
       = filter (fun k => DiagnosisCategory.id k <> 2) (categories Sample.db)
    /\ codes db' = codes Sample.db
    /\ exists response,
         diagnosis_category_detail 2 Sample.DELETE_category db' = (Ok response, db')
         /\ Response.status_code response = status.HTTP_404_NOT_FOUND.
Proof.
  refine (delete_category_then_not_found 2 Sample.DELETE_category Sample.DELETE_category
            Sample.db _ _ _ _).
  - reflexivity.
  - apply Exists_cons_tl, Exists_cons_hd. reflexivity.
  - repeat constructor; discriminate.
  - do 2 apply list_elem_of_further. apply list_elem_of_here.
Defined.

(** X23.  A PUT on the detail view of categories that is answered with
    200 replaces the three texts of the one stored category with the
    primary key by those of the payload, without the white space around
    them, and answers with the new row; the primary key stays, and so
    does every row of the table of codes, whatever category it refers
    to. *)
Theorem category_update_replaces (pk : Z) (request : Request.t CategoryPayload.t)
    (db db' : DB) (response : Response.t) :
  Request.method request = PUT ->
  diagnosis_category_detail pk request db = (Ok response, db') ->
  Response.status_code response = status.HTTP_200_OK ->
  exists old new,
    old ∈ categories db /\ DiagnosisCategory.id old = pk /\ DiagnosisCategory.id new = pk
    /\ Response.data response = CategoryBody new
    /\ categories db'
       = (fun r => if bool_decide (DiagnosisCategory.id r = pk) then new else r)
           <$> categories db
    /\ codes db' = codes db
    /\ Py.strip <$> CategoryPayload.code (Request.data request)
       = Some (DiagnosisCategory.code new)
    /\ Py.strip <$> CategoryPayload.title (Request.data request)
       = Some (DiagnosisCategory.title new)
    /\ Py.strip <$> CategoryPayload.icd_version (Request.data request)
       = Some (DiagnosisCategory.icd_version new).
Proof.
  intros Hm Hrun Hstatus. revert Hrun.
  unfold diagnosis_category_detail, api_view, diagnosis_category_detail_view.
  rewrite Hm. rewrite bool_decide_eq_true_2 by (apply list_elem_of_further; left).
  destruct (filter _ (categories db)) as [|old olds] eqn:Ef.
  { cbn. intros [= <- <-]. done. }
  assert (old ∈ categories db /\ DiagnosisCategory.id old = pk) as [Hold Hid].
  { assert (old ∈ filter (fun k => DiagnosisCategory.id k = pk) (categories db)) as Hin
      by (rewrite Ef; left).
    by apply list_elem_of_filter in Hin as [? ?]. }
  cbn [get_object_or_404].
  destruct (category_run_validation_cases db old false (Request.data request))
    as [[errors ->]|(validated_data & -> & Hvalue & _)].
  { intros [= <- <-]. done. }
  destruct (category_to_internal_value_fields _ _ _ Hvalue) as (Hc & Ht & Hv & Hreq).
  destruct (Hreq eq_refl) as ([c Ec] & [t Et] & [v Ev]).
  rewrite Ec in Hc. rewrite Et in Ht. rewrite Ev in Hv. cbn in Hc, Ht, Hv.
  unfold update_category.
  match goal with
  | |- context [match filter ?P (categories db) with _ => _ end] =>
      destruct (filter P (categories db)) as [|x xs]; [|cbn; done]
  end.
  intros [= <- <-].
  exists old, (DiagnosisCategorySerializer.update old validated_data).
  split; [done|]. split; [done|]. split; [done|]. split; [done|].
  cbn [categories codes DiagnosisCategorySerializer.update DiagnosisCategory.id
       DiagnosisCategory.code DiagnosisCategory.title DiagnosisCategory.icd_version].
  rewrite Hid, Ec, Et, Ev, Hc, Ht, Hv. cbn. done.
Qed.

Lemma category_update_replaces_witness :
  exists old new,
    old ∈ categories Sample.db /\ DiagnosisCategory.id old = 1
    /\ DiagnosisCategory.id new = 1
    /\ Response.data Sample2.PUT_category_response = CategoryBody new
    /\ categories Sample2.db_after_PUT_category
       = (fun r => if bool_decide (DiagnosisCategory.id r = 1) then new else r)
           <$> categories Sample.db
    /\ codes Sample2.db_after_PUT_category = codes Sample.db
    /\ Py.strip <$> CategoryPayload.code (Request.data Sample2.PUT_category)
       = Some (DiagnosisCategory.code new)
    /\ Py.strip <$> CategoryPayload.title (Request.data Sample2.PUT_category)
       = Some (DiagnosisCategory.title new)
    /\ Py.strip <$> CategoryPayload.icd_version (Request.data Sample2.PUT_category)
       = Some (DiagnosisCategory.icd_version new).
Proof.
  refine (category_update_replaces 1 Sample2.PUT_category Sample.db
            Sample2.db_after_PUT_category Sample2.PUT_category_response _ _ _).
  - reflexivity.
  - vm_compute. reflexivity.
  - reflexivity.
Defined.
